(** * license-reporter: the dependency pipeline of [generate_license_report.py]

    A shallow embedding of [DependencyInfo] and of the methods of
    [LicenseReporter] that discover, parse, filter and report dependencies,
    followed by the properties stated about them.

    Python [str] values are modelled by [string]; a character stands for the
    code point of the same number, so the model covers text whose code points
    are below 256.  On that range [str.lower], [str.strip], [str.isspace] and
    the regular-expression classes used by the program are written out in full
    below. *)

From Stdlib Require Import Ascii String NArith Bool List Sorted Permutation Lia.
From stdpp Require Import base list.
Import ListNotations.

Open Scope string_scope.
Open Scope list_scope.

(** ** Python [str] primitives *)

Module PyStr.

Definition code (c : ascii) : N := N_of_ascii c.

(** [c.lower()] for one character: A-Z and the cased upper half of Latin-1
    (U+00C0..U+00DE except the multiplication sign U+00D7) move up by 32. *)
Definition lower_char (c : ascii) : ascii :=
  let n := code c in
  if ((65 <=? n) && (n <=? 90))%N
     || ((192 <=? n) && (n <=? 222) && negb (n =? 215))%N
  then ascii_of_N (n + 32) else c.

(** [s.lower()] *)
Fixpoint lower (s : string) : string :=
  match s with
  | EmptyString => EmptyString
  | String c s' => String (lower_char c) (lower s')
  end.

(** [c.isspace()], also the class [\s] of [re] on [str] patterns:
    TAB..CR, FS..US, space, NEL and the no-break space. *)
Definition isspace (c : ascii) : bool :=
  let n := code c in
  (((9 <=? n) && (n <=? 13)) || ((28 <=? n) && (n <=? 32))
   || (n =? 133) || (n =? 160))%N.

(** [s.lstrip()] *)
Fixpoint lstrip (s : string) : string :=
  match s with
  | EmptyString => EmptyString
  | String c s' => if isspace c then lstrip s' else s
  end.

(** [s.rstrip()] *)
Fixpoint rstrip (s : string) : string :=
  match s with
  | EmptyString => EmptyString
  | String c s' =>
      match rstrip s' with
      | EmptyString => if isspace c then EmptyString else String c EmptyString
      | r => String c r
      end
  end.

(** [s.strip()] *)
Definition strip (s : string) : string := rstrip (lstrip s).

(** [s.startswith(p)] *)
Definition startswith (s p : string) : bool := String.prefix p s.

(** [s.endswith(p)] *)
Fixpoint endswith (s p : string) : bool :=
  String.eqb s p ||
  match s with
  | EmptyString => false
  | String _ s' => endswith s' p
  end.

(** [sub in s] *)
Fixpoint contains (sub s : string) : bool :=
  String.prefix sub s ||
  match s with
  | EmptyString => false
  | String _ s' => contains sub s'
  end.

(** [c in s] for a single character *)
Fixpoint has_char (c : ascii) (s : string) : bool :=
  match s with
  | EmptyString => false
  | String d s' => Ascii.eqb c d || has_char c s'
  end.

(** [s[n:]] *)
Fixpoint drop (n : nat) (s : string) : string :=
  match n, s with
  | O, _ => s
  | S n', String _ s' => drop n' s'
  | S _, EmptyString => EmptyString
  end.

(** The longest prefix of [s] whose characters all satisfy [p], and the rest. *)
Fixpoint span (p : ascii -> bool) (s : string) : string * string :=
  match s with
  | EmptyString => (EmptyString, EmptyString)
  | String c s' =>
      if p c then let '(a, b) := span p s' in (String c a, b)
      else (EmptyString, s)
  end.

(** [any(k in s for k in keys)] *)
Definition contains_any (keys : list string) (s : string) : bool :=
  existsb (fun k => contains k s) keys.

(** [s in keys] for a list or set of strings *)
Definition mem (s : string) (keys : list string) : bool :=
  existsb (String.eqb s) keys.

End PyStr.

(** ** AttributionPolicy: [_requires_attribution] *)

Definition attribution_required : list string :=
  ["mit"; "bsd"; "apache"; "isc"; "mpl"; "mozilla"; "creative commons"; "cc-by"].

Definition no_attribution : list string :=
  ["public domain"; "unlicense"; "wtfpl"].

(** The first loop returns [False] at the first hit, the second returns [True]
    at the first hit, and the fall-through returns [True]. *)
Definition _requires_attribution (license_text : string) : bool :=
  let license_lower := PyStr.lower license_text in
  if PyStr.contains_any no_attribution license_lower then false
  else if PyStr.contains_any attribution_required license_lower then true
  else true.

(** ** The fragment of Python's [re] reached by the program

    [_matches_pattern] hands [re.match] the text ['^' + regex_pattern + '$'].
    The engine is modelled for regular expressions made of ordinary
    characters, [.] and a starred atom between the two anchors; every other
    expression is left to a parameter of [_matches_pattern] below. *)

Module Re.

Inductive atom : Type :=
| Lit (c : ascii)          (* an ordinary character *)
| Dot.                     (* [.]: any character except a newline *)

Inductive item : Type :=
| One (a : atom)
| Star (a : atom).         (* [a*] *)

(** Characters with a meaning of their own in [re] syntax. *)
Definition special (c : ascii) : bool := PyStr.has_char c ".^$*+?{}[]\|()".

Definition newline : ascii := ascii_of_N 10.

Definition parse_atom (c : ascii) : option atom :=
  if Ascii.eqb c "." then Some Dot
  else if special c then None
  else Some (Lit c).

(** The text after the leading [^]: atoms, each optionally starred, up to
    the closing [$]. *)
Fixpoint parse_body (s : string) : option (list item) :=
  match s with
  | EmptyString => None
  | String c s' =>
      if Ascii.eqb c "$" then
        match s' with EmptyString => Some [] | _ => None end
      else
        match parse_atom c with
        | None => None
        | Some a =>
            match s' with
            | String d s'' =>
                if Ascii.eqb d "*"
                then option_map (cons (Star a)) (parse_body s'')
                else option_map (cons (One a)) (parse_body s')
            | EmptyString => None
            end
        end
  end.

Definition compile (regex : string) : option (list item) :=
  match regex with
  | String c body => if Ascii.eqb c "^" then parse_body body else None
  | EmptyString => None
  end.

(** One character against one atom under [re.IGNORECASE]; on code points
    below 256 the letters [re] takes for equal are those with the same
    lowercase form. *)
Definition atom_matches (a : atom) (c : ascii) : bool :=
  match a with
  | Lit p => Ascii.eqb (PyStr.lower_char p) (PyStr.lower_char c)
  | Dot => negb (Ascii.eqb c newline)
  end.

(** [$] without [re.MULTILINE]: the end of the text, or just before a
    newline that ends the text. *)
Definition at_dollar (s : string) : bool :=
  match s with
  | EmptyString => true
  | String c EmptyString => Ascii.eqb c newline
  | _ => false
  end.

(** Does the whole item sequence, then [$], match starting at the head of the
    text?  A star tries every number of repetitions. *)
Fixpoint run (items : list item) : string -> bool :=
  match items with
  | [] => at_dollar
  | One a :: rest =>
      fun s =>
        match s with
        | EmptyString => false
        | String c s' => atom_matches a c && run rest s'
        end
  | Star a :: rest =>
      let k := run rest in
      fix star (s : string) : bool :=
        k s ||
        match s with
        | EmptyString => false
        | String c s' => atom_matches a c && star s'
        end
  end.

End Re.

(** [s.replace(c, by)] for a one-character [c] *)
Fixpoint replace_char (c : ascii) (by_ : string) (s : string) : string :=
  match s with
  | EmptyString => EmptyString
  | String d s' =>
      if Ascii.eqb c d then by_ ++ replace_char c by_ s'
      else String d (replace_char c by_ s')
  end.

(** ** Data model *)

(** [class DependencyInfo]; [dep_type] is one of the strings
    runtime, dev, optional, build. *)
Record DependencyInfo : Type := mkDep {
  name : string;
  version_spec : string;
  dep_type : string
}.

(** [DependencyInfo.__init__] trims the name and the version spec. *)
Definition new_DependencyInfo (nm vs ty : string) : DependencyInfo :=
  {| name := PyStr.strip nm; version_spec := PyStr.strip vs; dep_type := ty |}.

Definition build_time_packages : list string :=
  ["pip"; "setuptools"; "wheel"; "build"; "twine"; "virtualenv"; "venv";
   "pyinstaller"; "pytest"; "mypy"; "black"; "flake8"; "isort"; "coverage";
   "tox"; "pre-commit"; "sphinx"; "mkdocs"; "jupyter"; "notebook";
   "ipython"; "ipykernel"; "conda"; "mamba"; "poetry"; "pipenv"; "flit";
   "hatch"; "pdm"; "bandit"; "safety"; "autopep8"; "yapf"; "pylint";
   "pydocstyle"; "pycodestyle"; "pyflakes"; "mccabe"].

Definition type_stub_packages : list string :=
  ["types-"; "typing-extensions"; "mypy-extensions"; "stub-"].

Definition test_packages : list string :=
  ["pytest"; "unittest2"; "nose"; "nose2"; "testtools"; "mock";
   "pytest-cov"; "pytest-xdist"; "pytest-mock"; "factory-boy";
   "faker"; "hypothesis"; "tox"; "coverage"; "codecov"].

(** ** The world outside the program *)

(** A text file as the program reads it.  Iterating over the open file yields
    [lines] in order (each with its line terminator) and then, when [fails]
    holds, raises instead of ending; [f.read()] returns the concatenation, or
    raises when [fails] holds.  A file that cannot be opened or decoded at all
    has no line and fails. *)
Record TextFile : Type := mkFile {
  lines : list string;
  fails : bool
}.

Definition unreadable : TextFile := {| lines := []; fails := true |}.

(** What [toml.load] returns: strings, other scalars (with their [str()]
    text), arrays and tables in file order. *)
#[warnings="-register-all"]
Inductive toml_value : Type :=
| TStr (s : string)
| TScalar (text : string)
| TArray (elems : list toml_value)
| TTable (entries : list (string * toml_value)).

(** An installed distribution as [pkg_resources] shows it: its version and
    the text of METADATA ([None] when [get_metadata] is absent or raises). *)
Record Distribution : Type := mkDist {
  dist_version : string;
  dist_metadata : option string
}.

Record World : Type := mkWorld {
  (** [re.match(regex, text, re.IGNORECASE)] as a truth value for regular
      expressions outside the fragment of [Re]; [None] is [re.error]. *)
  re_other : string -> string -> option bool;
  (** [str(self.project_root / name)] *)
  path_text : string -> string;
  (** the file named [name] in the project root, if the path exists; the
      answers of [Path.exists] are taken as given, a call of it that raises
      is not modelled *)
  fs : string -> option TextFile;
  (** the [toml] module, if it could be imported; [toml.load] on a file's
      text, [None] when it raises *)
  toml : option (string -> option toml_value);
  (** [str(v)] for an array read from TOML *)
  str_of_array : list toml_value -> string;
  (** [pkg_resources.get_distribution(name)]; [None] when [pkg_resources] is
      missing or the lookup raises *)
  get_distribution : string -> option Distribution
}.

(** A [pathlib.Path] below the project root: its text and its last component. *)
Record Path : Type := mkPath {
  path_str : string;
  path_name : string
}.

(** A line printed by a parser that caught an exception. *)
Inductive warning : Type :=
| ParseWarning (file_path : string)       (* Warning: Error parsing ... *)
| TomlMissingWarning.                     (* Warning: toml package not available ... *)

(** ** ManifestLocator: [discover_dependency_files] *)

Definition candidates : list string :=
  ["requirements.txt"; "setup.py"; "setup.cfg"; "pyproject.toml"; "Pipfile";
   "environment.yml"; "environment.yaml"; "conda.yml";
   "requirements-dev.txt"; "dev-requirements.txt"; "test-requirements.txt"].

Definition project_file (w : World) (file_name : string) : Path :=
  {| path_str := path_text w file_name; path_name := file_name |}.

(** The dict [files], in insertion order. *)
Definition discover_dependency_files (w : World) : list (string * Path) :=
  map (fun n => (n, project_file w n))
      (List.filter (fun n => match fs w n with Some _ => true | None => false end)
                   candidates).

(** [open(file_path, 'r', encoding='utf-8')] *)
Definition open_file (w : World) (file_path : Path) : TextFile :=
  match fs w (path_name file_path) with
  | Some f => f
  | None => unreadable
  end.

(** ** ManifestParser *)

Definition _determine_dep_type_from_filename (filename : string) : string :=
  let filename_lower := PyStr.lower filename in
  if PyStr.contains_any ["dev"; "development"] filename_lower then "dev"
  else if PyStr.contains_any ["test"; "testing"] filename_lower then "dev"
  else if PyStr.contains_any ["doc"; "docs"] filename_lower then "dev"
  else "runtime".

(** The class [[a-zA-Z0-9_.-]] *)
Definition is_name_char (c : ascii) : bool :=
  let n := PyStr.code c in
  (((97 <=? n) && (n <=? 122)) || ((65 <=? n) && (n <=? 90))
   || ((48 <=? n) && (n <=? 57)) || (n =? 95) || (n =? 46) || (n =? 45))%N.

(** [re.match] of the line pattern (a non-empty greedy run of name characters
    as group 1, then any characters as group 2, then the end) on a stripped
    line: the groups, or [None] when there is no match.  The first group is the longest
    run of name characters; [.] does not cross a newline and a stripped line
    does not end in one, so a newline in the rest defeats the match. *)
Definition match_requirement (line : string) : option (string * string) :=
  let '(run, rest) := PyStr.span is_name_char line in
  match run with
  | EmptyString => None
  | _ => if PyStr.has_char Re.newline rest then None else Some (run, rest)
  end.

(** The body of the loop of [parse_requirements_txt] for one line: the entry
    appended, or [None] when the line is skipped. *)
Definition parse_requirement_line (file_name line : string)
  : option DependencyInfo :=
  let line := PyStr.strip line in
  match line with
  | EmptyString => None
  | _ =>
      if PyStr.startswith line "#" then None
      else if PyStr.startswith line "-" then None
      else
        match match_requirement line with
        | Some (nm, version_spec) =>
            let dep_type := _determine_dep_type_from_filename file_name in
            Some (new_DependencyInfo nm version_spec dep_type)
        | None => None
        end
  end.

(** The [for] loop over the open file, threading [dependencies]: its value
    when the loop stops, and whether it stopped because reading raised. *)
Fixpoint read_requirements (file_name : string) (f_lines : list string)
    (f_fails : bool) (dependencies : list DependencyInfo)
  : list DependencyInfo * bool :=
  match f_lines with
  | [] => (dependencies, f_fails)
  | l :: rest =>
      read_requirements file_name rest f_fails
        match parse_requirement_line file_name l with
        | Some dep => dependencies ++ [dep]
        | None => dependencies
        end
  end.

(** [parse_requirements_txt]: [dependencies] starts empty before the [try],
    the [except] branch prints the warning, and [dependencies] is returned
    after it. *)
Definition parse_requirements_txt (w : World) (file_path : Path)
  : list DependencyInfo * list warning :=
  let f := open_file w file_path in
  let '(dependencies, exception) :=
    read_requirements (path_name file_path) (lines f) (fails f) [] in
  (dependencies,
   if exception then [ParseWarning (path_str file_path)] else []).

(** The class [[<>=!]] *)
Definition is_operator_char (c : ascii) : bool := PyStr.has_char c "<>=!".

(** [re.split(r'[<>=!]', spec)[0]] *)
Definition before_operator (spec : string) : string :=
  fst (PyStr.span (fun c => negb (is_operator_char c)) spec).

(** The text of [spec] from its first operator character on. *)
Definition from_operator (spec : string) : string :=
  snd (PyStr.span (fun c => negb (is_operator_char c)) spec).

(** The three lines shared by [parse_setup_py] and [parse_pyproject_toml]:
    [name = re.split(r'[<>=!]', spec)[0].strip()],
    [version_spec = spec[len(name):].strip()], and the constructor. *)
Definition split_spec (spec dep_type : string) : DependencyInfo :=
  let nm := PyStr.strip (before_operator spec) in
  let version_spec := PyStr.strip (PyStr.drop (String.length nm) spec) in
  new_DependencyInfo nm version_spec dep_type.

Definition is_quote (c : ascii) : bool :=
  Ascii.eqb c (ascii_of_N 34) || Ascii.eqb c (ascii_of_N 39).

(** [re.findall] of: a quote (single or double), a non-empty run of
    characters that are not quotes as the group, a quote; scanning left to
    right.
    [inside] is [Some acc] after an opening quote, [acc] holding the
    characters since (in reverse).  A quote met with [acc] empty cannot close
    a match and is tried as an opening quote itself. *)
Fixpoint findall_quoted_from (inside : option (list ascii)) (s : string)
  : list string :=
  match s with
  | EmptyString => []
  | String c s' =>
      match inside with
      | None =>
          findall_quoted_from (if is_quote c then Some [] else None) s'
      | Some acc =>
          if is_quote c then
            match acc with
            | [] => findall_quoted_from (Some []) s'
            | _ => string_of_list_ascii (rev acc)
                     :: findall_quoted_from None s'
            end
          else findall_quoted_from (Some (c :: acc)) s'
      end
  end.

Definition findall_quoted (s : string) : list string :=
  findall_quoted_from None s.

(** The text up to the first [close], when there is one: the lazy group
    followed by [close], under [re.DOTALL]. *)
Fixpoint until_char (close : ascii) (s : string) : option string :=
  match s with
  | EmptyString => None
  | String c s' =>
      if Ascii.eqb c close then Some EmptyString
      else option_map (String c) (until_char close s')
  end.

(** [key], white space, [=], white space, [open], the lazy group and
    [close], matched at the head of [s]: group 1. *)
Definition assignment_here (key : string) (open close : ascii) (s : string)
  : option string :=
  if String.prefix key s then
    match PyStr.lstrip (PyStr.drop (String.length key) s) with
    | String e t =>
        if Ascii.eqb e "=" then
          match PyStr.lstrip t with
          | String o u => if Ascii.eqb o open then until_char close u else None
          | EmptyString => None
          end
        else None
    | EmptyString => None
    end
  else None.

(** [re.search(...)]: the leftmost position where the expression matches. *)
Fixpoint search_assignment (key : string) (open close : ascii) (s : string)
  : option string :=
  match assignment_here key open close s with
  | Some g => Some g
  | None =>
      match s with
      | EmptyString => None
      | String _ s' => search_assignment key open close s'
      end
  end.

Definition has_version_operator (package_spec : string) : bool :=
  PyStr.has_char "=" package_spec || PyStr.has_char ">" package_spec
  || PyStr.has_char "<" package_spec.

(** The body of [parse_setup_py] once the file is read. *)
Definition setup_py_dependencies (content : string) : list DependencyInfo :=
  (match search_assignment "install_requires" "[" "]" content with
   | Some requires_content =>
       map (fun package_spec => split_spec package_spec "runtime")
           (findall_quoted requires_content)
   | None => []
   end)
  ++
  (match search_assignment "extras_require" "{" "}" content with
   | Some extras_content =>
       map (fun package_spec => split_spec package_spec "optional")
           (List.filter has_version_operator (findall_quoted extras_content))
   | None => []
   end).

(** [f.read()] *)
Definition read (f : TextFile) : option string :=
  if fails f then None else Some (String.concat "" (lines f)).

Definition parse_setup_py (w : World) (file_path : Path)
  : list DependencyInfo * list warning :=
  match read (open_file w file_path) with
  | Some content => (setup_py_dependencies content, [])
  | None => ([], [ParseWarning (path_str file_path)])
  end.

(** *** [parse_pyproject_toml]

    The decoded document is a Python value of no fixed shape, and an
    operation applied to a value of the wrong kind raises.  [None] stands for
    the exception. *)

Fixpoint assoc {A : Type} (key : string) (kv : list (string * A)) : option A :=
  match kv with
  | [] => None
  | (k, v) :: rest => if String.eqb key k then Some v else assoc key rest
  end.

Definition is_string (key : string) (v : toml_value) : bool :=
  match v with
  | TStr s => String.eqb key s
  | _ => false
  end.

(** [key in v] *)
Definition py_in (key : string) (v : toml_value) : option bool :=
  match v with
  | TTable kv => Some (match assoc key kv with Some _ => true | None => false end)
  | TStr s => Some (PyStr.contains key s)
  | TArray l => Some (existsb (is_string key) l)
  | TScalar _ => None
  end.

(** [v[key]] *)
Definition py_getitem (v : toml_value) (key : string) : option toml_value :=
  match v with
  | TTable kv => assoc key kv
  | _ => None
  end.

Fixpoint chars (s : string) : list toml_value :=
  match s with
  | EmptyString => []
  | String c s' => TStr (String c EmptyString) :: chars s'
  end.

(** The values a [for] loop over [v] sees. *)
Definition py_iter (v : toml_value) : option (list toml_value) :=
  match v with
  | TArray l => Some l
  | TTable kv => Some (map (fun e => TStr (fst e)) kv)
  | TStr s => Some (chars s)
  | TScalar _ => None
  end.

(** [v.items()] *)
Definition py_items (v : toml_value) : option (list (string * toml_value)) :=
  match v with
  | TTable kv => Some kv
  | _ => None
  end.

(** A stretch of the [try] body: the entries it appends, and whether it ended
    by raising. *)
Definition block : Type := list DependencyInfo * bool.

Definition finished : block := ([], false).
Definition raised : block := ([], true).

Definition and_then (a b : block) : block :=
  if snd a then a else (fst a ++ fst b, snd b).

Definition attempt {A : Type} (o : option A) (k : A -> block) : block :=
  match o with
  | Some a => k a
  | None => raised
  end.

(** [if key in v: body(v[key])] *)
Definition when_present (key : string) (v : toml_value)
    (body : toml_value -> block) : block :=
  attempt (py_in key v) (fun present =>
    if present then attempt (py_getitem v key) body else finished).

(** [for dep_spec in deps: ...] over the values of an array; [re.split]
    raises on a value that is not a string. *)
Fixpoint add_specs (dep_type : string) (deps : list toml_value) : block :=
  match deps with
  | [] => finished
  | TStr dep_spec :: rest =>
      and_then ([split_spec dep_spec dep_type], false) (add_specs dep_type rest)
  | _ :: _ => raised
  end.

Fixpoint add_groups (groups : list (string * toml_value)) : block :=
  match groups with
  | [] => finished
  | (group_name, deps) :: rest =>
      let dep_type :=
        if PyStr.mem group_name ["dev"; "test"; "docs"] then "dev"
        else "optional" in
      and_then (attempt (py_iter deps) (add_specs dep_type)) (add_groups rest)
  end.

Definition str_of (w : World) (v : toml_value) : string :=
  match v with
  | TStr s => s
  | TScalar text => text
  | TArray l => str_of_array w l
  | TTable _ => EmptyString
  end.

(** The two Poetry loops; [skip_python] is set for the first. *)
Definition poetry_entries (w : World) (skip_python : bool) (dep_type : string)
    (entries : list (string * toml_value)) : list DependencyInfo :=
  omap (fun e =>
          let '(nm, spec) := e in
          if skip_python && String.eqb nm "python" then None
          else
            let version_spec :=
              match spec with TTable _ => EmptyString | _ => str_of w spec end in
            Some (new_DependencyInfo nm version_spec dep_type))
       entries.

(** The [try] body of [parse_pyproject_toml] after [toml.load]. *)
Definition pyproject_dependencies (w : World) (data : list (string * toml_value))
  : block :=
  and_then
    match assoc "project" data with
    | Some project =>
        when_present "dependencies" project (fun deps =>
          attempt (py_iter deps) (add_specs "runtime"))
    | None => finished
    end
  (and_then
    match assoc "project" data with
    | Some project =>
        when_present "optional-dependencies" project (fun groups =>
          attempt (py_items groups) add_groups)
    | None => finished
    end
    match assoc "tool" data with
    | Some tool =>
        when_present "poetry" tool (fun poetry =>
          and_then
            (when_present "dependencies" poetry (fun deps =>
               attempt (py_items deps) (fun kv =>
                 (poetry_entries w true "runtime" kv, false))))
            (when_present "dev-dependencies" poetry (fun deps =>
               attempt (py_items deps) (fun kv =>
                 (poetry_entries w false "dev" kv, false)))))
    | None => finished
    end).

Definition parse_pyproject_toml (w : World) (file_path : Path)
  : list DependencyInfo * list warning :=
  match toml w with
  | None => ([], [TomlMissingWarning])
  | Some load =>
      match read (open_file w file_path) with
      | None => ([], [ParseWarning (path_str file_path)])
      | Some text =>
          match load text with
          | Some (TTable data) =>
              let '(dependencies, exception) := pyproject_dependencies w data in
              (dependencies,
               if exception then [ParseWarning (path_str file_path)] else [])
          | _ => ([], [ParseWarning (path_str file_path)])
          end
      end
  end.

(** ** [get_all_dependencies] *)

(** One turn of the loop over the discovered files: what is appended to
    [all_deps] and what is printed. *)
Definition parse_manifest (w : World) (entry : string * Path)
  : list DependencyInfo * list warning :=
  let '(file_type, file_path) := entry in
  if PyStr.endswith file_type ".txt" then parse_requirements_txt w file_path
  else if String.eqb file_type "setup.py" then parse_setup_py w file_path
  else if String.eqb file_type "pyproject.toml" then parse_pyproject_toml w file_path
  else ([], []).

Definition get_all_dependencies (w : World)
  : list DependencyInfo * list warning :=
  fold_left
    (fun acc entry =>
       let '(deps, printed) := parse_manifest w entry in
       (fst acc ++ deps, snd acc ++ printed))
    (discover_dependency_files w) ([], []).

(** ** DependencyFilter *)

(** [re.match(regex, text, re.IGNORECASE)] as a truth value; [None] when the
    expression does not compile. *)
Definition re_match_ignorecase (w : World) (regex text : string) : option bool :=
  match Re.compile regex with
  | Some items => Some (Re.run items text)
  | None => re_other w regex text
  end.

Definition _matches_pattern (w : World) (nm pattern : string) : option bool :=
  let regex_pattern := replace_char "?" "." (replace_char "*" ".*" pattern) in
  re_match_ignorecase w ("^" ++ regex_pattern ++ "$") nm.

(** [any(self._matches_pattern(dep.name, pattern) for pattern in
    exclude_patterns)]: the patterns are tried in order up to the first hit. *)
Fixpoint matches_any (w : World) (nm : string) (exclude_patterns : list string)
  : option bool :=
  match exclude_patterns with
  | [] => Some false
  | pattern :: rest =>
      hit ← _matches_pattern w nm pattern;
      if (hit : bool) then Some true else matches_any w nm rest
  end.

(** The tests of the loop body that follow the exclude patterns; [false] is
    [continue]. *)
Definition passes_rules (include_dev include_optional runtime_only : bool)
    (dep : DependencyInfo) : bool :=
  if runtime_only && negb (String.eqb (dep_type dep) "runtime") then false
  else if negb include_dev && String.eqb (dep_type dep) "dev" then false
  else if negb include_optional && String.eqb (dep_type dep) "optional" then false
  else if runtime_only && PyStr.mem (PyStr.lower (name dep)) build_time_packages
  then false
  else if runtime_only && existsb (PyStr.startswith (name dep)) type_stub_packages
  then false
  else if runtime_only && PyStr.mem (PyStr.lower (name dep)) test_packages
  then false
  else true.

(** [filter_dependencies]; [None] when a pattern raises [re.error]. *)
Fixpoint filter_dependencies (w : World) (dependencies : list DependencyInfo)
    (include_dev include_optional runtime_only : bool)
    (exclude_patterns : list string) : option (list DependencyInfo) :=
  match dependencies with
  | [] => Some []
  | dep :: rest =>
      excluded ← matches_any w (name dep) exclude_patterns;
      filtered ← filter_dependencies w rest include_dev include_optional
                   runtime_only exclude_patterns;
      Some (if (excluded : bool) then filtered
            else if passes_rules include_dev include_optional runtime_only dep
                 then dep :: filtered
                 else filtered)
  end.

(** ** PackageMetadataLookup and ReportAssembler *)

(** The dict built by [get_package_info]; the last two keys are added by
    [generate_report]. *)
Record PackageInfo : Type := mkPackage {
  pkg_name : string;
  version : string;
  license : string;
  author : string;
  homepage : string;
  requires_attribution : bool;
  dependency_type : option string;
  pkg_version_spec : option string
}.

(** [s.split(sep)] for a one-character separator *)
Fixpoint split_on (sep : ascii) (s : string) : list string :=
  match s with
  | EmptyString => [EmptyString]
  | String c s' =>
      if Ascii.eqb c sep then EmptyString :: split_on sep s'
      else
        match split_on sep s' with
        | first :: others => String c first :: others
        | [] => [String c EmptyString]
        end
  end.

(** [line.split(':', 1)[1].strip()] for a line that holds a colon *)
Definition after_colon (line : string) : string :=
  PyStr.strip
    (PyStr.drop 1 (snd (PyStr.span (fun c => negb (Ascii.eqb c ":")) line))).

(** One METADATA line applied to [info]. *)
Definition read_metadata_line (info : PackageInfo) (line : string) : PackageInfo :=
  if PyStr.startswith line "License:" then
    {| pkg_name := pkg_name info; version := version info;
       license := after_colon line; author := author info;
       homepage := homepage info;
       requires_attribution := requires_attribution info;
       dependency_type := dependency_type info;
       pkg_version_spec := pkg_version_spec info |}
  else if PyStr.startswith line "Author:" then
    {| pkg_name := pkg_name info; version := version info;
       license := license info; author := after_colon line;
       homepage := homepage info;
       requires_attribution := requires_attribution info;
       dependency_type := dependency_type info;
       pkg_version_spec := pkg_version_spec info |}
  else if PyStr.startswith line "Home-page:" then
    {| pkg_name := pkg_name info; version := version info;
       license := license info; author := author info;
       homepage := after_colon line;
       requires_attribution := requires_attribution info;
       dependency_type := dependency_type info;
       pkg_version_spec := pkg_version_spec info |}
  else info.

Definition get_package_info (w : World) (package_name : string) : PackageInfo :=
  let info :=
    {| pkg_name := package_name; version := "unknown"; license := "unknown";
       author := "unknown"; homepage := "unknown";
       requires_attribution := true;
       dependency_type := None; pkg_version_spec := None |} in
  let info :=
    match get_distribution w package_name with
    | Some dist =>
        let info :=
          {| pkg_name := pkg_name info; version := dist_version dist;
             license := license info; author := author info;
             homepage := homepage info;
             requires_attribution := requires_attribution info;
             dependency_type := None; pkg_version_spec := None |} in
        match dist_metadata dist with
        | Some metadata =>
            fold_left read_metadata_line (split_on Re.newline metadata) info
        | None => info
        end
    | None => info
    end in
  {| pkg_name := pkg_name info; version := version info;
     license := license info; author := author info;
     homepage := homepage info;
     requires_attribution := _requires_attribution (license info);
     dependency_type := dependency_type info;
     pkg_version_spec := pkg_version_spec info |}.

(** [sorted(deps, key=lambda x: x.name.lower())].  [sorted] is stable and
    compares keys with [<]; a stable sort has one possible result, which
    insertion from the right computes. *)
Definition sort_key (dep : DependencyInfo) : string := PyStr.lower (name dep).

Fixpoint insert_by_key (dep : DependencyInfo) (l : list DependencyInfo)
  : list DependencyInfo :=
  match l with
  | [] => [dep]
  | d :: l' =>
      if String.ltb (sort_key d) (sort_key dep) then d :: insert_by_key dep l'
      else dep :: l
  end.

Definition sorted_by_name (deps : list DependencyInfo) : list DependencyInfo :=
  fold_right insert_by_key [] deps.

Module Summary.
Record t : Type := mk {
  total_packages : nat;
  runtime_packages : nat;
  dev_packages : nat;
  optional_packages : nat;
  requires_attribution : nat;
  unknown_licenses : nat
}.
Definition zero : t := mk 0 0 0 0 0 0.
End Summary.

Record Filters : Type := mkFilters {
  f_include_dev : bool;
  f_include_optional : bool;
  f_runtime_only : bool;
  f_exclude_patterns : list string
}.

(** The report dict, without the keys [project] and [project_path].  The
    source makes [excluded_build_tools] with [list] from a set, in no fixed
    order; here it is the denylist in the order of the source text. *)
Record Report : Type := mkReport {
  generated_by : string;
  report_type : string;
  dependency_files : list string;
  packages : list PackageInfo;
  summary : Summary.t;
  excluded_build_tools : list string;
  filters_applied : Filters
}.

(** The count updates of one turn of the loop of [generate_report]. *)
Definition count_package (dep : DependencyInfo) (package_info : PackageInfo)
    (s : Summary.t) : Summary.t :=
  let s :=
    if String.eqb (dep_type dep) "runtime" then
      Summary.mk (Summary.total_packages s) (Summary.runtime_packages s + 1)
        (Summary.dev_packages s) (Summary.optional_packages s)
        (Summary.requires_attribution s) (Summary.unknown_licenses s)
    else if String.eqb (dep_type dep) "dev" then
      Summary.mk (Summary.total_packages s) (Summary.runtime_packages s)
        (Summary.dev_packages s + 1) (Summary.optional_packages s)
        (Summary.requires_attribution s) (Summary.unknown_licenses s)
    else if String.eqb (dep_type dep) "optional" then
      Summary.mk (Summary.total_packages s) (Summary.runtime_packages s)
        (Summary.dev_packages s) (Summary.optional_packages s + 1)
        (Summary.requires_attribution s) (Summary.unknown_licenses s)
    else s in
  let s :=
    if requires_attribution package_info then
      Summary.mk (Summary.total_packages s) (Summary.runtime_packages s)
        (Summary.dev_packages s) (Summary.optional_packages s)
        (Summary.requires_attribution s + 1) (Summary.unknown_licenses s)
    else s in
  if String.eqb (license package_info) "unknown" then
    Summary.mk (Summary.total_packages s) (Summary.runtime_packages s)
      (Summary.dev_packages s) (Summary.optional_packages s)
      (Summary.requires_attribution s) (Summary.unknown_licenses s + 1)
  else s.

(** One turn of the loop: look up, merge, append, count. *)
Definition process_dependency (w : World)
    (state : list PackageInfo * Summary.t) (dep : DependencyInfo)
  : list PackageInfo * Summary.t :=
  let package_info := get_package_info w (name dep) in
  let package_info :=
    {| pkg_name := pkg_name package_info; version := version package_info;
       license := license package_info; author := author package_info;
       homepage := homepage package_info;
       requires_attribution := requires_attribution package_info;
       dependency_type := Some (dep_type dep);
       pkg_version_spec := Some (version_spec dep) |} in
  (fst state ++ [package_info], count_package dep package_info (snd state)).

Definition report_type_label (include_dev include_optional runtime_only : bool)
  : string :=
  if runtime_only then "Runtime Dependencies (PyInstaller Bundled)"
  else if include_dev && include_optional
  then "All Dependencies (Runtime + Development + Optional)"
  else if include_dev then "Runtime + Development Dependencies"
  else "Runtime Dependencies".

(** [generate_report]: what the parsers printed, and the report; [None] when
    [filter_dependencies] raised. *)
Definition generate_report (w : World)
    (include_dev include_optional runtime_only : bool)
    (exclude_patterns : list string) : list warning * option Report :=
  let '(all_deps, printed) := get_all_dependencies w in
  (printed,
   filtered_deps ← filter_dependencies w all_deps include_dev include_optional
                     runtime_only exclude_patterns;
   let '(pkgs, counts) :=
     fold_left (process_dependency w) (sorted_by_name filtered_deps)
               ([], Summary.zero) in
   Some {| generated_by := "Universal Python License Reporter";
           report_type :=
             report_type_label include_dev include_optional runtime_only;
           dependency_files :=
             map (fun e => path_str (snd e)) (discover_dependency_files w);
           packages := pkgs;
           summary :=
             Summary.mk (length filtered_deps)
               (Summary.runtime_packages counts) (Summary.dev_packages counts)
               (Summary.optional_packages counts)
               (Summary.requires_attribution counts)
               (Summary.unknown_licenses counts);
           excluded_build_tools :=
             if runtime_only then build_time_packages else [];
           filters_applied :=
             mkFilters include_dev include_optional runtime_only
                       exclude_patterns |}).

(** The option handling at the top of [main]: the three flags handed to
    [generate_report]. *)
Definition resolve_flags (all_deps runtime_only include_dev include_optional : bool)
  : bool * bool * bool :=
  if all_deps then (true, true, false)
  else if runtime_only then (false, false, true)
  else (include_dev, include_optional, false).

(** ** Legacy entry points, project name and command line *)

(** [get_runtime_dependencies]: the set of the names that pass the
    runtime-only filter.  A Python set has no order; the names stand here in
    the order of their first occurrence, each once, and only membership is
    meant. *)
Definition get_runtime_dependencies (w : World) : option (list string) :=
  runtime_deps ← filter_dependencies w (fst (get_all_dependencies w))
                   false false true [];
  Some (nodup string_dec (map name runtime_deps)).

(** [get_requirements_packages]: [list(...)] of that set. *)
Definition get_requirements_packages (w : World) : option (list string) :=
  get_runtime_dependencies w.

(** A quote, a non-empty run of characters that are not quotes as the group,
    a quote, matched at the head of [s]: the group. *)
Definition quoted_here (s : string) : option string :=
  match s with
  | String q t =>
      if is_quote q then
        match PyStr.span (fun c => negb (is_quote c)) t with
        | (String c run, String _ _) => Some (String c run)
        | _ => None
        end
      else None
  | EmptyString => None
  end.

(** The expression of [_detect_project_name] matched at the head of [s]:
    the word name, white space, [=], white space and a quoted group. *)
Definition name_assignment_here (s : string) : option string :=
  if String.prefix "name" s then
    match PyStr.lstrip (PyStr.drop 4 s) with
    | String e t => if Ascii.eqb e "=" then quoted_here (PyStr.lstrip t) else None
    | EmptyString => None
    end
  else None.

(** [re.search] of that expression: the leftmost match. *)
Fixpoint search_name_assignment (s : string) : option string :=
  match name_assignment_here s with
  | Some g => Some g
  | None =>
      match s with
      | EmptyString => None
      | String _ s' => search_name_assignment s'
      end
  end.

(** [if 'name' in v: return v['name']]: the outer [None] is an exception,
    the inner one the test failing. *)
Definition return_name (v : toml_value) : option (option toml_value) :=
  present ← py_in "name" v;
  if (present : bool) then found ← py_getitem v "name"; Some (Some found)
  else Some None.

(** The two tests of [_detect_project_name] on the decoded pyproject.toml. *)
Definition pyproject_name (data : list (string * toml_value))
  : option (option toml_value) :=
  first ← match assoc "project" data with
          | Some project => return_name project
          | None => Some None
          end;
  match first with
  | Some found => Some (Some found)
  | None =>
      match assoc "tool" data with
      | Some tool =>
          present ← py_in "poetry" tool;
          if (present : bool) then poetry ← py_getitem tool "poetry"; return_name poetry
          else Some None
      | None => Some None
      end
  end.

(** The first [try] of [_detect_project_name]: the value returned, or [None]
    when control falls through to setup.py (also after an exception, which
    the bare [except] swallows). *)
Definition name_from_pyproject (w : World) : option toml_value :=
  match fs w "pyproject.toml", toml w with
  | Some f, Some load =>
      match read f with
      | Some text =>
          match load text with
          | Some (TTable data) =>
              match pyproject_name data with
              | Some found => found
              | None => None
              end
          | _ => None
          end
      | None => None
      end
  | _, _ => None
  end.

(** The second [try]: the group of the first name assignment in setup.py. *)
Definition name_from_setup_py (w : World) : option string :=
  match fs w "setup.py" with
  | Some f =>
      match read f with
      | Some content => search_name_assignment content
      | None => None
      end
  | None => None
  end.

(** [_detect_project_name]; [root_name] is [self.project_root.name].  The
    value found in pyproject.toml is returned as it is, string or not. *)
Definition _detect_project_name (w : World) (root_name : string) : toml_value :=
  match name_from_pyproject w with
  | Some found => found
  | None =>
      match name_from_setup_py w with
      | Some found => TStr found
      | None => TStr root_name
      end
  end.

(** The key [project] of the report: [project_name] unless it is [None] or
    empty. *)
Definition report_project (w : World) (root_name : string)
    (project_name : option string) : toml_value :=
  match project_name with
  | Some (String c s) => TStr (String c s)
  | _ => _detect_project_name w root_name
  end.

(** The exclude patterns as [main] reads them from the option [--exclude]. *)
Definition parse_exclude (exclude : option string) : list string :=
  match exclude with
  | Some (String c s) => map PyStr.strip (split_on "," (String c s))
  | _ => []
  end.

(** ** Vocabulary of the properties *)

(** [sub] occurs in [s]. *)
Definition Substring (sub s : string) : Prop :=
  exists before after, s = (before ++ sub ++ after)%string.

(** The lowercased text holds one of the words. *)
Definition Mentions (words : list string) (license_text : string) : Prop :=
  Exists (fun k => Substring k (PyStr.lower license_text)) words.

(** The glob match of section 4.4, rule 1, written from its words:
    case-insensitive, anchored at both ends, [*] any run of characters,
    [?] exactly one character, any other character itself. *)
Fixpoint glob_match (pattern : string) : string -> bool :=
  match pattern with
  | EmptyString => fun s => match s with EmptyString => true | _ => false end
  | String p pattern' =>
      let k := glob_match pattern' in
      if Ascii.eqb p "*" then
        fix star (s : string) : bool :=
          k s || match s with EmptyString => false | String _ s' => star s' end
      else if Ascii.eqb p "?" then
        fun s => match s with EmptyString => false | String _ s' => k s' end
      else
        fun s =>
          match s with
          | EmptyString => false
          | String c s' =>
              Ascii.eqb (PyStr.lower_char p) (PyStr.lower_char c) && k s'
          end
  end.

(** A pattern in which only [*] and [?] have a meaning in [re] syntax. *)
Definition glob_plain (pattern : string) : bool :=
  forallb (fun c => negb (Re.special c) || Ascii.eqb c "*" || Ascii.eqb c "?")
          (list_ascii_of_string pattern).

Definition no_newline (s : string) : bool := negb (PyStr.has_char Re.newline s).

(** [regex_pattern] in [_matches_pattern]. *)
Definition translate (pattern : string) : string :=
  replace_char "?" "." (replace_char "*" ".*" pattern).

(** The items [re] reads from the translation of a plain pattern. *)
Fixpoint glob_items (pattern : string) : list Re.item :=
  match pattern with
  | EmptyString => []
  | String c pattern' =>
      (if Ascii.eqb c "*" then Re.Star Re.Dot
       else if Ascii.eqb c "?" then Re.One Re.Dot
       else Re.One (Re.Lit c)) :: glob_items pattern'
  end.

(** The rules of section 4.4 for an entry that stays in the list, rule 1
    being read through the answers of [_matches_pattern]. *)
Definition Retained (w : World) (include_dev include_optional runtime_only : bool)
    (exclude_patterns : list string) (dep : DependencyInfo) : Prop :=
  (forall pattern, In pattern exclude_patterns ->
     _matches_pattern w (name dep) pattern = Some false)
  /\ (runtime_only = true ->
      dep_type dep = "runtime"
      /\ ~ In (PyStr.lower (name dep)) build_time_packages
      /\ ~ In (PyStr.lower (name dep)) test_packages
      /\ (forall stub, In stub type_stub_packages ->
            PyStr.startswith (name dep) stub = false))
  /\ (dep_type dep = "dev" -> include_dev = true)
  /\ (dep_type dep = "optional" -> include_optional = true).

(** The record appended to [report["packages"]] for [dep]. *)
Definition merged_package (w : World) (dep : DependencyInfo) : PackageInfo :=
  let package_info := get_package_info w (name dep) in
  {| pkg_name := pkg_name package_info; version := version package_info;
     license := license package_info; author := author package_info;
     homepage := homepage package_info;
     requires_attribution := requires_attribution package_info;
     dependency_type := Some (dep_type dep);
     pkg_version_spec := Some (version_spec dep) |}.

(** How many elements of [l] satisfy [f]. *)
Definition count_where {A : Type} (f : A -> bool) (l : list A) : nat :=
  length (List.filter f l).

Definition has_type (ty : string) (p : PackageInfo) : bool :=
  match dependency_type p with
  | Some t => String.eqb t ty
  | None => false
  end.

Definition license_unknown (p : PackageInfo) : bool :=
  String.eqb (license p) "unknown".

(** The discovered manifests that [get_all_dependencies] passes over. *)
Definition skipped_manifests : list string :=
  ["Pipfile"; "environment.yml"; "environment.yaml"; "conda.yml"; "setup.cfg"].

(** ** A project to run the program on

    The scenario of section 8: [requirements.txt] holds requests==2.31.0,
    [requirements-dev.txt] holds pytest; a Pipfile is present as well, and
    requests is the one installed distribution. *)

Definition line (text : string) : string :=
  (text ++ String Re.newline EmptyString)%string.

Definition demo_fs (file_name : string) : option TextFile :=
  if String.eqb file_name "requirements.txt"
  then Some {| lines := [line "requests==2.31.0"]; fails := false |}
  else if String.eqb file_name "requirements-dev.txt"
  then Some {| lines := [line "pytest"]; fails := false |}
  else if String.eqb file_name "Pipfile"
  then Some {| lines := [line "[packages]"; line "flask = '*'"]; fails := false |}
  else None.

Definition demo_world : World :=
  {| re_other := fun _ _ => None;
     path_text := fun file_name => ("/project/" ++ file_name)%string;
     fs := demo_fs;
     toml := None;
     str_of_array := fun _ => EmptyString;
     get_distribution := fun package_name =>
       if String.eqb package_name "requests"
       then Some {| dist_version := "2.31.0";
                    dist_metadata :=
                      Some (line "Name: requests" ++ line "License: Apache 2.0"
                            ++ line "Author: Kenneth Reitz")%string |}
       else None |}.

(** The report of the project with include-dev alone. *)
Definition demo_report : Report :=
  {| generated_by := "Universal Python License Reporter";
     report_type := "Runtime + Development Dependencies";
     dependency_files :=
       ["/project/requirements.txt"; "/project/Pipfile";
        "/project/requirements-dev.txt"];
     packages :=
       [ {| pkg_name := "pytest"; version := "unknown"; license := "unknown";
            author := "unknown"; homepage := "unknown";
            requires_attribution := true;
            dependency_type := Some "dev"; pkg_version_spec := Some "" |};
         {| pkg_name := "requests"; version := "2.31.0";
            license := "Apache 2.0"; author := "Kenneth Reitz";
            homepage := "unknown"; requires_attribution := true;
            dependency_type := Some "runtime";
            pkg_version_spec := Some "==2.31.0" |} ];
     summary := Summary.mk 2 1 1 0 2 1;
     excluded_build_tools := [];
     filters_applied := mkFilters true false false [] |}.

(** The report of the project with runtime-only and include-dev together. *)
Definition demo_report_runtime_only : Report :=
  {| generated_by := "Universal Python License Reporter";
     report_type := "Runtime Dependencies (PyInstaller Bundled)";
     dependency_files :=
       ["/project/requirements.txt"; "/project/Pipfile";
        "/project/requirements-dev.txt"];
     packages :=
       [ {| pkg_name := "requests"; version := "2.31.0";
            license := "Apache 2.0"; author := "Kenneth Reitz";
            homepage := "unknown"; requires_attribution := true;
            dependency_type := Some "runtime";
            pkg_version_spec := Some "==2.31.0" |} ];
     summary := Summary.mk 1 1 0 0 1 0;
     excluded_build_tools := build_time_packages;
     filters_applied := mkFilters true false true [] |}.

(** Two dependencies in sorted order. *)
Definition key_le (a b : DependencyInfo) : Prop :=
  String.leb (sort_key a) (sort_key b) = true.

(** Two package records in report order. *)
Definition name_le (a b : PackageInfo) : Prop :=
  String.leb (PyStr.lower (pkg_name a)) (PyStr.lower (pkg_name b)) = true.

(** [p] carries the manifest fields of [dep] and the metadata looked up for
    its name. *)
Definition Merges (w : World) (dep : DependencyInfo) (p : PackageInfo) : Prop :=
  pkg_name p = name dep
  /\ dependency_type p = Some (dep_type dep)
  /\ pkg_version_spec p = Some (version_spec dep)
  /\ version p = version (get_package_info w (name dep))
  /\ license p = license (get_package_info w (name dep))
  /\ author p = author (get_package_info w (name dep))
  /\ homepage p = homepage (get_package_info w (name dep))
  /\ requires_attribution p =
     _requires_attribution (license (get_package_info w (name dep))).

(** What the file named [file_name] adds to [all_deps] and to the output. *)
Definition contribution (w : World) (file_name : string)
  : list DependencyInfo * list warning :=
  match fs w file_name with
  | Some _ => parse_manifest w (file_name, project_file w file_name)
  | None => ([], [])
  end.

(** The discovered manifests that [get_all_dependencies] hands to a parser. *)
Definition parsed_manifests : list string :=
  ["requirements.txt"; "setup.py"; "pyproject.toml";
   "requirements-dev.txt"; "dev-requirements.txt"; "test-requirements.txt"].

Definition gather (parts : list (list DependencyInfo * list warning))
  : list DependencyInfo * list warning :=
  (concat (map fst parts), concat (map snd parts)).

(** Two worlds that differ at most in the files [get_all_dependencies]
    passes over. *)
Definition same_but_skipped (w1 w2 : World) : Prop :=
  re_other w1 = re_other w2
  /\ path_text w1 = path_text w2
  /\ toml w1 = toml w2
  /\ str_of_array w1 = str_of_array w2
  /\ get_distribution w1 = get_distribution w2
  /\ forall file_name,
       ~ In file_name skipped_manifests -> fs w1 file_name = fs w2 file_name.

(** The project without its Pipfile. *)
Definition demo_world_no_pipfile : World :=
  {| re_other := re_other demo_world;
     path_text := path_text demo_world;
     fs := fun file_name =>
             if String.eqb file_name "Pipfile" then None else demo_fs file_name;
     toml := toml demo_world;
     str_of_array := str_of_array demo_world;
     get_distribution := get_distribution demo_world |}.

(** The text does not begin with white space. *)
Definition no_leading_space (s : string) : bool :=
  match s with
  | EmptyString => true
  | String c _ => negb (PyStr.isspace c)
  end.

(** Every character of the text satisfies [p]. *)
Definition all_chars (p : ascii -> bool) (s : string) : bool :=
  forallb p (list_ascii_of_string s).



(** The groups a parser gives to an entry. *)
Definition parsed_groups : list string := ["runtime"; "dev"; "optional"].

(** Name and version spec are trimmed. *)
Definition Trimmed (dep : DependencyInfo) : Prop :=
  PyStr.strip (name dep) = name dep
  /\ PyStr.strip (version_spec dep) = version_spec dep.

(** [pattern] holds no character with a meaning in [re] syntax, [*] and [?]
    included. *)
Definition literal_pattern (pattern : string) : bool :=
  all_chars (fun c => negb (Re.special c)) pattern.

(** [P] holds of every entry the constructor makes with one of the parsed
    groups. *)
Definition Built (P : DependencyInfo -> Prop) : Prop :=
  forall nm vs ty, In ty parsed_groups -> P (new_DependencyInfo nm vs ty).

(** pyproject.toml gives nothing to read: it is absent, or the [toml] module
    is, or the file cannot be read, or [toml.load] raises on it. *)
Definition pyproject_unusable (w : World) : Prop :=
  match fs w "pyproject.toml", toml w with
  | Some f, Some load =>
      match read f with
      | Some text => load text = None
      | None => True
      end
  | _, _ => True
  end.

(** The project with a setup.py that names it, and no [toml] module. *)
Definition setup_world : World :=
  {| re_other := fun _ _ => None;
     path_text := fun file_name => ("/project/" ++ file_name)%string;
     fs := fun file_name =>
             if String.eqb file_name "setup.py"
             then Some {| lines := [line "setup("; line "  name = 'tool',";
                                    line "  version='1.0')"];
                          fails := false |}
             else if String.eqb file_name "pyproject.toml"
             then Some {| lines := [line "[project]"; line "name = 'other'"];
                          fails := false |}
             else None;
     toml := None;
     str_of_array := fun _ => EmptyString;
     get_distribution := fun _ => None |}.

(** What CPython's [re.match] answers, under [re.IGNORECASE], at the two
    inputs met below: the expression with the bracketed word reads the
    brackets as a character class and does not match the name that holds
    them, and the lone opening bracket is an unterminated character set, a
    [re.error].  Every other input is given as an error here and is not
    used. *)
Definition cpython_answers (regex text : string) : option bool :=
  if String.eqb regex "^requests[security]$"
     && String.eqb text "requests[security]"
  then Some false
  else None.

(** The project of the demo with that engine. *)
Definition bracket_world : World :=
  {| re_other := cpython_answers;
     path_text := path_text demo_world;
     fs := fs demo_world;
     toml := toml demo_world;
     str_of_array := str_of_array demo_world;
     get_distribution := get_distribution demo_world |}.

(** Rule 1 of section 4.4 read as the glob match, with the other rules as in
    [Retained]. *)
Definition Retained_glob (include_dev include_optional runtime_only : bool)
    (exclude_patterns : list string) (dep : DependencyInfo) : Prop :=
  (forall pattern, In pattern exclude_patterns ->
     glob_match pattern (name dep) = false)
  /\ (runtime_only = true ->
      dep_type dep = "runtime"
      /\ ~ In (PyStr.lower (name dep)) build_time_packages
      /\ ~ In (PyStr.lower (name dep)) test_packages
      /\ (forall stub, In stub type_stub_packages ->
            PyStr.startswith (name dep) stub = false))
  /\ (dep_type dep = "dev" -> include_dev = true)
  /\ (dep_type dep = "optional" -> include_optional = true).

(** The report of the project without any flag. *)
Definition demo_report_default : Report :=
  {| generated_by := "Universal Python License Reporter";
     report_type := "Runtime Dependencies";
     dependency_files :=
       ["/project/requirements.txt"; "/project/Pipfile";
        "/project/requirements-dev.txt"];
     packages :=
       [ {| pkg_name := "requests"; version := "2.31.0";
            license := "Apache 2.0"; author := "Kenneth Reitz";
            homepage := "unknown"; requires_attribution := true;
            dependency_type := Some "runtime";
            pkg_version_spec := Some "==2.31.0" |} ];
     summary := Summary.mk 1 1 0 0 1 0;
     excluded_build_tools := [];
     filters_applied := mkFilters false false false [] |}.

(** The name is trimmed and holds none of the operator characters. *)
Definition clean_name (dep : DependencyInfo) : Prop :=
  PyStr.strip (name dep) = name dep
  /\ all_chars (fun c => negb (is_operator_char c)) (name dep) = true.

(** * Properties *)

(** ** Strings *)

Lemma prefix_app (p s : string) :
  String.prefix p s = true <-> exists after, s = (p ++ after)%string.
Proof.
  revert s; induction p as [|c p IH]; intros s.
  - destruct s; simpl; (split; [intros _; eexists; reflexivity | reflexivity]).
  - destruct s as [|d s]; simpl.
    + split; [discriminate | intros [a Ha]; discriminate].
    + destruct (ascii_dec c d) as [->|Hne].
      * rewrite IH. split; intros [a Ha]; exists a; congruence.
      * split; [discriminate | intros [a Ha]; congruence].
Qed.

Lemma contains_substring (sub s : string) :
  PyStr.contains sub s = true <-> Substring sub s.
Proof.
  induction s as [|c s IH]; cbn [PyStr.contains].
  - rewrite orb_false_r, prefix_app. split.
    + intros [a Ha]. exists EmptyString, a. exact Ha.
    + intros (b & a & H). destruct b; [exists a; exact H | discriminate].
  - rewrite orb_true_iff, prefix_app, IH. split.
    + intros [[a Ha] | (b & a & H)].
      * exists EmptyString, a. exact Ha.
      * exists (String c b), a. simpl. congruence.
    + intros (b & a & H). destruct b as [|d b]; simpl in H.
      * left. exists a. exact H.
      * right. exists b, a. congruence.
Qed.

Lemma contains_any_substring (keys : list string) (s : string) :
  PyStr.contains_any keys s = true <-> Exists (fun k => Substring k s) keys.
Proof.
  unfold PyStr.contains_any. rewrite existsb_exists, List.Exists_exists.
  split; intros (k & Hin & Hk); exists k; split; auto;
    apply contains_substring; exact Hk.
Qed.

(** ** AttributionPolicy *)

Lemma mentions_contains_any (words : list string) (license_text : string) :
  Mentions words license_text
  <-> PyStr.contains_any words (PyStr.lower license_text) = true.
Proof. symmetry. apply contains_any_substring. Qed.

(** C5.  [_requires_attribution] lowercases the license text; when the
    lowercased text holds one of "public domain", "unlicense", "wtfpl" the
    answer is false, whether or not a word of the attribution list occurs as
    well; in every other case, with or without a word of the attribution
    list, the answer is true.  It is true for "MIT License" and for the empty
    text, false for "Public Domain" and for "Unlicense". *)
Theorem requires_attribution_policy (license_text : string) :
  (Mentions ["public domain"; "unlicense"; "wtfpl"] license_text ->
   _requires_attribution license_text = false)
  /\ (~ Mentions ["public domain"; "unlicense"; "wtfpl"] license_text ->
      Mentions ["mit"; "bsd"; "apache"; "isc"; "mpl"; "mozilla";
                "creative commons"; "cc-by"] license_text ->
      _requires_attribution license_text = true)
  /\ (~ Mentions ["public domain"; "unlicense"; "wtfpl"] license_text ->
      ~ Mentions ["mit"; "bsd"; "apache"; "isc"; "mpl"; "mozilla";
                  "creative commons"; "cc-by"] license_text ->
      _requires_attribution license_text = true)
  /\ _requires_attribution "MIT License" = true
  /\ _requires_attribution "" = true
  /\ _requires_attribution "Public Domain" = false
  /\ _requires_attribution "Unlicense" = false.
Proof.
  pose proof (mentions_contains_any no_attribution license_text) as Hno.
  unfold _requires_attribution.
  repeat split; try reflexivity.
  - intros H. apply Hno in H. rewrite H. reflexivity.
  - intros H _.
    destruct (PyStr.contains_any no_attribution (PyStr.lower license_text)).
    + exfalso. apply H, Hno. reflexivity.
    + destruct (PyStr.contains_any attribution_required _); reflexivity.
  - intros H _.
    destruct (PyStr.contains_any no_attribution (PyStr.lower license_text)).
    + exfalso. apply H, Hno. reflexivity.
    + destruct (PyStr.contains_any attribution_required _); reflexivity.
Qed.

Lemma requires_attribution_policy_witness :
  _requires_attribution "The Unlicense (MIT-like)" = false
  /\ _requires_attribution "Apache-2.0" = true
  /\ _requires_attribution "GPLv3" = true.
Proof.
  split; [|split].
  - apply (proj1 (requires_attribution_policy "The Unlicense (MIT-like)")).
    apply mentions_contains_any. vm_compute. reflexivity.
  - apply (proj1 (proj2 (requires_attribution_policy "Apache-2.0"))).
    + intros H. apply mentions_contains_any in H. vm_compute in H. discriminate.
    + apply mentions_contains_any. vm_compute. reflexivity.
  - apply (proj1 (proj2 (proj2 (requires_attribution_policy "GPLv3")))).
    + intros H. apply mentions_contains_any in H. vm_compute in H. discriminate.
    + intros H. apply mentions_contains_any in H. vm_compute in H. discriminate.
Defined.

(** ** Exclude patterns: [_matches_pattern] *)

Lemma translate_cons (c : ascii) (pattern : string) :
  translate (String c pattern) =
  if Ascii.eqb c "*" then String "." (String "*" (translate pattern))
  else if Ascii.eqb c "?" then String "." (translate pattern)
  else String c (translate pattern).
Proof.
  unfold translate. cbn [replace_char].
  destruct (Ascii.eqb_spec "*" c) as [<-|Hstar].
  - reflexivity.
  - cbn [replace_char].
    destruct (Ascii.eqb_spec "?" c) as [<-|Hq].
    + reflexivity.
    + destruct (Ascii.eqb_spec c "*"); [congruence|].
      destruct (Ascii.eqb_spec c "?"); [congruence|]. reflexivity.
Qed.

Lemma translate_head (pattern tail : string) :
  exists d rest,
    (translate pattern ++ String "$" tail)%string = String d rest
    /\ Ascii.eqb d "*" = false.
Proof.
  destruct pattern as [|c pattern].
  - exists "$"%char, tail. split; reflexivity.
  - rewrite translate_cons.
    destruct (Ascii.eqb c "*") eqn:Es; [eexists _, _; split; reflexivity|].
    destruct (Ascii.eqb c "?") eqn:Eq; [eexists _, _; split; reflexivity|].
    eexists _, _; split; [reflexivity | exact Es].
Qed.

Lemma parse_translate (pattern : string) :
  glob_plain pattern = true ->
  Re.parse_body (translate pattern ++ "$") = Some (glob_items pattern).
Proof.
  unfold glob_plain.
  induction pattern as [|c pattern IH]; intros Hplain; [reflexivity|].
  cbn [list_ascii_of_string forallb] in Hplain.
  apply andb_true_iff in Hplain as [Hc Hrest]. specialize (IH Hrest).
  rewrite translate_cons. cbn [glob_items].
  destruct (translate_head pattern EmptyString) as (d & rest & Hhead & Hd).
  destruct (Ascii.eqb c "*") eqn:Es.
  - cbn. rewrite IH. reflexivity.
  - destruct (Ascii.eqb c "?") eqn:Eq.
    + cbn [append Re.parse_body]. rewrite Hhead in *.
      change (Ascii.eqb "." "$") with false. cbv iota.
      change (Re.parse_atom ".") with (Some Re.Dot). cbv iota.
      rewrite Hd, IH. reflexivity.
    + rewrite !orb_false_r in Hc. apply negb_true_iff in Hc.
      assert (Hdollar : Ascii.eqb c "$" = false).
      { destruct (Ascii.eqb_spec c "$") as [->|]; [discriminate Hc | reflexivity]. }
      assert (Hdot : Ascii.eqb c "." = false).
      { destruct (Ascii.eqb_spec c ".") as [->|]; [discriminate Hc | reflexivity]. }
      cbn [append Re.parse_body]. rewrite Hhead in *.
      rewrite Hdollar. unfold Re.parse_atom. rewrite Hdot, Hc, Hd, IH.
      reflexivity.
Qed.

Lemma no_newline_cons (c : ascii) (s : string) :
  no_newline (String c s) = true ->
  Ascii.eqb c Re.newline = false /\ no_newline s = true.
Proof.
  unfold no_newline. cbn [PyStr.has_char].
  rewrite negb_orb, andb_true_iff, !negb_true_iff.
  rewrite (Ascii.eqb_sym Re.newline c). tauto.
Qed.

Lemma at_dollar_no_newline (s : string) :
  no_newline s = true ->
  Re.at_dollar s = match s with EmptyString => true | _ => false end.
Proof.
  destruct s as [|c [|d s]]; try reflexivity.
  intros H. apply no_newline_cons in H as [H _]. exact H.
Qed.

Lemma run_glob_items (pattern nm : string) :
  no_newline nm = true ->
  Re.run (glob_items pattern) nm = glob_match pattern nm.
Proof.
  revert nm. induction pattern as [|c pattern IH]; intros nm Hnm.
  - apply at_dollar_no_newline, Hnm.
  - cbn [glob_items glob_match].
    destruct (Ascii.eqb c "*").
    + cbn [Re.run]. induction nm as [|d nm IHnm].
      * rewrite IH by exact Hnm. reflexivity.
      * destruct (no_newline_cons _ _ Hnm) as [Hd Hnm'].
        rewrite IH by exact Hnm. f_equal.
        cbn [Re.atom_matches]. rewrite Hd. cbn [negb andb].
        apply IHnm, Hnm'.
    + destruct (Ascii.eqb c "?").
      * cbn [Re.run]. destruct nm as [|d nm]; [reflexivity|].
        destruct (no_newline_cons _ _ Hnm) as [Hd Hnm'].
        cbn [Re.atom_matches]. rewrite Hd. cbn [negb andb]. apply IH, Hnm'.
      * cbn [Re.run]. destruct nm as [|d nm]; [reflexivity|].
        destruct (no_newline_cons _ _ Hnm) as [Hd Hnm'].
        cbn [Re.atom_matches]. f_equal. apply IH, Hnm'.
Qed.

(** On patterns whose only characters with a meaning in [re] syntax are [*]
    and [?], and on names without a newline, [_matches_pattern] returns, and
    what it returns is the glob match. *)
Lemma matches_pattern_glob (w : World) (nm pattern : string) :
  glob_plain pattern = true ->
  no_newline nm = true ->
  _matches_pattern w nm pattern = Some (glob_match pattern nm).
Proof.
  intros Hplain Hnm. unfold _matches_pattern, re_match_ignorecase.
  fold (translate pattern).
  change (Re.compile ("^" ++ translate pattern ++ "$"))
    with (Re.parse_body (translate pattern ++ "$")).
  rewrite parse_translate by exact Hplain.
  rewrite run_glob_items by exact Hnm. reflexivity.
Qed.

(** C6.  The two patterns of the scenario behave as a glob: "test*" does not
    match "pytest-mock" and "*mock*" does.  A dot in a pattern is not taken
    literally: the pattern "zope.interface" matches the name
    "zope-interface", which the glob match of section 4.4 rejects. *)
Theorem matches_pattern_dot_is_wildcard (w : World) :
  _matches_pattern w "pytest-mock" "test*" = Some false
  /\ _matches_pattern w "pytest-mock" "*mock*" = Some true
  /\ _matches_pattern w "zope-interface" "zope.interface" = Some true
  /\ glob_match "zope.interface" "zope-interface" = false.
Proof. repeat split; vm_compute; reflexivity. Qed.

(** ** DependencyFilter *)

Lemma mem_In (s : string) (keys : list string) :
  PyStr.mem s keys = true <-> In s keys.
Proof.
  unfold PyStr.mem. rewrite existsb_exists. split.
  - intros (k & Hin & Hk). apply String.eqb_eq in Hk. subst. exact Hin.
  - intros Hin. exists s. split; [exact Hin | apply String.eqb_refl].
Qed.

Lemma matches_any_false (w : World) (nm : string) (patterns : list string) :
  matches_any w nm patterns = Some false ->
  forall pattern, In pattern patterns -> _matches_pattern w nm pattern = Some false.
Proof.
  induction patterns as [|p ps IH]; cbn [matches_any]; intros H q Hq.
  - destruct Hq.
  - destruct (_matches_pattern w nm p) as [[|]|] eqn:E; cbn in H; try discriminate.
    destruct Hq as [<-|Hq]; [exact E | apply IH; assumption].
Qed.

Lemma matches_any_none (w : World) (nm : string) (patterns : list string) :
  matches_any w nm patterns = None ->
  exists pattern, In pattern patterns /\ _matches_pattern w nm pattern = None.
Proof.
  induction patterns as [|p ps IH]; cbn [matches_any]; intros H.
  - discriminate.
  - destruct (_matches_pattern w nm p) as [[|]|] eqn:E; cbn in H; try discriminate.
    + destruct (IH H) as (q & Hq & Eq). exists q. split; [right|]; assumption.
    + exists p. split; [left; reflexivity | exact E].
Qed.

Lemma passes_rules_retained (w : World) (include_dev include_optional runtime_only : bool)
    (exclude_patterns : list string) (dep : DependencyInfo) :
  matches_any w (name dep) exclude_patterns = Some false ->
  passes_rules include_dev include_optional runtime_only dep = true ->
  Retained w include_dev include_optional runtime_only exclude_patterns dep.
Proof.
  intros Hex Hpass. unfold passes_rules in Hpass.
  destruct (runtime_only && negb (String.eqb (dep_type dep) "runtime")) eqn:E1;
    [discriminate|].
  destruct (negb include_dev && String.eqb (dep_type dep) "dev") eqn:E2;
    [discriminate|].
  destruct (negb include_optional && String.eqb (dep_type dep) "optional") eqn:E3;
    [discriminate|].
  destruct (runtime_only && PyStr.mem (PyStr.lower (name dep)) build_time_packages)
    eqn:E4; [discriminate|].
  destruct (runtime_only && existsb (PyStr.startswith (name dep)) type_stub_packages)
    eqn:E5; [discriminate|].
  destruct (runtime_only && PyStr.mem (PyStr.lower (name dep)) test_packages)
    eqn:E6; [discriminate|].
  split; [|split; [|split]].
  - apply matches_any_false, Hex.
  - intros ->. cbn [andb] in *. split; [|split; [|split]].
    + apply negb_false_iff, String.eqb_eq in E1. exact E1.
    + intros Hin. apply mem_In in Hin. congruence.
    + intros Hin. apply mem_In in Hin. congruence.
    + intros stub Hin. destruct (PyStr.startswith (name dep) stub) eqn:Es;
        [|reflexivity].
      assert (existsb (PyStr.startswith (name dep)) type_stub_packages = true)
        by (apply existsb_exists; exists stub; split; assumption).
      congruence.
  - intros Hdev. rewrite Hdev in E2. cbn in E2.
    destruct include_dev; [reflexivity | discriminate].
  - intros Hopt. rewrite Hopt in E3. cbn in E3.
    destruct include_optional; [reflexivity | discriminate].
Qed.

(** What holds of the filter with rule 1 read through the answers of
    [_matches_pattern]: [filter_dependencies] either raises, which happens
    only when [re.match] raises on one of the exclude patterns, or returns a
    subsequence of its input (so not longer, and in the same relative order)
    in which every entry meets the rules: [_matches_pattern] answers no for
    its name on every exclude pattern; under runtime-only its group is
    runtime, its lowercased name is in neither denylist and its name starts
    with no stub prefix; a dev entry is there only with include-dev, an
    optional one only with include-optional. *)
Theorem filter_dependencies_sound (w : World) (D : list DependencyInfo)
    (include_dev include_optional runtime_only : bool)
    (exclude_patterns : list string) :
  match filter_dependencies w D include_dev include_optional runtime_only
          exclude_patterns with
  | Some filtered =>
      sublist filtered D
      /\ length filtered <= length D
      /\ Forall (Retained w include_dev include_optional runtime_only
                   exclude_patterns) filtered
  | None =>
      exists dep pattern,
        In dep D /\ In pattern exclude_patterns
        /\ _matches_pattern w (name dep) pattern = None
  end.
Proof.
  induction D as [|dep D IH]; cbn [filter_dependencies].
  - repeat split; constructor.
  - destruct (matches_any w (name dep) exclude_patterns) as [excluded|] eqn:Hex;
      cbn.
    + destruct (filter_dependencies w D include_dev include_optional
                  runtime_only exclude_patterns) as [filtered|]; cbn.
      * destruct IH as (Hsub & Hlen & Hall).
        destruct excluded;
          [|destruct (passes_rules include_dev include_optional runtime_only dep)
              eqn:Hpass].
        -- repeat split; [apply sublist_cons, Hsub | lia | exact Hall].
        -- repeat split; [apply sublist_skip, Hsub | cbn; lia |].
           constructor; [|exact Hall].
           apply passes_rules_retained; assumption.
        -- repeat split; [apply sublist_cons, Hsub | lia | exact Hall].
      * destruct IH as (d & p & Hd & Hp & E).
        exists d, p. repeat split; [right|..]; assumption.
    + destruct (matches_any_none _ _ _ Hex) as (p & Hp & E).
      exists dep, p. repeat split; [left; reflexivity | assumption..].
Qed.

(** [filter_dependencies] returns whenever every pattern is plain and no name
    holds a newline. *)
Lemma filter_dependencies_returns (w : World) (D : list DependencyInfo)
    (include_dev include_optional runtime_only : bool)
    (exclude_patterns : list string) :
  forallb glob_plain exclude_patterns = true ->
  forallb (fun dep => no_newline (name dep)) D = true ->
  exists filtered,
    filter_dependencies w D include_dev include_optional runtime_only
      exclude_patterns = Some filtered.
Proof.
  intros Hpat HD.
  pose proof (filter_dependencies_none :=
    fun d p (Hd : In d D) (Hp : In p exclude_patterns) =>
      matches_pattern_glob w (name d) p
        (proj1 (forallb_forall _ _) Hpat p Hp)
        (proj1 (forallb_forall _ _) HD d Hd)).
  assert (Hany : forall d, In d D ->
            exists b, matches_any w (name d) exclude_patterns = Some b).
  { intros d Hd.
    destruct (matches_any w (name d) exclude_patterns) as [b|] eqn:E;
      [exists b; reflexivity|].
    destruct (matches_any_none _ _ _ E) as (p & Hp & En).
    rewrite (filter_dependencies_none d p Hd Hp) in En. discriminate. }
  clear filter_dependencies_none Hpat HD.
  induction D as [|dep D IH]; cbn [filter_dependencies].
  - eexists; reflexivity.
  - destruct (Hany dep (or_introl eq_refl)) as [b ->].
    destruct IH as [filtered ->]; [intros d Hd; apply Hany; right; exact Hd|].
    cbn. eexists; reflexivity.
Qed.

(** ** ReportAssembler *)

Lemma fold_process_dependency (w : World) (l : list DependencyInfo)
    (pkgs : list PackageInfo) (s : Summary.t) :
  fold_left (process_dependency w) l (pkgs, s) =
  (pkgs ++ map (merged_package w) l,
   fold_left (fun s dep => count_package dep (merged_package w dep) s) l s).
Proof.
  revert pkgs s. induction l as [|dep l IH]; intros pkgs s; cbn [fold_left map].
  - rewrite app_nil_r. reflexivity.
  - unfold process_dependency at 2. cbn [fst snd].
    fold (merged_package w dep). rewrite IH, <- app_assoc. reflexivity.
Qed.

(** The report is made of the filtered list alone. *)
Lemma generate_report_shape (w : World)
    (include_dev include_optional runtime_only : bool)
    (exclude_patterns : list string) (rep : Report) :
  snd (generate_report w include_dev include_optional runtime_only
         exclude_patterns) = Some rep ->
  exists filtered counts,
    filter_dependencies w (fst (get_all_dependencies w)) include_dev
      include_optional runtime_only exclude_patterns = Some filtered
    /\ counts =
       fold_left (fun s dep => count_package dep (merged_package w dep) s)
                 (sorted_by_name filtered) Summary.zero
    /\ packages rep = map (merged_package w) (sorted_by_name filtered)
    /\ summary rep =
       Summary.mk (length filtered)
         (Summary.runtime_packages counts) (Summary.dev_packages counts)
         (Summary.optional_packages counts)
         (Summary.requires_attribution counts)
         (Summary.unknown_licenses counts)
    /\ dependency_files rep =
       map (fun e => path_str (snd e)) (discover_dependency_files w).
Proof.
  unfold generate_report.
  destruct (get_all_dependencies w) as [all_deps printed]. cbn [fst snd].
  destruct (filter_dependencies w all_deps include_dev include_optional
              runtime_only exclude_patterns) as [filtered|]; [|discriminate].
  cbn. rewrite fold_process_dependency. cbn [app].
  intros [= <-]. exists filtered. eexists. repeat split; reflexivity.
Qed.

Lemma sorted_by_name_perm (deps : list DependencyInfo) :
  Permutation (sorted_by_name deps) deps.
Proof.
  assert (Hins : forall d l, Permutation (insert_by_key d l) (d :: l)).
  { intros d l. induction l as [|x l IH]; cbn [insert_by_key]; [reflexivity|].
    destruct (String.ltb (sort_key x) (sort_key d)); [|reflexivity].
    rewrite IH. apply perm_swap. }
  induction deps as [|d deps IH]; cbn; [reflexivity|].
  rewrite Hins, IH. reflexivity.
Qed.

Lemma count_where_cons {A : Type} (f : A -> bool) (x : A) (l : list A) :
  count_where f (x :: l) = (if f x then 1 else 0) + count_where f l.
Proof. unfold count_where. cbn. destruct (f x); reflexivity. Qed.

Lemma counts_fold (w : World) (l : list DependencyInfo) (s : Summary.t) :
  let s' := fold_left (fun s dep => count_package dep (merged_package w dep) s) l s in
  let pkgs := map (merged_package w) l in
  Summary.total_packages s' = Summary.total_packages s
  /\ Summary.runtime_packages s' =
     Summary.runtime_packages s + count_where (has_type "runtime") pkgs
  /\ Summary.dev_packages s' =
     Summary.dev_packages s + count_where (has_type "dev") pkgs
  /\ Summary.optional_packages s' =
     Summary.optional_packages s + count_where (has_type "optional") pkgs
  /\ Summary.requires_attribution s' =
     Summary.requires_attribution s + count_where requires_attribution pkgs
  /\ Summary.unknown_licenses s' =
     Summary.unknown_licenses s + count_where license_unknown pkgs.
Proof.
  revert s. induction l as [|dep l IH]; intros s; cbn [fold_left map].
  - cbn. repeat split; lia.
  - specialize (IH (count_package dep (merged_package w dep) s)).
    cbv zeta in IH. destruct IH as (H0 & H1 & H2 & H3 & H4 & H5).
    rewrite !count_where_cons.
    rewrite H0, H1, H2, H3, H4, H5. clear.
    unfold has_type, license_unknown, count_package.
    cbn [merged_package dependency_type requires_attribution license].
    destruct (String.eqb_spec (dep_type dep) "runtime") as [->|].
    + destruct (requires_attribution (get_package_info w (name dep)));
        destruct (String.eqb (license (get_package_info w (name dep))) "unknown");
        cbn; repeat split; lia.
    + destruct (String.eqb_spec (dep_type dep) "dev") as [->|].
      * destruct (requires_attribution (get_package_info w (name dep)));
          destruct (String.eqb (license (get_package_info w (name dep))) "unknown");
          cbn; repeat split; lia.
      * destruct (String.eqb_spec (dep_type dep) "optional") as [?|?];
          destruct (requires_attribution (get_package_info w (name dep)));
          destruct (String.eqb (license (get_package_info w (name dep))) "unknown");
          cbn; repeat split; lia.
Qed.

(** C3.  In a report returned by [generate_report] the summary is a count
    over the package list of the report: the total is its length, the three
    group counts are the numbers of packages whose dependency type is
    runtime, dev and optional, the attribution count is the number of
    packages with [requires_attribution] set, and the unknown count is the
    number of packages whose license is the text "unknown". *)
Theorem summary_counts (w : World)
    (include_dev include_optional runtime_only : bool)
    (exclude_patterns : list string) (rep : Report) :
  snd (generate_report w include_dev include_optional runtime_only
         exclude_patterns) = Some rep ->
  Summary.total_packages (summary rep) = length (packages rep)
  /\ Summary.runtime_packages (summary rep) =
     count_where (has_type "runtime") (packages rep)
  /\ Summary.dev_packages (summary rep) =
     count_where (has_type "dev") (packages rep)
  /\ Summary.optional_packages (summary rep) =
     count_where (has_type "optional") (packages rep)
  /\ Summary.requires_attribution (summary rep) =
     count_where requires_attribution (packages rep)
  /\ Summary.unknown_licenses (summary rep) =
     count_where license_unknown (packages rep).
Proof.
  intros H.
  destruct (generate_report_shape _ _ _ _ _ _ H)
    as (filtered & counts & _ & Hcounts & Hpk & Hsum & _).
  pose proof (counts_fold w (sorted_by_name filtered) Summary.zero) as Hc.
  cbv zeta in Hc. rewrite <- Hcounts, <- Hpk in Hc.
  destruct Hc as (_ & H1 & H2 & H3 & H4 & H5).
  rewrite Hsum. cbn [Summary.total_packages Summary.runtime_packages
    Summary.dev_packages Summary.optional_packages
    Summary.requires_attribution Summary.unknown_licenses].
  rewrite H1, H2, H3, H4, H5, Hpk, length_map.
  rewrite (Permutation_length (sorted_by_name_perm filtered)).
  cbn. repeat split; reflexivity.
Qed.

Lemma summary_counts_witness :
  snd (generate_report demo_world true false false []) = Some demo_report
  /\ Summary.total_packages (summary demo_report) = 2
  /\ Summary.dev_packages (summary demo_report) =
     count_where (has_type "dev") (packages demo_report).
Proof.
  split; [vm_compute; reflexivity|].
  destruct (summary_counts demo_world true false false [] demo_report)
    as (H0 & _ & H2 & _); [vm_compute; reflexivity|].
  split; [exact H0 | exact H2].
Defined.

(** The scenario of section 8: without flags the report holds the one
    runtime package, with include-dev it holds both. *)
Example scenario_no_flags :
  option_map (fun rep => (map pkg_name (packages rep), summary rep))
    (snd (generate_report demo_world false false false []))
  = Some (["requests"], Summary.mk 1 1 0 0 1 0).
Proof. vm_compute. reflexivity. Qed.

Example scenario_include_dev :
  snd (generate_report demo_world true false false []) = Some demo_report.
Proof. vm_compute. reflexivity. Qed.

Example scenario_exclude_pattern :
  filter_dependencies demo_world
    [mkDep "requests" "" "runtime"; mkDep "pytest-mock" "" "runtime";
     mkDep "Test-Tools" "" "runtime"]
    false false false ["test*"]
  = Some [mkDep "requests" "" "runtime"; mkDep "pytest-mock" "" "runtime"].
Proof. vm_compute. reflexivity. Qed.

Lemma filter_runtime_only (w : World) (D : list DependencyInfo)
    (include_dev include_optional : bool) (exclude_patterns : list string)
    (filtered : list DependencyInfo) :
  filter_dependencies w D include_dev include_optional true exclude_patterns
    = Some filtered ->
  Forall (fun dep => dep_type dep = "runtime") filtered.
Proof.
  revert filtered. induction D as [|dep D IH]; cbn [filter_dependencies];
    intros filtered H.
  - injection H as <-. constructor.
  - destruct (matches_any w (name dep) exclude_patterns) as [excluded|];
      [|discriminate].
    destruct (filter_dependencies w D include_dev include_optional true
                exclude_patterns) as [rest|]; [|discriminate].
    cbn in H. injection H as <-. specialize (IH rest eq_refl).
    destruct excluded; [exact IH|].
    destruct (passes_rules include_dev include_optional true dep) eqn:Hpass;
      [|exact IH].
    constructor; [|exact IH].
    unfold passes_rules in Hpass. cbn [andb] in Hpass.
    destruct (String.eqb_spec (dep_type dep) "runtime") as [E|E];
      [exact E | discriminate].
Qed.

(** C2.  With runtime-only set, [filter_dependencies] keeps no entry whose
    group is not runtime, whatever include-dev and include-optional are; so
    every package of a runtime-only report has dependency type runtime, also
    when include-dev is passed to [generate_report], and [main] clears
    include-dev when runtime-only is given. *)
Theorem runtime_only_drops_non_runtime (w : World)
    (include_dev include_optional : bool) (exclude_patterns : list string) :
  (forall D filtered dep,
      filter_dependencies w D include_dev include_optional true
        exclude_patterns = Some filtered ->
      dep_type dep <> "runtime" -> ~ In dep filtered)
  /\ (forall rep,
        snd (generate_report w include_dev include_optional true
               exclude_patterns) = Some rep ->
        Forall (fun p => dependency_type p = Some "runtime") (packages rep))
  /\ resolve_flags false true include_dev include_optional = (false, false, true).
Proof.
  split; [|split; [|reflexivity]].
  - intros D filtered dep H Hty Hin.
    apply filter_runtime_only in H.
    rewrite List.Forall_forall in H. apply Hty, H, Hin.
  - intros rep H.
    destruct (generate_report_shape _ _ _ _ _ _ H)
      as (filtered & counts & Hf & _ & Hpk & _).
    apply filter_runtime_only in Hf. rewrite Hpk.
    apply List.Forall_forall. intros p Hp.
    apply in_map_iff in Hp as (dep & <- & Hdep).
    cbn [merged_package dependency_type]. f_equal.
    rewrite List.Forall_forall in Hf. apply Hf.
    apply (Permutation_in _ (sorted_by_name_perm filtered)), Hdep.
Qed.

Lemma runtime_only_drops_non_runtime_witness :
  filter_dependencies demo_world
    [mkDep "requests" "==2.31.0" "runtime"; mkDep "pytest" "" "dev"]
    true false true [] = Some [mkDep "requests" "==2.31.0" "runtime"]
  /\ ~ In (mkDep "pytest" "" "dev") [mkDep "requests" "==2.31.0" "runtime"]
  /\ snd (generate_report demo_world true false true [])
     = Some demo_report_runtime_only
  /\ Forall (fun p => dependency_type p = Some "runtime")
            (packages demo_report_runtime_only).
Proof.
  destruct (runtime_only_drops_non_runtime demo_world true false [])
    as (Hfilter & Hreport & _).
  split; [vm_compute; reflexivity|].
  split.
  - apply (Hfilter [mkDep "requests" "==2.31.0" "runtime"; mkDep "pytest" "" "dev"]).
    + vm_compute; reflexivity.
    + cbn. discriminate.
  - split; [vm_compute; reflexivity|].
    apply Hreport. vm_compute; reflexivity.
Defined.

Lemma get_package_info_attribution (w : World) (package_name : string) :
  requires_attribution (get_package_info w package_name) =
  _requires_attribution (license (get_package_info w package_name)).
Proof. reflexivity. Qed.

Lemma count_where_le {A : Type} (f g : A -> bool) (l : list A) :
  (forall x, In x l -> f x = true -> g x = true) ->
  count_where f l <= count_where g l.
Proof.
  induction l as [|x l IH]; intros H; [reflexivity|].
  rewrite !count_where_cons.
  assert (IH' : count_where f l <= count_where g l)
    by (apply IH; intros y Hy; apply H; right; exact Hy).
  specialize (H x (or_introl eq_refl)).
  destruct (f x); [rewrite H by reflexivity; lia|].
  destruct (g x); lia.
Qed.

Lemma unknown_requires_attribution (w : World) (dep : DependencyInfo) :
  license_unknown (merged_package w dep) = true ->
  requires_attribution (merged_package w dep) = true.
Proof.
  unfold license_unknown. cbn [merged_package license requires_attribution].
  rewrite get_package_info_attribution. intros H.
  apply String.eqb_eq in H. rewrite H. reflexivity.
Qed.

(** C10.  In a report returned by [generate_report] the unknown-license
    count is at most the attribution count: a package whose license is
    "unknown" has [requires_attribution] set, since [_requires_attribution]
    answers true on "unknown", as on every text whose lowercase form holds no
    word of the no-attribution list. *)
Theorem unknown_le_attribution (w : World)
    (include_dev include_optional runtime_only : bool)
    (exclude_patterns : list string) (rep : Report) :
  snd (generate_report w include_dev include_optional runtime_only
         exclude_patterns) = Some rep ->
  Summary.unknown_licenses (summary rep)
    <= Summary.requires_attribution (summary rep)
  /\ Forall (fun p => license p = "unknown" -> requires_attribution p = true)
            (packages rep)
  /\ _requires_attribution "unknown" = true
  /\ (forall text,
        PyStr.contains_any ["public domain"; "unlicense"; "wtfpl"]
          (PyStr.lower text) = false ->
        _requires_attribution text = true).
Proof.
  intros H.
  destruct (generate_report_shape _ _ _ _ _ _ H)
    as (filtered & counts & _ & Hcounts & Hpk & Hsum & _).
  pose proof (counts_fold w (sorted_by_name filtered) Summary.zero) as Hc.
  cbv zeta in Hc. rewrite <- Hcounts, <- Hpk in Hc.
  destruct Hc as (_ & _ & _ & _ & H4 & H5).
  assert (Hall : forall p, In p (packages rep) ->
            license_unknown p = true -> requires_attribution p = true).
  { rewrite Hpk. intros p Hp. apply in_map_iff in Hp as (dep & <- & _).
    apply unknown_requires_attribution. }
  split; [|split; [|split]].
  - rewrite Hsum. cbn [Summary.unknown_licenses Summary.requires_attribution].
    rewrite H4, H5. cbn. apply count_where_le, Hall.
  - apply List.Forall_forall. intros p Hp Hl. apply (Hall p Hp).
    unfold license_unknown. rewrite Hl. reflexivity.
  - reflexivity.
  - intros text Htext. unfold _requires_attribution.
    change no_attribution with ["public domain"; "unlicense"; "wtfpl"].
    rewrite Htext.
    destruct (PyStr.contains_any attribution_required _); reflexivity.
Qed.

Lemma unknown_le_attribution_witness :
  snd (generate_report demo_world true false false []) = Some demo_report
  /\ Summary.unknown_licenses (summary demo_report)
     <= Summary.requires_attribution (summary demo_report).
Proof.
  split; [vm_compute; reflexivity|].
  apply (unknown_le_attribution demo_world true false false [] demo_report).
  vm_compute; reflexivity.
Defined.

(** ** Order of the packages *)

Lemma ltb_leb (a b : string) : String.ltb a b = true -> String.leb a b = true.
Proof.
  unfold String.ltb, String.leb. destruct (String.compare a b); congruence.
Qed.

Lemma not_ltb_leb (a b : string) : String.ltb a b = false -> String.leb b a = true.
Proof.
  unfold String.ltb, String.leb. rewrite (String.compare_antisym a b).
  destruct (String.compare b a); cbn; congruence.
Qed.

Lemma insert_by_key_sorted (dep : DependencyInfo) (l : list DependencyInfo) :
  Sorted key_le l -> Sorted key_le (insert_by_key dep l).
Proof.
  induction 1 as [|x l Hl IH Hhd]; cbn [insert_by_key].
  - repeat constructor.
  - destruct (String.ltb (sort_key x) (sort_key dep)) eqn:E.
    + constructor; [exact IH|].
      destruct Hhd as [|y l Hxy]; cbn [insert_by_key].
      * constructor. apply ltb_leb, E.
      * destruct (String.ltb (sort_key y) (sort_key dep));
          constructor; [exact Hxy | apply ltb_leb, E].
    + constructor; [constructor; assumption|].
      constructor. apply not_ltb_leb, E.
Qed.

Lemma sorted_by_name_sorted (deps : list DependencyInfo) :
  Sorted key_le (sorted_by_name deps).
Proof.
  induction deps as [|d deps IH]; cbn; [constructor|].
  apply insert_by_key_sorted, IH.
Qed.

Lemma Sorted_weaken {A : Type} (R R' : A -> A -> Prop) (l : list A) :
  (forall a b, R a b -> R' a b) -> Sorted R l -> Sorted R' l.
Proof.
  intros HR. induction 1 as [|x l Hl IH Hhd]; constructor; [exact IH|].
  destruct Hhd; constructor. apply HR. assumption.
Qed.

Lemma Sorted_map {A B : Type} (f : A -> B) (R : B -> B -> Prop) (l : list A) :
  Sorted (fun a b => R (f a) (f b)) l -> Sorted R (map f l).
Proof.
  induction 1 as [|x l Hl IH Hhd]; cbn [map]; constructor; [exact IH|].
  destruct Hhd; cbn [map]; constructor; assumption.
Qed.

Lemma Sorted_adjacent {A : Type} (R : A -> A -> Prop) (l : list A) :
  Sorted R l ->
  forall i a b, l !! i = Some a -> l !! S i = Some b -> R a b.
Proof.
  induction 1 as [|x l Hl IH Hhd]; intros i a b Ha Hb; [discriminate|].
  destruct i as [|i]; cbn in Ha, Hb.
  - injection Ha as <-. destruct Hhd as [|y l Hxy]; [discriminate|].
    cbn in Hb. injection Hb as <-. exact Hxy.
  - eapply IH; eassumption.
Qed.

Lemma read_metadata_name (metadata_lines : list string) (info : PackageInfo) :
  pkg_name (fold_left read_metadata_line metadata_lines info) = pkg_name info.
Proof.
  revert info. induction metadata_lines as [|l ls IH]; intros info;
    cbn [fold_left]; [reflexivity|].
  rewrite IH. unfold read_metadata_line.
  destruct (PyStr.startswith l "License:"); [reflexivity|].
  destruct (PyStr.startswith l "Author:"); [reflexivity|].
  destruct (PyStr.startswith l "Home-page:"); reflexivity.
Qed.

Lemma get_package_info_name (w : World) (package_name : string) :
  pkg_name (get_package_info w package_name) = package_name.
Proof.
  unfold get_package_info. cbn [pkg_name].
  destruct (get_distribution w package_name) as [dist|]; [|reflexivity].
  destruct (dist_metadata dist); [|reflexivity].
  apply read_metadata_name.
Qed.

Lemma merged_package_merges (w : World) (dep : DependencyInfo) :
  Merges w dep (merged_package w dep).
Proof.
  split; [apply get_package_info_name|]. repeat split; reflexivity.
Qed.

(** C8.  In a report returned by [generate_report], of any two adjacent
    packages the lowercased name of the first is at most that of the second;
    the packages are, entry by entry, the filtered dependencies in sorted
    order, each carrying the dependency type and version spec of its
    dependency together with the metadata looked up for its name. *)
Theorem packages_sorted_merged (w : World)
    (include_dev include_optional runtime_only : bool)
    (exclude_patterns : list string) (rep : Report) :
  snd (generate_report w include_dev include_optional runtime_only
         exclude_patterns) = Some rep ->
  (forall i a b,
      packages rep !! i = Some a -> packages rep !! S i = Some b ->
      String.leb (PyStr.lower (pkg_name a)) (PyStr.lower (pkg_name b)) = true)
  /\ exists filtered deps,
       filter_dependencies w (fst (get_all_dependencies w)) include_dev
         include_optional runtime_only exclude_patterns = Some filtered
       /\ Permutation deps filtered
       /\ Forall2 (Merges w) deps (packages rep).
Proof.
  intros H.
  destruct (generate_report_shape _ _ _ _ _ _ H)
    as (filtered & counts & Hf & _ & Hpk & _).
  split.
  - rewrite Hpk. apply (Sorted_adjacent name_le), Sorted_map.
    apply (Sorted_weaken key_le); [|apply sorted_by_name_sorted].
    intros a b Hab. unfold name_le. cbn [merged_package pkg_name].
    rewrite !get_package_info_name. exact Hab.
  - exists filtered, (sorted_by_name filtered).
    split; [exact Hf|]. split; [apply sorted_by_name_perm|].
    rewrite Hpk. clear.
    induction (sorted_by_name filtered) as [|d l IH]; cbn [map]; constructor;
      [apply merged_package_merges | exact IH].
Qed.

Lemma packages_sorted_merged_witness :
  snd (generate_report demo_world true false false []) = Some demo_report
  /\ (forall i a b,
        packages demo_report !! i = Some a ->
        packages demo_report !! S i = Some b ->
        String.leb (PyStr.lower (pkg_name a)) (PyStr.lower (pkg_name b)) = true).
Proof.
  split; [vm_compute; reflexivity|].
  apply (packages_sorted_merged demo_world true false false [] demo_report).
  vm_compute; reflexivity.
Defined.

(** ** Which manifests are read *)

Lemma fold_parse_manifest (w : World) (names : list string)
    (acc : list DependencyInfo * list warning) :
  fold_left
    (fun acc entry =>
       let '(deps, printed) := parse_manifest w entry in
       (fst acc ++ deps, snd acc ++ printed))
    (map (fun n => (n, project_file w n))
         (List.filter
            (fun n => match fs w n with Some _ => true | None => false end)
            names))
    acc
  = (fst acc ++ fst (gather (map (contribution w) names)),
     snd acc ++ snd (gather (map (contribution w) names))).
Proof.
  revert acc. induction names as [|n names IH]; intros [deps printed].
  - cbn. rewrite !app_nil_r. reflexivity.
  - cbn [List.filter map gather concat fst snd]. unfold contribution at 1 3.
    destruct (fs w n) as [f|].
    + cbn [map fold_left].
      destruct (parse_manifest w (n, project_file w n)) as [d p].
      rewrite IH. cbn [fst snd gather]. rewrite <- !app_assoc. reflexivity.
    + rewrite IH. reflexivity.
Qed.

Lemma get_all_dependencies_gather (w : World) :
  get_all_dependencies w = gather (map (contribution w) candidates).
Proof.
  unfold get_all_dependencies, discover_dependency_files.
  rewrite fold_parse_manifest. reflexivity.
Qed.

Lemma contribution_skipped (w : World) (file_name : string) :
  In file_name skipped_manifests -> contribution w file_name = ([], []).
Proof.
  intros Hin. unfold contribution. destruct (fs w file_name); [|reflexivity].
  cbn in Hin. decompose [or] Hin; subst; try reflexivity. contradiction.
Qed.

Lemma get_all_dependencies_parsed (w : World) :
  get_all_dependencies w = gather (map (contribution w) parsed_manifests).
Proof.
  rewrite get_all_dependencies_gather. unfold candidates, parsed_manifests.
  cbn [map].
  rewrite !(contribution_skipped w "setup.cfg"), !(contribution_skipped w "Pipfile"),
    !(contribution_skipped w "environment.yml"),
    !(contribution_skipped w "environment.yaml"),
    !(contribution_skipped w "conda.yml") by (cbn; tauto).
  reflexivity.
Qed.

Lemma pyproject_dependencies_ext (w1 w2 : World)
    (data : list (string * toml_value)) :
  str_of_array w1 = str_of_array w2 ->
  pyproject_dependencies w1 data = pyproject_dependencies w2 data.
Proof.
  intros H. unfold pyproject_dependencies, poetry_entries, str_of.
  rewrite H. reflexivity.
Qed.

Lemma contribution_ext (w1 w2 : World) (file_name : string) :
  same_but_skipped w1 w2 ->
  In file_name parsed_manifests ->
  contribution w1 file_name = contribution w2 file_name.
Proof.
  intros (_ & Hpath & Htoml & Hstr & _ & Hfs) Hin.
  assert (Hf : fs w1 file_name = fs w2 file_name).
  { apply Hfs. intros Hs. cbn in Hin, Hs.
    decompose [or] Hin; subst; decompose [or] Hs; try discriminate; contradiction. }
  unfold contribution, parse_manifest, parse_requirements_txt, parse_setup_py,
    parse_pyproject_toml, open_file, project_file.
  cbn [path_name path_str].
  rewrite Hf, Hpath, Htoml.
  destruct (fs w2 file_name); [|reflexivity].
  destruct (PyStr.endswith file_name ".txt"); [reflexivity|].
  destruct (String.eqb file_name "setup.py"); [reflexivity|].
  destruct (String.eqb file_name "pyproject.toml"); [|reflexivity].
  destruct (toml w2) as [load|]; [|reflexivity].
  destruct (read t) as [text|]; [|reflexivity].
  destruct (load text) as [[| | |data]|]; try reflexivity.
  rewrite (pyproject_dependencies_ext w1 w2 data Hstr). reflexivity.
Qed.

Lemma get_all_dependencies_ext (w1 w2 : World) :
  same_but_skipped w1 w2 -> get_all_dependencies w1 = get_all_dependencies w2.
Proof.
  intros H. rewrite !get_all_dependencies_parsed. f_equal.
  apply map_ext_in. intros n Hn. apply contribution_ext; assumption.
Qed.

Lemma filter_dependencies_ext (w1 w2 : World) (D : list DependencyInfo)
    (include_dev include_optional runtime_only : bool)
    (exclude_patterns : list string) :
  re_other w1 = re_other w2 ->
  filter_dependencies w1 D include_dev include_optional runtime_only
    exclude_patterns
  = filter_dependencies w2 D include_dev include_optional runtime_only
      exclude_patterns.
Proof.
  intros H.
  assert (Hany : forall nm ps, matches_any w1 nm ps = matches_any w2 nm ps).
  { intros nm ps. induction ps as [|p ps IH]; cbn [matches_any]; [reflexivity|].
    unfold _matches_pattern, re_match_ignorecase. rewrite H, IH. reflexivity. }
  induction D as [|dep D IH]; cbn [filter_dependencies]; [reflexivity|].
  rewrite Hany, IH. reflexivity.
Qed.

Lemma merged_package_ext (w1 w2 : World) (dep : DependencyInfo) :
  get_distribution w1 = get_distribution w2 ->
  merged_package w1 dep = merged_package w2 dep.
Proof.
  intros H. unfold merged_package, get_package_info. rewrite H. reflexivity.
Qed.

Lemma counted_ext (w1 w2 : World) (l : list DependencyInfo) (s : Summary.t) :
  get_distribution w1 = get_distribution w2 ->
  fold_left (fun s dep => count_package dep (merged_package w1 dep) s) l s
  = fold_left (fun s dep => count_package dep (merged_package w2 dep) s) l s.
Proof.
  intros H. revert s. induction l as [|d l IH]; intros s; cbn [fold_left];
    [reflexivity|].
  rewrite (merged_package_ext w1 w2 d H). apply IH.
Qed.

Lemma discovered_listed (w : World) (file_name : string) :
  In file_name candidates ->
  fs w file_name <> None ->
  In (path_text w file_name)
     (map (fun e => path_str (snd e)) (discover_dependency_files w)).
Proof.
  intros Hin Hex. unfold discover_dependency_files. rewrite map_map.
  cbn [snd project_file path_str]. apply in_map.
  apply filter_In. split; [exact Hin|].
  destruct (fs w file_name); [reflexivity | contradiction].
Qed.

(** C9.  [get_all_dependencies] reads the discovered files whose names end
    in .txt, setup.py and pyproject.toml, and passes over Pipfile,
    environment.yml, environment.yaml, conda.yml and setup.cfg: what these
    five hold, and whether they exist, changes neither the dependencies
    gathered nor the packages and the summary of any report, although each
    of them that exists is listed in [dependency_files]. *)
Theorem skipped_manifests_ignored (w1 w2 : World) :
  same_but_skipped w1 w2 ->
  get_all_dependencies w1 = gather (map (contribution w1) parsed_manifests)
  /\ (forall file_name, In file_name skipped_manifests ->
        parse_manifest w1 (file_name, project_file w1 file_name) = ([], []))
  /\ get_all_dependencies w1 = get_all_dependencies w2
  /\ (forall include_dev include_optional runtime_only exclude_patterns,
        option_map packages
          (snd (generate_report w1 include_dev include_optional runtime_only
                  exclude_patterns))
        = option_map packages
            (snd (generate_report w2 include_dev include_optional runtime_only
                    exclude_patterns))
        /\ option_map summary
             (snd (generate_report w1 include_dev include_optional runtime_only
                     exclude_patterns))
           = option_map summary
               (snd (generate_report w2 include_dev include_optional
                       runtime_only exclude_patterns)))
  /\ (forall file_name include_dev include_optional runtime_only
             exclude_patterns rep,
        In file_name skipped_manifests ->
        fs w1 file_name <> None ->
        snd (generate_report w1 include_dev include_optional runtime_only
               exclude_patterns) = Some rep ->
        In (path_text w1 file_name) (dependency_files rep)).
Proof.
  intros Hsame.
  pose proof (get_all_dependencies_ext w1 w2 Hsame) as Hall.
  destruct Hsame as (Hre & _ & _ & _ & Hdist & _).
  split; [apply get_all_dependencies_parsed|].
  split.
  { intros n Hn. cbn in Hn. decompose [or] Hn; subst; try reflexivity.
    contradiction. }
  split; [exact Hall|].
  split.
  - intros include_dev include_optional runtime_only exclude_patterns.
    unfold generate_report. rewrite Hall.
    destruct (get_all_dependencies w2) as [all_deps printed]. cbn [snd].
    rewrite (filter_dependencies_ext w1 w2) by exact Hre.
    destruct (filter_dependencies w2 all_deps include_dev include_optional
                runtime_only exclude_patterns) as [filtered|]; [|split; reflexivity].
    cbn. rewrite !fold_process_dependency. cbn [app option_map packages summary].
    rewrite (counted_ext w1 w2) by exact Hdist.
    split; [|reflexivity]. f_equal. apply map_ext. intros dep.
    apply merged_package_ext, Hdist.
  - intros n include_dev include_optional runtime_only exclude_patterns rep
      Hn Hex Hrep.
    destruct (generate_report_shape _ _ _ _ _ _ Hrep)
      as (filtered & counts & _ & _ & _ & _ & Hfiles).
    rewrite Hfiles. apply discovered_listed; [|exact Hex].
    cbn in Hn. decompose [or] Hn; subst; cbn; tauto.
Qed.

Lemma skipped_manifests_ignored_witness :
  same_but_skipped demo_world demo_world_no_pipfile
  /\ get_all_dependencies demo_world = get_all_dependencies demo_world_no_pipfile
  /\ In "/project/Pipfile" (dependency_files demo_report).
Proof.
  assert (Hsame : same_but_skipped demo_world demo_world_no_pipfile).
  { repeat split. intros n Hn. cbn [fs demo_world demo_world_no_pipfile].
    destruct (String.eqb_spec n "Pipfile") as [->|]; [|reflexivity].
    exfalso. apply Hn. cbn. tauto. }
  destruct (skipped_manifests_ignored demo_world demo_world_no_pipfile Hsame)
    as (_ & _ & Hall & _ & Hlisted).
  split; [exact Hsame|]. split; [exact Hall|].
  apply (Hlisted "Pipfile" true false false [] demo_report).
  - cbn. tauto.
  - vm_compute. discriminate.
  - vm_compute. reflexivity.
Defined.

(** ** Name and version split *)

Lemma span_app (p : ascii -> bool) (s : string) :
  s = (fst (PyStr.span p s) ++ snd (PyStr.span p s))%string.
Proof.
  induction s as [|c s IH]; cbn [PyStr.span]; [reflexivity|].
  destruct (p c); [|reflexivity].
  destruct (PyStr.span p s) as [a b]. cbn in *. congruence.
Qed.

Lemma span_all (p : ascii -> bool) (s : string) :
  all_chars p (fst (PyStr.span p s)) = true.
Proof.
  unfold all_chars. induction s as [|c s IH]; cbn [PyStr.span]; [reflexivity|].
  destruct (p c) eqn:E; [|reflexivity].
  destruct (PyStr.span p s) as [a b]. cbn in *. rewrite E, IH. reflexivity.
Qed.

Lemma span_rest (p : ascii -> bool) (s : string) :
  match snd (PyStr.span p s) with
  | EmptyString => True
  | String c _ => p c = false
  end.
Proof.
  induction s as [|c s IH]; cbn [PyStr.span]; [exact I|].
  destruct (p c) eqn:E; [|exact E].
  destruct (PyStr.span p s) as [a b]. exact IH.
Qed.

Lemma span_stop (p : ascii -> bool) (a b : string) :
  all_chars p a = true ->
  match b with EmptyString => True | String c _ => p c = false end ->
  PyStr.span p (a ++ b) = (a, b).
Proof.
  unfold all_chars. induction a as [|c a IH]; cbn; intros Ha Hb.
  - destruct b as [|c b]; [reflexivity|]. cbn. rewrite Hb. reflexivity.
  - apply andb_true_iff in Ha as [Hc Ha]. rewrite Hc, (IH Ha Hb). reflexivity.
Qed.

Lemma lstrip_no_leading (s : string) :
  no_leading_space s = true -> PyStr.lstrip s = s.
Proof.
  destruct s as [|c s]; [reflexivity|]. cbn. intros H.
  apply negb_true_iff in H. rewrite H. reflexivity.
Qed.

Lemma lstrip_is_stripped (s : string) : no_leading_space (PyStr.lstrip s) = true.
Proof.
  induction s as [|c s IH]; [reflexivity|]. cbn [PyStr.lstrip].
  destruct (PyStr.isspace c) eqn:E; [exact IH|]. cbn. rewrite E. reflexivity.
Qed.

Lemma rstrip_no_leading (s : string) :
  no_leading_space s = true -> no_leading_space (PyStr.rstrip s) = true.
Proof.
  destruct s as [|c s]; [reflexivity|]. cbn [PyStr.rstrip no_leading_space].
  intros H. destruct (PyStr.rstrip s).
  - apply negb_true_iff in H. rewrite H. cbn. rewrite H. reflexivity.
  - exact H.
Qed.

Lemma rstrip_idem (s : string) : PyStr.rstrip (PyStr.rstrip s) = PyStr.rstrip s.
Proof.
  induction s as [|c s IH]; [reflexivity|]. cbn [PyStr.rstrip].
  destruct (PyStr.rstrip s) as [|d r] eqn:E.
  - destruct (PyStr.isspace c) eqn:Ec; [reflexivity|].
    cbn. rewrite Ec. reflexivity.
  - cbn [PyStr.rstrip] in *. rewrite IH. reflexivity.
Qed.

Lemma strip_idem (s : string) : PyStr.strip (PyStr.strip s) = PyStr.strip s.
Proof.
  unfold PyStr.strip.
  rewrite (lstrip_no_leading (PyStr.rstrip (PyStr.lstrip s)))
    by apply rstrip_no_leading, lstrip_is_stripped.
  apply rstrip_idem.
Qed.

(** [s] is its right-stripped form followed by white space. *)
Lemma rstrip_tail (s : string) :
  exists t, s = (PyStr.rstrip s ++ t)%string /\ PyStr.lstrip t = EmptyString.
Proof.
  induction s as [|c s (t & Hs & Ht)]; [exists EmptyString; split; reflexivity|].
  cbn [PyStr.rstrip]. destruct (PyStr.rstrip s) as [|d r] eqn:E.
  - destruct (PyStr.isspace c) eqn:Ec.
    + exists (String c t). cbn in *. rewrite Ec. split; congruence.
    + exists t. cbn in *. split; congruence.
  - exists t. cbn in *. split; congruence.
Qed.

Lemma lstrip_skip (t s : string) :
  PyStr.lstrip t = EmptyString -> PyStr.lstrip (t ++ s) = PyStr.lstrip s.
Proof.
  induction t as [|c t IH]; [reflexivity|]. cbn.
  destruct (PyStr.isspace c); [exact IH | discriminate].
Qed.

Lemma drop_app (a b : string) : PyStr.drop (String.length a) (a ++ b) = b.
Proof. induction a as [|c a IH]; [destruct b; reflexivity | exact IH]. Qed.

Lemma append_assoc (a b c : string) :
  ((a ++ b) ++ c)%string = (a ++ (b ++ c))%string.
Proof. induction a as [|x a IH]; cbn; congruence. Qed.

(** The split of [split_spec] on a spec that does not begin with white
    space. *)
Lemma split_spec_at_operator (spec dep_type : string) :
  no_leading_space spec = true ->
  split_spec spec dep_type =
  mkDep (PyStr.strip (before_operator spec)) (PyStr.strip (from_operator spec))
        dep_type.
Proof.
  intros Hlead. unfold split_spec, new_DependencyInfo. rewrite strip_idem.
  f_equal.
  pose proof (span_app (fun c => negb (is_operator_char c)) spec) as Happ.
  fold (before_operator spec) (from_operator spec) in Happ.
  set (pre := before_operator spec) in *. set (post := from_operator spec) in *.
  assert (Hpre : PyStr.strip pre = PyStr.rstrip pre).
  { unfold PyStr.strip. destruct pre as [|c pre'] eqn:E; [reflexivity|].
    rewrite lstrip_no_leading; [reflexivity|].
    rewrite Happ in Hlead. exact Hlead. }
  rewrite Hpre.
  destruct (rstrip_tail pre) as (t & Ht & Hspace).
  rewrite Happ at 1. rewrite Ht at 2. rewrite append_assoc, drop_app.
  rewrite strip_idem. unfold PyStr.strip. rewrite lstrip_skip by exact Hspace.
  reflexivity.
Qed.

Lemma name_char_not_space (c : ascii) :
  is_name_char c = true -> PyStr.isspace c = false.
Proof.
  destruct c as [b0 b1 b2 b3 b4 b5 b6 b7].
  destruct b0, b1, b2, b3, b4, b5, b6, b7; vm_compute;
    intros H; (discriminate H || reflexivity).
Qed.

Lemma operator_not_name_char (c : ascii) :
  is_operator_char c = true -> is_name_char c = false.
Proof.
  destruct c as [b0 b1 b2 b3 b4 b5 b6 b7].
  destruct b0, b1, b2, b3, b4, b5, b6, b7; vm_compute;
    intros H; (discriminate H || reflexivity).
Qed.

Lemma rstrip_name_chars (s : string) :
  all_chars is_name_char s = true -> PyStr.rstrip s = s.
Proof.
  unfold all_chars. induction s as [|c s IH]; cbn; [reflexivity|].
  intros H. apply andb_true_iff in H as [Hc Hs]. rewrite (IH Hs).
  destruct s; [|reflexivity].
  rewrite (name_char_not_space c Hc). reflexivity.
Qed.

Lemma strip_name_chars (s : string) :
  all_chars is_name_char s = true -> PyStr.strip s = s.
Proof.
  intros H. unfold PyStr.strip. rewrite lstrip_no_leading.
  - apply rstrip_name_chars, H.
  - destruct s as [|c s]; [reflexivity|]. cbn in *.
    apply andb_true_iff in H as [Hc _].
    rewrite (name_char_not_space c Hc). reflexivity.
Qed.

(** What [parse_requirements_txt] makes of one line that it keeps. *)
Lemma requirement_line_split (file_name l : string) (dep : DependencyInfo) :
  parse_requirement_line file_name l = Some dep ->
  name dep = fst (PyStr.span is_name_char (PyStr.strip l))
  /\ version_spec dep
     = PyStr.strip (snd (PyStr.span is_name_char (PyStr.strip l)))
  /\ dep_type dep = _determine_dep_type_from_filename file_name.
Proof.
  unfold parse_requirement_line, match_requirement.
  pose proof (span_all is_name_char (PyStr.strip l)) as Hall.
  destruct (PyStr.strip l) as [|c s] eqn:El; [discriminate|].
  destruct (PyStr.startswith (String c s) "#"); [discriminate|].
  destruct (PyStr.startswith (String c s) "-"); [discriminate|].
  destruct (PyStr.span is_name_char (String c s)) as [run rest].
  cbn [fst snd] in *.
  destruct run as [|r run]; [discriminate|].
  destruct (PyStr.has_char Re.newline rest); [discriminate|].
  intros [= <-]. cbn [new_DependencyInfo name version_spec dep_type].
  rewrite (strip_name_chars _ Hall). repeat split; reflexivity.
Qed.

(** A kept line is split at its first operator character when only name
    characters come before it. *)
Lemma requirement_line_at_operator (file_name l : string) :
  before_operator (PyStr.strip l) <> EmptyString ->
  all_chars is_name_char (before_operator (PyStr.strip l)) = true ->
  PyStr.startswith (PyStr.strip l) "-" = false ->
  no_newline (from_operator (PyStr.strip l)) = true ->
  parse_requirement_line file_name l =
  Some (mkDep (before_operator (PyStr.strip l))
              (PyStr.strip (from_operator (PyStr.strip l)))
              (_determine_dep_type_from_filename file_name)).
Proof.
  intros Hne Hall Hdash Hnl. unfold parse_requirement_line, match_requirement.
  pose proof (span_app (fun c => negb (is_operator_char c)) (PyStr.strip l))
    as Happ.
  pose proof (span_rest (fun c => negb (is_operator_char c)) (PyStr.strip l))
    as Hrest.
  fold (before_operator (PyStr.strip l)) (from_operator (PyStr.strip l))
    in Happ, Hrest.
  set (pre := before_operator (PyStr.strip l)) in *.
  set (post := from_operator (PyStr.strip l)) in *.
  assert (Hspan : PyStr.span is_name_char (PyStr.strip l) = (pre, post)).
  { rewrite Happ. apply span_stop; [exact Hall|].
    destruct post as [|c post']; [exact I|].
    apply operator_not_name_char, negb_false_iff, Hrest. }
  rewrite Hdash, Hspan.
  destruct (PyStr.strip l) as [|c s] eqn:El.
  { destruct pre; [congruence | discriminate Happ]. }
  assert (Hhash : PyStr.startswith (String c s) "#" = false).
  { destruct pre as [|d pre']; [congruence|].
    injection Happ as -> _. unfold all_chars in Hall. cbn in Hall.
    apply andb_true_iff in Hall as [Hd _].
    unfold PyStr.startswith. cbn [String.prefix].
    destruct (ascii_dec "#" d) as [<-|]; [|reflexivity].
    vm_compute in Hd. discriminate Hd. }
  rewrite Hhash.
  destruct pre as [|d pre'] eqn:Epre; [congruence|].
  unfold no_newline in Hnl. apply negb_true_iff in Hnl. rewrite Hnl.
  unfold new_DependencyInfo. rewrite (strip_name_chars _ Hall). reflexivity.
Qed.

(** C4 as stated fails on a requirements line with an extras marker: the name
    ends where the name characters end, not at the first operator. *)
Lemma requirement_line_not_split_at_operator :
  exists dep,
    parse_requirement_line "requirements.txt" "requests[security]>=2.0" = Some dep
    /\ (name dep, version_spec dep)
       <> (before_operator "requests[security]>=2.0",
           from_operator "requests[security]>=2.0").
Proof.
  exists (mkDep "requests" "[security]>=2.0" "runtime").
  split; [vm_compute; reflexivity | vm_compute; discriminate].
Qed.

(** C4, amended.  A spec string of setup.py or pyproject.toml that does not
    begin with white space is split at its first character among [<], [>],
    [=], [!]: the name is the text before it and the version spec the text
    from it on, each trimmed.  A requirements line is split, after trimming,
    where its leading run of letters, digits, [_], [.] and [-] ends, the
    version spec being the trimmed rest; that is the split at the first
    operator character whenever only such characters come before it.  On
    both paths "requests>=2.0,<3.0" gives requests and >=2.0,<3.0, and "six"
    gives six and the empty version spec. *)
Theorem name_version_split (spec file_name dep_type : string) :
  (no_leading_space spec = true ->
   split_spec spec dep_type =
   mkDep (PyStr.strip (before_operator spec))
         (PyStr.strip (from_operator spec)) dep_type)
  /\ (forall dep,
        parse_requirement_line file_name spec = Some dep ->
        name dep = fst (PyStr.span is_name_char (PyStr.strip spec))
        /\ version_spec dep
           = PyStr.strip (snd (PyStr.span is_name_char (PyStr.strip spec))))
  /\ (before_operator (PyStr.strip spec) <> EmptyString ->
      all_chars is_name_char (before_operator (PyStr.strip spec)) = true ->
      PyStr.startswith (PyStr.strip spec) "-" = false ->
      no_newline (from_operator (PyStr.strip spec)) = true ->
      parse_requirement_line file_name spec =
      Some (mkDep (before_operator (PyStr.strip spec))
                  (PyStr.strip (from_operator (PyStr.strip spec)))
                  (_determine_dep_type_from_filename file_name)))
  /\ split_spec "requests>=2.0,<3.0" "runtime"
     = mkDep "requests" ">=2.0,<3.0" "runtime"
  /\ split_spec "six" "runtime" = mkDep "six" "" "runtime"
  /\ parse_requirement_line "requirements.txt" (line "requests>=2.0,<3.0")
     = Some (mkDep "requests" ">=2.0,<3.0" "runtime")
  /\ parse_requirement_line "requirements.txt" (line "six")
     = Some (mkDep "six" "" "runtime").
Proof.
  split; [apply split_spec_at_operator|].
  split.
  { intros dep H. destruct (requirement_line_split _ _ _ H) as (H1 & H2 & _).
    split; assumption. }
  split; [apply requirement_line_at_operator|].
  repeat split; vm_compute; reflexivity.
Qed.

Lemma name_version_split_witness :
  split_spec "numpy >= 1.20" "runtime" = mkDep "numpy" ">= 1.20" "runtime"
  /\ (forall dep,
        parse_requirement_line "requirements.txt" "requests[security]>=2.0"
          = Some dep ->
        name dep = "requests" /\ version_spec dep = "[security]>=2.0")
  /\ parse_requirement_line "requirements-dev.txt" " pytest-cov>=4.0 "
     = Some (mkDep "pytest-cov" ">=4.0" "dev").
Proof.
  split; [|split].
  - apply (proj1 (name_version_split "numpy >= 1.20" "setup.py" "runtime")).
    reflexivity.
  - intros dep H.
    apply (proj1 (proj2 (name_version_split "requests[security]>=2.0"
                           "requirements.txt" "runtime")) dep H).
  - apply (proj1 (proj2 (proj2 (name_version_split " pytest-cov>=4.0 "
                                  "requirements-dev.txt" "dev")))).
    + vm_compute. discriminate.
    + vm_compute. reflexivity.
    + vm_compute. reflexivity.
    + vm_compute. reflexivity.
Defined.

(** ** Parse failures *)

Lemma read_requirements_entries (file_name : string) (f_lines : list string)
    (f_fails : bool) (dependencies : list DependencyInfo) :
  read_requirements file_name f_lines f_fails dependencies =
  (dependencies ++ omap (parse_requirement_line file_name) f_lines, f_fails).
Proof.
  revert dependencies. induction f_lines as [|l ls IH]; intros dependencies;
    cbn [read_requirements omap list_omap].
  - rewrite app_nil_r. reflexivity.
  - rewrite IH. destruct (parse_requirement_line file_name l) as [dep|].
    + rewrite <- app_assoc. reflexivity.
    + reflexivity.
Qed.




(** * Further properties *)

(** ** Algebra of the filter *)

Lemma filter_dependencies_kept (w : World) (D : list DependencyInfo)
    (include_dev include_optional runtime_only : bool)
    (exclude_patterns : list string) (filtered : list DependencyInfo) :
  filter_dependencies w D include_dev include_optional runtime_only
    exclude_patterns = Some filtered ->
  forall dep, In dep filtered ->
    In dep D
    /\ matches_any w (name dep) exclude_patterns = Some false
    /\ passes_rules include_dev include_optional runtime_only dep = true.
Proof.
  revert filtered. induction D as [|d D IH]; cbn [filter_dependencies];
    intros filtered H dep Hin.
  - injection H as <-. destruct Hin.
  - destruct (matches_any w (name d) exclude_patterns) as [excluded|] eqn:Hex;
      [|discriminate].
    destruct (filter_dependencies w D include_dev include_optional
                runtime_only exclude_patterns) as [rest|]; [|discriminate].
    cbn in H. injection H as <-. specialize (IH rest eq_refl dep).
    assert (Htail : In dep rest ->
              In dep (d :: D)
              /\ matches_any w (name dep) exclude_patterns = Some false
              /\ passes_rules include_dev include_optional runtime_only dep
                 = true).
    { intros Hr. destruct (IH Hr) as (H1 & H2 & H3).
      split; [right; exact H1 | split; assumption]. }
    destruct excluded; [exact (Htail Hin)|].
    destruct (passes_rules include_dev include_optional runtime_only d)
      eqn:Hpass; [|exact (Htail Hin)].
    destruct Hin as [<-|Hin]; [|exact (Htail Hin)].
    split; [left; reflexivity | split; assumption].
Qed.

(** X1.  Filtering a concatenation is filtering its two parts and chaining
    the results; it raises exactly when one of the parts does. *)
Theorem filter_dependencies_app (w : World) (D1 D2 : list DependencyInfo)
    (include_dev include_optional runtime_only : bool)
    (exclude_patterns : list string) :
  filter_dependencies w (D1 ++ D2) include_dev include_optional runtime_only
    exclude_patterns
  = match filter_dependencies w D1 include_dev include_optional runtime_only
            exclude_patterns,
          filter_dependencies w D2 include_dev include_optional runtime_only
            exclude_patterns with
    | Some kept1, Some kept2 => Some (kept1 ++ kept2)
    | _, _ => None
    end.
Proof.
  induction D1 as [|d D1 IH]; cbn [app filter_dependencies].
  - destruct (filter_dependencies w D2 _ _ _ _); reflexivity.
  - rewrite IH.
    destruct (matches_any w (name d) exclude_patterns) as [excluded|];
      [|reflexivity].
    destruct (filter_dependencies w D1 include_dev include_optional
                runtime_only exclude_patterns) as [kept1|]; [|reflexivity].
    destruct (filter_dependencies w D2 include_dev include_optional
                runtime_only exclude_patterns) as [kept2|]; [|reflexivity].
    cbn. destruct excluded; [reflexivity|].
    destruct (passes_rules include_dev include_optional runtime_only d);
      reflexivity.
Qed.

(** X2.  Filtering is idempotent: a list that came out of the filter passes
    through it unchanged under the same settings. *)
Theorem filter_dependencies_idempotent (w : World) (D : list DependencyInfo)
    (include_dev include_optional runtime_only : bool)
    (exclude_patterns : list string) (filtered : list DependencyInfo) :
  filter_dependencies w D include_dev include_optional runtime_only
    exclude_patterns = Some filtered ->
  filter_dependencies w filtered include_dev include_optional runtime_only
    exclude_patterns = Some filtered.
Proof.
  intros H.
  pose proof (filter_dependencies_kept _ _ _ _ _ _ _ H) as Hkept. clear H.
  induction filtered as [|d filtered IH]; [reflexivity|].
  cbn [filter_dependencies].
  destruct (Hkept d (or_introl eq_refl)) as (_ & -> & Hpass).
  rewrite IH by (intros dep Hdep; apply Hkept; right; exact Hdep).
  cbn. rewrite Hpass. reflexivity.
Qed.

Lemma filter_dependencies_idempotent_witness :
  filter_dependencies demo_world
    [mkDep "requests" "" "runtime"; mkDep "pytest" "" "dev"]
    false false false ["py*"] = Some [mkDep "requests" "" "runtime"]
  /\ filter_dependencies demo_world [mkDep "requests" "" "runtime"]
       false false false ["py*"] = Some [mkDep "requests" "" "runtime"].
Proof.
  split; [vm_compute; reflexivity|].
  apply (filter_dependencies_idempotent demo_world
           [mkDep "requests" "" "runtime"; mkDep "pytest" "" "dev"]).
  vm_compute. reflexivity.
Defined.

Lemma passes_rules_runtime_only (include_dev include_optional : bool)
    (dep : DependencyInfo) :
  passes_rules include_dev include_optional true dep
  = passes_rules false false true dep.
Proof.
  unfold passes_rules. cbn [andb negb].
  destruct (String.eqb_spec (dep_type dep) "runtime") as [->|]; [|reflexivity].
  cbn. destruct include_dev, include_optional; reflexivity.
Qed.

Lemma filter_runtime_only_flags (w : World) (D : list DependencyInfo)
    (include_dev include_optional : bool) (exclude_patterns : list string) :
  filter_dependencies w D include_dev include_optional true exclude_patterns
  = filter_dependencies w D false false true exclude_patterns.
Proof.
  induction D as [|d D IH]; cbn [filter_dependencies]; [reflexivity|].
  rewrite IH, passes_rules_runtime_only. reflexivity.
Qed.

(** X3.  Under runtime-only the two include flags change nothing: the filter
    gives the same list, and [generate_report] the same packages and the
    same summary, whatever they are. *)
Theorem runtime_only_ignores_include_flags (w : World)
    (include_dev include_optional : bool) (exclude_patterns : list string) :
  (forall D,
      filter_dependencies w D include_dev include_optional true
        exclude_patterns
      = filter_dependencies w D false false true exclude_patterns)
  /\ option_map packages
       (snd (generate_report w include_dev include_optional true
               exclude_patterns))
     = option_map packages
         (snd (generate_report w false false true exclude_patterns))
  /\ option_map summary
       (snd (generate_report w include_dev include_optional true
               exclude_patterns))
     = option_map summary
         (snd (generate_report w false false true exclude_patterns)).
Proof.
  split; [intros D; apply filter_runtime_only_flags|].
  unfold generate_report.
  destruct (get_all_dependencies w) as [all_deps printed]. cbn [snd].
  rewrite filter_runtime_only_flags.
  destruct (filter_dependencies w all_deps false false true exclude_patterns)
    as [filtered|]; [|split; reflexivity].
  cbn. destruct (fold_left _ _ _). split; reflexivity.
Qed.

Lemma passes_rules_monotone (dev dev' opt opt' runtime_only : bool)
    (dep : DependencyInfo) :
  (dev = true -> dev' = true) -> (opt = true -> opt' = true) ->
  passes_rules dev opt runtime_only dep = true ->
  passes_rules dev' opt' runtime_only dep = true.
Proof.
  intros Hdev Hopt.
  assert (Hd : dev = false \/ dev' = true) by (destruct dev; auto).
  assert (Ho : opt = false \/ opt' = true) by (destruct opt; auto).
  clear Hdev Hopt. unfold passes_rules.
  destruct Hd as [-> | ->], Ho as [-> | ->];
    destruct (String.eqb (dep_type dep) "runtime"),
             (String.eqb (dep_type dep) "dev"),
             (String.eqb (dep_type dep) "optional");
    repeat match goal with b : bool |- _ => destruct b end;
    cbn; intros H; solve [discriminate H | exact H | reflexivity].
Qed.

(** X4.  Switching an include flag on never removes an entry: when the
    filter returns under some flags it returns under flags that include
    more, and the first result is a subsequence of the second. *)
Theorem filter_dependencies_monotone (w : World) (D : list DependencyInfo)
    (dev dev' opt opt' runtime_only : bool) (exclude_patterns : list string)
    (filtered : list DependencyInfo) :
  (dev = true -> dev' = true) -> (opt = true -> opt' = true) ->
  filter_dependencies w D dev opt runtime_only exclude_patterns
    = Some filtered ->
  exists more,
    filter_dependencies w D dev' opt' runtime_only exclude_patterns
      = Some more
    /\ sublist filtered more.
Proof.
  intros Hdev Hopt. revert filtered.
  induction D as [|d D IH]; cbn [filter_dependencies]; intros filtered H.
  - injection H as <-. exists []. split; [reflexivity | constructor].
  - destruct (matches_any w (name d) exclude_patterns) as [excluded|];
      [|discriminate].
    destruct (filter_dependencies w D dev opt runtime_only exclude_patterns)
      as [rest|]; [|discriminate].
    destruct (IH rest eq_refl) as (more & -> & Hsub).
    cbn in H |- *. injection H as <-.
    destruct excluded; [exists more; split; [reflexivity | exact Hsub]|].
    destruct (passes_rules dev opt runtime_only d) eqn:Hpass.
    + rewrite (passes_rules_monotone _ _ _ _ _ _ Hdev Hopt Hpass).
      eexists. split; [reflexivity|]. apply sublist_skip, Hsub.
    + destruct (passes_rules dev' opt' runtime_only d);
        (eexists; split; [reflexivity|]);
        [apply sublist_cons, Hsub | exact Hsub].
Qed.

Lemma filter_dependencies_monotone_witness :
  filter_dependencies demo_world
    [mkDep "requests" "" "runtime"; mkDep "pytest" "" "dev"]
    false false false [] = Some [mkDep "requests" "" "runtime"]
  /\ exists more,
       filter_dependencies demo_world
         [mkDep "requests" "" "runtime"; mkDep "pytest" "" "dev"]
         true false false [] = Some more
       /\ sublist [mkDep "requests" "" "runtime"] more.
Proof.
  split; [vm_compute; reflexivity|].
  apply (filter_dependencies_monotone demo_world
           [mkDep "requests" "" "runtime"; mkDep "pytest" "" "dev"]
           false true false false false []).
  - discriminate.
  - discriminate.
  - vm_compute. reflexivity.
Defined.

(** ** Exclude patterns without wildcards, and letter case *)

Lemma lower_char_facts (c : ascii) :
  PyStr.lower_char (PyStr.lower_char c) = PyStr.lower_char c
  /\ Ascii.eqb (PyStr.lower_char c) "*" = Ascii.eqb c "*"
  /\ Ascii.eqb (PyStr.lower_char c) "?" = Ascii.eqb c "?"
  /\ Ascii.eqb (PyStr.lower_char c) Re.newline = Ascii.eqb c Re.newline
  /\ Re.special (PyStr.lower_char c) = Re.special c.
Proof.
  destruct c as [b0 b1 b2 b3 b4 b5 b6 b7].
  destruct b0, b1, b2, b3, b4, b5, b6, b7; vm_compute; repeat split.
Qed.

Lemma literal_not_wildcard (c : ascii) :
  Re.special c = false -> Ascii.eqb c "*" = false /\ Ascii.eqb c "?" = false.
Proof.
  intros H. split.
  - destruct (Ascii.eqb_spec c "*") as [->|]; [discriminate H | reflexivity].
  - destruct (Ascii.eqb_spec c "?") as [->|]; [discriminate H | reflexivity].
Qed.

Lemma literal_pattern_plain (pattern : string) :
  literal_pattern pattern = true -> glob_plain pattern = true.
Proof.
  unfold literal_pattern, all_chars, glob_plain.
  induction (list_ascii_of_string pattern) as [|c l IH]; cbn; [reflexivity|].
  intros H. apply andb_true_iff in H as [Hc Hl].
  rewrite Hc. cbn. apply IH, Hl.
Qed.

Lemma glob_match_literal (pattern nm : string) :
  literal_pattern pattern = true ->
  glob_match pattern nm = String.eqb (PyStr.lower nm) (PyStr.lower pattern).
Proof.
  unfold literal_pattern, all_chars. revert nm.
  induction pattern as [|c pattern IH]; intros nm H.
  - destruct nm; reflexivity.
  - cbn in H. apply andb_true_iff in H as [Hc Hp].
    apply negb_true_iff in Hc.
    destruct (literal_not_wildcard c Hc) as [Hs Hq].
    cbn [glob_match]. rewrite Hs, Hq.
    destruct nm as [|d nm]; [reflexivity|].
    cbn [PyStr.lower String.eqb]. rewrite (IH nm Hp).
    rewrite (Ascii.eqb_sym (PyStr.lower_char c)). reflexivity.
Qed.

(** X5.  On text whose code points are below 256: an exclude pattern
    without any character that [re] reads specially excludes exactly the
    names equal to it up to letter case (names without a newline). *)
Theorem literal_pattern_matches_equal_names (w : World) (nm pattern : string) :
  literal_pattern pattern = true ->
  no_newline nm = true ->
  _matches_pattern w nm pattern
  = Some (String.eqb (PyStr.lower nm) (PyStr.lower pattern)).
Proof.
  intros Hlit Hnm.
  rewrite matches_pattern_glob by (auto using literal_pattern_plain).
  rewrite glob_match_literal by exact Hlit. reflexivity.
Qed.

Lemma literal_pattern_matches_equal_names_witness :
  _matches_pattern demo_world "PyYAML" "pyyaml" = Some true
  /\ _matches_pattern demo_world "PyYAML-extra" "pyyaml" = Some false.
Proof.
  split.
  - apply (literal_pattern_matches_equal_names demo_world "PyYAML" "pyyaml");
      reflexivity.
  - apply (literal_pattern_matches_equal_names demo_world "PyYAML-extra"
             "pyyaml"); reflexivity.
Defined.

Lemma glob_plain_lower (pattern : string) :
  glob_plain (PyStr.lower pattern) = glob_plain pattern.
Proof.
  unfold glob_plain. induction pattern as [|c pattern IH]; [reflexivity|].
  cbn [PyStr.lower list_ascii_of_string forallb]. rewrite IH.
  destruct (lower_char_facts c) as (_ & -> & -> & _ & ->). reflexivity.
Qed.

Lemma no_newline_lower (nm : string) :
  no_newline (PyStr.lower nm) = no_newline nm.
Proof.
  unfold no_newline. f_equal.
  induction nm as [|c nm IH]; [reflexivity|].
  cbn [PyStr.lower PyStr.has_char]. rewrite IH.
  rewrite !(Ascii.eqb_sym Re.newline).
  destruct (lower_char_facts c) as (_ & _ & _ & -> & _). reflexivity.
Qed.

Lemma glob_match_lower (pattern nm : string) :
  glob_match (PyStr.lower pattern) nm = glob_match pattern nm
  /\ glob_match pattern (PyStr.lower nm) = glob_match pattern nm.
Proof.
  revert nm. induction pattern as [|c pattern IH]; intros nm.
  - destruct nm; split; reflexivity.
  - cbn [PyStr.lower glob_match].
    destruct (lower_char_facts c) as (Hidem & -> & -> & _).
    destruct (Ascii.eqb c "*").
    + induction nm as [|d nm [IH1 IH2]].
      * cbn [PyStr.lower]. destruct (IH EmptyString) as [-> _]. split; reflexivity.
      * cbn [PyStr.lower]. destruct (IH (String d nm)) as [H1 H2].
        cbn [PyStr.lower] in H2. rewrite H1, H2, IH1.
        cbn [PyStr.lower] in IH2. rewrite IH2. split; reflexivity.
    + destruct (Ascii.eqb c "?").
      * destruct nm as [|d nm]; [split; reflexivity|].
        cbn [PyStr.lower]. destruct (IH nm) as [-> ->]. split; reflexivity.
      * destruct nm as [|d nm]; [split; reflexivity|].
        cbn [PyStr.lower]. destruct (IH nm) as [-> ->]. rewrite Hidem.
        destruct (lower_char_facts d) as (-> & _). split; reflexivity.
Qed.

(** X6.  On text whose code points are below 256: exclusion does not look
    at letter case, neither in the name nor in the pattern; lowercasing
    either leaves the answer of [_matches_pattern] as it was (patterns whose
    only special characters are [*] and [?], names without a newline). *)
Theorem matches_pattern_ignores_case (w : World) (nm pattern : string) :
  glob_plain pattern = true ->
  no_newline nm = true ->
  _matches_pattern w (PyStr.lower nm) pattern = _matches_pattern w nm pattern
  /\ _matches_pattern w nm (PyStr.lower pattern) = _matches_pattern w nm pattern.
Proof.
  intros Hp Hnm.
  rewrite !matches_pattern_glob
    by (rewrite ?glob_plain_lower, ?no_newline_lower; assumption).
  destruct (glob_match_lower pattern nm) as [-> ->]. split; reflexivity.
Qed.

Lemma matches_pattern_ignores_case_witness :
  _matches_pattern demo_world (PyStr.lower "PyTest-Mock") "*MOCK*"
  = _matches_pattern demo_world "PyTest-Mock" "*MOCK*"
  /\ _matches_pattern demo_world "PyTest-Mock" (PyStr.lower "*MOCK*")
     = _matches_pattern demo_world "PyTest-Mock" "*MOCK*".
Proof.
  apply (matches_pattern_ignores_case demo_world "PyTest-Mock" "*MOCK*");
    reflexivity.
Defined.

(** ** What the parsers can produce *)

Lemma determine_dep_type_cases (filename : string) :
  _determine_dep_type_from_filename filename = "dev"
  \/ _determine_dep_type_from_filename filename = "runtime".
Proof.
  unfold _determine_dep_type_from_filename.
  destruct (PyStr.contains_any ["dev"; "development"] _); [left; reflexivity|].
  destruct (PyStr.contains_any ["test"; "testing"] _); [left; reflexivity|].
  destruct (PyStr.contains_any ["doc"; "docs"] _); [left|right]; reflexivity.
Qed.

Lemma requirement_line_built (P : DependencyInfo -> Prop) (file_name l : string)
    (dep : DependencyInfo) :
  Built P -> parse_requirement_line file_name l = Some dep -> P dep.
Proof.
  intros HP. unfold parse_requirement_line.
  destruct (PyStr.strip l); [discriminate|].
  destruct (PyStr.startswith _ "#"); [discriminate|].
  destruct (PyStr.startswith _ "-"); [discriminate|].
  destruct (match_requirement _) as [[nm vs]|]; [|discriminate].
  intros [= <-]. apply HP.
  destruct (determine_dep_type_cases file_name) as [-> | ->]; cbn; tauto.
Qed.

Lemma and_then_built (P : DependencyInfo -> Prop) (a b : block) :
  Forall P (fst a) -> Forall P (fst b) -> Forall P (fst (and_then a b)).
Proof.
  intros Ha Hb. unfold and_then. destruct (snd a); [exact Ha|].
  cbn [fst]. apply Forall_app. split; assumption.
Qed.

Lemma attempt_built {A : Type} (P : DependencyInfo -> Prop) (o : option A)
    (k : A -> block) :
  (forall a, Forall P (fst (k a))) -> Forall P (fst (attempt o k)).
Proof. intros H. destruct o; cbn; [apply H | constructor]. Qed.

Lemma when_present_built (P : DependencyInfo -> Prop) (key : string)
    (v : toml_value) (body : toml_value -> block) :
  (forall x, Forall P (fst (body x))) -> Forall P (fst (when_present key v body)).
Proof.
  intros H. unfold when_present. apply attempt_built. intros [|].
  - apply attempt_built, H.
  - constructor.
Qed.

Lemma add_specs_built (P : DependencyInfo -> Prop) (ty : string)
    (deps : list toml_value) :
  Built P -> In ty parsed_groups -> Forall P (fst (add_specs ty deps)).
Proof.
  intros HP Hty. induction deps as [|[s| | |] deps IH]; cbn [add_specs];
    try (constructor; fail).
  apply and_then_built; [|exact IH].
  cbn. constructor; [|constructor]. apply HP, Hty.
Qed.

Lemma add_groups_built (P : DependencyInfo -> Prop)
    (groups : list (string * toml_value)) :
  Built P -> Forall P (fst (add_groups groups)).
Proof.
  intros HP. induction groups as [|[g deps] groups IH]; cbn [add_groups];
    [constructor|].
  apply and_then_built; [|exact IH].
  apply attempt_built. intros l. apply add_specs_built; [exact HP|].
  destruct (PyStr.mem g _); cbn; tauto.
Qed.

Lemma poetry_entries_built (P : DependencyInfo -> Prop) (w : World)
    (skip_python : bool) (ty : string) (entries : list (string * toml_value)) :
  Built P -> In ty parsed_groups ->
  Forall P (poetry_entries w skip_python ty entries).
Proof.
  intros HP Hty. unfold poetry_entries.
  induction entries as [|[nm spec] entries IH]; cbn [omap list_omap];
    [constructor|].
  destruct (skip_python && String.eqb nm "python"); [exact IH|].
  constructor; [apply HP, Hty | exact IH].
Qed.

Lemma pyproject_dependencies_built (P : DependencyInfo -> Prop) (w : World)
    (data : list (string * toml_value)) :
  Built P -> Forall P (fst (pyproject_dependencies w data)).
Proof.
  intros HP. unfold pyproject_dependencies.
  apply and_then_built; [|apply and_then_built].
  - destruct (assoc "project" data); [|constructor].
    apply when_present_built. intros deps. apply attempt_built. intros l.
    apply add_specs_built; [exact HP | cbn; tauto].
  - destruct (assoc "project" data); [|constructor].
    apply when_present_built. intros groups. apply attempt_built. intros l.
    apply add_groups_built, HP.
  - destruct (assoc "tool" data); [|constructor].
    apply when_present_built. intros poetry. apply and_then_built.
    + apply when_present_built. intros deps. apply attempt_built. intros kv.
      cbn [fst]. apply poetry_entries_built; [exact HP | cbn; tauto].
    + apply when_present_built. intros deps. apply attempt_built. intros kv.
      cbn [fst]. apply poetry_entries_built; [exact HP | cbn; tauto].
Qed.

Lemma parse_manifest_built (P : DependencyInfo -> Prop) (w : World)
    (entry : string * Path) :
  Built P -> Forall P (fst (parse_manifest w entry)).
Proof.
  intros HP. destruct entry as [file_type file_path]. unfold parse_manifest.
  destruct (PyStr.endswith file_type ".txt").
  { unfold parse_requirements_txt. rewrite read_requirements_entries.
    cbn [fst app]. apply List.Forall_forall. intros dep Hdep.
    apply list_elem_of_In, list_elem_of_omap in Hdep as (l & _ & Hl).
    apply (requirement_line_built P _ _ _ HP Hl). }
  destruct (String.eqb file_type "setup.py").
  { unfold parse_setup_py. destruct (read _); [|constructor].
    cbn [fst]. unfold setup_py_dependencies. apply Forall_app. split.
    - destruct (search_assignment "install_requires" _ _ _); [|constructor].
      apply List.Forall_forall. intros dep Hdep.
      apply in_map_iff in Hdep as (spec & <- & _). apply HP. cbn; tauto.
    - destruct (search_assignment "extras_require" _ _ _); [|constructor].
      apply List.Forall_forall. intros dep Hdep.
      apply in_map_iff in Hdep as (spec & <- & _). apply HP. cbn; tauto. }
  destruct (String.eqb file_type "pyproject.toml"); [|constructor].
  unfold parse_pyproject_toml. destruct (toml w) as [load|]; [|constructor].
  destruct (read _) as [text|]; [|constructor].
  destruct (load text) as [[| | |data]|]; try constructor.
  pose proof (pyproject_dependencies_built P w data HP) as H.
  destruct (pyproject_dependencies w data) as [deps raised]. exact H.
Qed.

Lemma get_all_dependencies_built (P : DependencyInfo -> Prop) (w : World) :
  Built P -> Forall P (fst (get_all_dependencies w)).
Proof.
  intros HP. rewrite get_all_dependencies_gather. cbn [gather fst].
  induction candidates as [|n ns IH]; cbn [map concat]; [constructor|].
  apply Forall_app. split; [|exact IH].
  unfold contribution. destruct (fs w n); [|constructor].
  apply parse_manifest_built, HP.
Qed.

(** X7.  Every dependency that [get_all_dependencies] returns has a name and
    a version spec without white space at either end. *)
Theorem all_dependencies_trimmed (w : World) :
  Forall Trimmed (fst (get_all_dependencies w)).
Proof.
  apply get_all_dependencies_built. intros nm vs ty _.
  split; cbn [new_DependencyInfo name version_spec]; apply strip_idem.
Qed.

(** X8.  Every dependency that [get_all_dependencies] returns is of group
    runtime, dev or optional; no parser gives the group build, or any
    other. *)
Theorem all_dependencies_grouped (w : World) :
  Forall (fun dep => In (dep_type dep) ["runtime"; "dev"; "optional"])
         (fst (get_all_dependencies w)).
Proof.
  apply get_all_dependencies_built. intros nm vs ty Hty. exact Hty.
Qed.

(** ** Summary and order of a report *)

Lemma count_where_none {A : Type} (f : A -> bool) (l : list A) :
  (forall x, In x l -> f x = false) -> count_where f l = 0.
Proof.
  induction l as [|x l IH]; intros H; [reflexivity|].
  rewrite count_where_cons, (H x (or_introl eq_refl)).
  apply IH. intros y Hy. apply H. right. exact Hy.
Qed.

Lemma count_groups (w : World) (l : list DependencyInfo) :
  Forall (fun dep => In (dep_type dep) parsed_groups) l ->
  count_where (has_type "runtime") (map (merged_package w) l)
  + count_where (has_type "dev") (map (merged_package w) l)
  + count_where (has_type "optional") (map (merged_package w) l)
  = length l.
Proof.
  induction 1 as [|dep l Hdep _ IH]; [reflexivity|].
  cbn [map length]. rewrite !count_where_cons.
  unfold has_type at 1 3 5. cbn [merged_package dependency_type].
  cbn in Hdep. decompose [or] Hdep; try contradiction;
    match goal with E : _ = dep_type dep |- _ => rewrite <- E end;
    cbn; lia.
Qed.

Lemma report_from_all_dependencies (w : World)
    (include_dev include_optional runtime_only : bool)
    (exclude_patterns : list string) (rep : Report) :
  snd (generate_report w include_dev include_optional runtime_only
         exclude_patterns) = Some rep ->
  exists deps,
    packages rep = map (merged_package w) deps
    /\ Summary.total_packages (summary rep) = length deps
    /\ (forall dep, In dep deps ->
          In dep (fst (get_all_dependencies w))
          /\ passes_rules include_dev include_optional runtime_only dep = true).
Proof.
  intros H.
  destruct (generate_report_shape _ _ _ _ _ _ H)
    as (filtered & counts & Hf & _ & Hpk & Hsum & _).
  exists (sorted_by_name filtered). split; [exact Hpk|]. split.
  - rewrite Hsum. cbn. symmetry.
    apply Permutation_length, sorted_by_name_perm.
  - intros dep Hdep.
    apply (Permutation_in _ (sorted_by_name_perm filtered)) in Hdep.
    destruct (filter_dependencies_kept _ _ _ _ _ _ _ Hf dep Hdep)
      as (H1 & _ & H3).
    split; assumption.
Qed.

Lemma report_group_counts (w : World)
    (include_dev include_optional runtime_only : bool)
    (exclude_patterns : list string) (rep : Report) :
  snd (generate_report w include_dev include_optional runtime_only
         exclude_patterns) = Some rep ->
  Summary.runtime_packages (summary rep)
    = count_where (has_type "runtime") (packages rep)
  /\ Summary.dev_packages (summary rep)
     = count_where (has_type "dev") (packages rep)
  /\ Summary.optional_packages (summary rep)
     = count_where (has_type "optional") (packages rep).
Proof.
  intros H.
  destruct (generate_report_shape _ _ _ _ _ _ H)
    as (filtered & counts & _ & Hcounts & Hpk & Hsum & _).
  pose proof (counts_fold w (sorted_by_name filtered) Summary.zero) as Hc.
  cbv zeta in Hc. rewrite <- Hcounts, <- Hpk in Hc.
  destruct Hc as (_ & H1 & H2 & H3 & _).
  rewrite Hsum. cbn. rewrite H1, H2, H3. cbn. repeat split; reflexivity.
Qed.

(** X9.  In every report the total is the sum of the runtime, dev and
    optional counts: no package falls outside the three groups. *)
Theorem summary_total_is_sum (w : World)
    (include_dev include_optional runtime_only : bool)
    (exclude_patterns : list string) (rep : Report) :
  snd (generate_report w include_dev include_optional runtime_only
         exclude_patterns) = Some rep ->
  Summary.total_packages (summary rep)
  = Summary.runtime_packages (summary rep)
    + Summary.dev_packages (summary rep)
    + Summary.optional_packages (summary rep).
Proof.
  intros H.
  destruct (report_from_all_dependencies _ _ _ _ _ _ H)
    as (deps & Hpk & Htotal & Hdeps).
  destruct (report_group_counts _ _ _ _ _ _ H) as (-> & -> & ->).
  rewrite Htotal, Hpk. symmetry. apply count_groups.
  apply List.Forall_forall. intros dep Hdep.
  destruct (Hdeps dep Hdep) as [Hall _].
  pose proof (get_all_dependencies_built
                (fun dep => In (dep_type dep) parsed_groups) w
                (fun _ _ ty Hty => Hty)) as Hgroups.
  rewrite List.Forall_forall in Hgroups. apply Hgroups, Hall.
Qed.

Lemma summary_total_is_sum_witness :
  snd (generate_report demo_world true false false []) = Some demo_report
  /\ Summary.total_packages (summary demo_report)
     = Summary.runtime_packages (summary demo_report)
       + Summary.dev_packages (summary demo_report)
       + Summary.optional_packages (summary demo_report).
Proof.
  split; [vm_compute; reflexivity|].
  apply (summary_total_is_sum demo_world true false false [] demo_report).
  vm_compute. reflexivity.
Defined.

Lemma passes_rules_type (include_dev include_optional runtime_only : bool)
    (dep : DependencyInfo) :
  passes_rules include_dev include_optional runtime_only dep = true ->
  (include_dev = false -> String.eqb (dep_type dep) "dev" = false)
  /\ (include_optional = false -> String.eqb (dep_type dep) "optional" = false)
  /\ (runtime_only = true -> dep_type dep = "runtime").
Proof.
  unfold passes_rules. intros H. split; [|split].
  - intros ->. destruct (String.eqb (dep_type dep) "dev"); [|reflexivity].
    destruct (runtime_only && _); discriminate.
  - intros ->. destruct (String.eqb (dep_type dep) "optional"); [|reflexivity].
    destruct (runtime_only && _); [discriminate|].
    destruct (negb include_dev && _); discriminate.
  - intros ->. cbn [andb] in H.
    destruct (String.eqb_spec (dep_type dep) "runtime"); [assumption|discriminate].
Qed.

(** X10.  A group that the flags leave out is absent from the report: the
    dev count is zero without include-dev, the optional count is zero
    without include-optional, and under runtime-only the runtime count is
    the total. *)
Theorem excluded_groups_count_zero (w : World)
    (include_dev include_optional runtime_only : bool)
    (exclude_patterns : list string) (rep : Report) :
  snd (generate_report w include_dev include_optional runtime_only
         exclude_patterns) = Some rep ->
  (include_dev = false -> Summary.dev_packages (summary rep) = 0)
  /\ (include_optional = false -> Summary.optional_packages (summary rep) = 0)
  /\ (runtime_only = true ->
      Summary.runtime_packages (summary rep)
      = Summary.total_packages (summary rep)).
Proof.
  intros H.
  destruct (report_from_all_dependencies _ _ _ _ _ _ H)
    as (deps & Hpk & Htotal & Hdeps).
  destruct (report_group_counts _ _ _ _ _ _ H) as (Hr & Hd & Ho).
  split; [|split].
  - intros Hflag. rewrite Hd, Hpk. apply count_where_none.
    intros p Hp. apply in_map_iff in Hp as (dep & <- & Hdep).
    destruct (Hdeps dep Hdep) as [_ Hpass].
    apply passes_rules_type in Hpass as (Hdev & _). exact (Hdev Hflag).
  - intros Hflag. rewrite Ho, Hpk. apply count_where_none.
    intros p Hp. apply in_map_iff in Hp as (dep & <- & Hdep).
    destruct (Hdeps dep Hdep) as [_ Hpass].
    apply passes_rules_type in Hpass as (_ & Hopt & _). exact (Hopt Hflag).
  - intros Hflag. rewrite Hr, Htotal, Hpk. clear Hpk Htotal Hr Hd Ho H.
    induction deps as [|dep deps IH]; [reflexivity|].
    cbn [map length]. rewrite count_where_cons.
    rewrite IH by (intros d Hd; apply Hdeps; right; exact Hd).
    destruct (Hdeps dep (or_introl eq_refl)) as [_ Hpass].
    apply passes_rules_type in Hpass as (_ & _ & Hrt).
    unfold has_type. cbn [merged_package dependency_type].
    rewrite (Hrt Hflag). reflexivity.
Qed.

Lemma excluded_groups_count_zero_witness :
  snd (generate_report demo_world false false false [])
  = Some demo_report_default
  /\ Summary.dev_packages (summary demo_report_default) = 0
  /\ snd (generate_report demo_world true false false []) = Some demo_report
  /\ Summary.optional_packages (summary demo_report) = 0.
Proof.
  split; [vm_compute; reflexivity|]. split.
  - apply (excluded_groups_count_zero demo_world false false false []
             demo_report_default); [vm_compute|]; reflexivity.
  - split; [vm_compute; reflexivity|].
    apply (excluded_groups_count_zero demo_world true false false []
             demo_report); [vm_compute|]; reflexivity.
Defined.

Lemma ltb_irrefl_key (a b : string) :
  String.ltb a b = true -> String.eqb a b = false.
Proof.
  unfold String.ltb. intros H. apply String.eqb_neq. intros ->.
  pose proof (String.compare_antisym b b) as E.
  destruct (String.compare b b); discriminate.
Qed.

Lemma filter_insert_by_key (k : string) (dep : DependencyInfo)
    (l : list DependencyInfo) :
  List.filter (fun d => String.eqb (sort_key d) k) (insert_by_key dep l)
  = List.filter (fun d => String.eqb (sort_key d) k) (dep :: l).
Proof.
  induction l as [|x l IH]; cbn [insert_by_key]; [reflexivity|].
  destruct (String.ltb (sort_key x) (sort_key dep)) eqn:E; [|reflexivity].
  cbn [List.filter] in *. rewrite IH.
  destruct (String.eqb_spec (sort_key dep) k) as [Hk|]; [|reflexivity].
  apply ltb_irrefl_key in E. rewrite Hk in E. rewrite E. reflexivity.
Qed.

(** X11.  The sort is stable: dependencies with the same lowercased name
    stand in the sorted list in the order they had before. *)
Theorem sorted_by_name_stable (deps : list DependencyInfo) (key : string) :
  List.filter (fun d => String.eqb (PyStr.lower (name d)) key)
              (sorted_by_name deps)
  = List.filter (fun d => String.eqb (PyStr.lower (name d)) key) deps.
Proof.
  change (fun d => String.eqb (PyStr.lower (name d)) key)
    with (fun d => String.eqb (sort_key d) key).
  induction deps as [|dep deps IH]; [reflexivity|].
  change (sorted_by_name (dep :: deps))
    with (insert_by_key dep (sorted_by_name deps)).
  rewrite filter_insert_by_key. cbn [List.filter]. rewrite IH. reflexivity.
Qed.

(** X12.  A project without any manifest gives a report and no warning: no
    dependency file, no package and a summary of zeros. *)
Theorem report_of_empty_project (w : World)
    (include_dev include_optional runtime_only : bool)
    (exclude_patterns : list string) :
  (forall file_name, In file_name candidates -> fs w file_name = None) ->
  get_all_dependencies w = ([], [])
  /\ exists rep,
       generate_report w include_dev include_optional runtime_only
         exclude_patterns = ([], Some rep)
       /\ dependency_files rep = []
       /\ packages rep = []
       /\ summary rep = Summary.zero.
Proof.
  intros Hnone.
  assert (Hdisc : discover_dependency_files w = []).
  { unfold discover_dependency_files.
    replace (List.filter _ candidates) with (@nil string); [reflexivity|].
    symmetry. induction candidates as [|n ns IH]; [reflexivity|].
    cbn [List.filter]. rewrite (Hnone n (or_introl eq_refl)).
    apply IH. intros m Hm. apply Hnone. right. exact Hm. }
  assert (Hall : get_all_dependencies w = ([], [])).
  { unfold get_all_dependencies. rewrite Hdisc. reflexivity. }
  split; [exact Hall|].
  unfold generate_report. rewrite Hall, Hdisc. cbn.
  eexists. split; [reflexivity|]. repeat split; reflexivity.
Qed.

Lemma report_of_empty_project_witness :
  get_all_dependencies
    (mkWorld (fun _ _ => None) (fun n => n) (fun _ => None) None
             (fun _ => EmptyString) (fun _ => None)) = ([], []).
Proof.
  apply (report_of_empty_project
           (mkWorld (fun _ _ => None) (fun n => n) (fun _ => None) None
                    (fun _ => EmptyString) (fun _ => None))
           false false false []).
  intros file_name _. reflexivity.
Defined.

(** ** Discovery and warnings *)

(** X13.  The discovered manifests are the candidates that exist, each once
    and in the order of the candidate list, so requirements.txt, when
    there, is read first; a report names the path of each of them, at most
    eleven. *)
Theorem discovered_in_candidate_order (w : World) :
  sublist (map fst (discover_dependency_files w)) candidates
  /\ List.NoDup (map fst (discover_dependency_files w))
  /\ (forall file_name,
        In file_name (map fst (discover_dependency_files w))
        <-> In file_name candidates /\ fs w file_name <> None)
  /\ map (fun e => path_str (snd e)) (discover_dependency_files w)
     = map (path_text w) (map fst (discover_dependency_files w))
  /\ length (discover_dependency_files w) <= 11.
Proof.
  unfold discover_dependency_files. rewrite !map_map. cbn [fst snd].
  rewrite map_id.
  assert (Hsub : sublist
            (List.filter
               (fun n => match fs w n with Some _ => true | None => false end)
               candidates) candidates).
  { induction candidates as [|n ns IH]; cbn [List.filter]; [constructor|].
    destruct (fs w n); [apply sublist_skip | apply sublist_cons]; exact IH. }
  split; [exact Hsub|]. split; [|split; [|split]].
  - apply List.NoDup_filter. unfold candidates.
    repeat (constructor; [cbn; intuition discriminate|]). constructor.
  - intros n. rewrite filter_In. split; intros [Hin H]; (split; [exact Hin|]).
    + destruct (fs w n); [discriminate | discriminate H].
    + destruct (fs w n); [reflexivity | contradiction].
  - reflexivity.
  - rewrite length_map. apply (sublist_length _ _ Hsub).
Qed.

Lemma parse_manifest_warns_once (w : World) (entry : string * Path) :
  length (snd (parse_manifest w entry)) <= 1.
Proof.
  destruct entry as [file_type file_path]. unfold parse_manifest.
  destruct (PyStr.endswith file_type ".txt").
  { unfold parse_requirements_txt. rewrite read_requirements_entries.
    cbn [snd]. destruct (fails _); cbn; lia. }
  destruct (String.eqb file_type "setup.py").
  { unfold parse_setup_py. destruct (read _); cbn; lia. }
  destruct (String.eqb file_type "pyproject.toml"); [|cbn; lia].
  unfold parse_pyproject_toml. destruct (toml w) as [load|]; [|cbn; lia].
  destruct (read _) as [text|]; [|cbn; lia].
  destruct (load text) as [[| | |data]|]; try (cbn; lia).
  destruct (pyproject_dependencies w data) as [deps []]; cbn; lia.
Qed.

(** X14.  Each manifest prints at most one warning, so a run prints at most
    as many warnings as it discovered manifests; a requirements file prints
    one exactly when reading it fails. *)
Theorem warnings_bounded (w : World) :
  (forall entry, length (snd (parse_manifest w entry)) <= 1)
  /\ length (snd (get_all_dependencies w))
     <= length (discover_dependency_files w)
  /\ (forall file_path,
        snd (parse_requirements_txt w file_path)
        = if fails (open_file w file_path)
          then [ParseWarning (path_str file_path)] else []).
Proof.
  split; [apply parse_manifest_warns_once|]. split.
  - rewrite get_all_dependencies_gather. unfold discover_dependency_files.
    rewrite length_map. cbn [gather snd].
    induction candidates as [|n ns IH]; [reflexivity|].
    cbn [map concat List.filter]. rewrite length_app.
    unfold contribution at 1. destruct (fs w n).
    + pose proof (parse_manifest_warns_once w (n, project_file w n)).
      cbn [length]. lia.
    + cbn [snd length]. lia.
  - intros file_path. unfold parse_requirements_txt.
    rewrite read_requirements_entries. reflexivity.
Qed.

(** ** Package metadata *)

Lemma after_colon_trimmed (l : string) :
  PyStr.strip (after_colon l) = after_colon l.
Proof. unfold after_colon. apply strip_idem. Qed.

Lemma read_metadata_line_fields (info : PackageInfo) (l : string) :
  version (read_metadata_line info l) = version info
  /\ dependency_type (read_metadata_line info l) = dependency_type info
  /\ pkg_version_spec (read_metadata_line info l) = pkg_version_spec info
  /\ (PyStr.strip (license info) = license info ->
      PyStr.strip (license (read_metadata_line info l))
      = license (read_metadata_line info l))
  /\ (PyStr.strip (author info) = author info ->
      PyStr.strip (author (read_metadata_line info l))
      = author (read_metadata_line info l))
  /\ (PyStr.strip (homepage info) = homepage info ->
      PyStr.strip (homepage (read_metadata_line info l))
      = homepage (read_metadata_line info l)).
Proof.
  unfold read_metadata_line.
  destruct (PyStr.startswith l "License:");
    [|destruct (PyStr.startswith l "Author:");
      [|destruct (PyStr.startswith l "Home-page:")]];
    cbn [version license author homepage dependency_type pkg_version_spec];
    repeat split; auto using after_colon_trimmed.
Qed.

Lemma read_metadata_fields (metadata_lines : list string) (info : PackageInfo) :
  let info' := fold_left read_metadata_line metadata_lines info in
  version info' = version info
  /\ dependency_type info' = dependency_type info
  /\ pkg_version_spec info' = pkg_version_spec info
  /\ (PyStr.strip (license info) = license info ->
      PyStr.strip (license info') = license info')
  /\ (PyStr.strip (author info) = author info ->
      PyStr.strip (author info') = author info')
  /\ (PyStr.strip (homepage info) = homepage info ->
      PyStr.strip (homepage info') = homepage info').
Proof.
  revert info. induction metadata_lines as [|l ls IH]; intros info;
    cbn [fold_left]; [tauto|].
  specialize (IH (read_metadata_line info l)). cbv zeta in IH |- *.
  destruct IH as (H1 & H2 & H3 & H4 & H5 & H6).
  destruct (read_metadata_line_fields info l) as (G1 & G2 & G3 & G4 & G5 & G6).
  rewrite H1, H2, H3. repeat split; auto.
Qed.

(** X15.  Whatever METADATA holds, the info of a package keeps the name it
    was asked for and takes its version from the distribution alone; a
    package that is not installed gets "unknown" in every field and
    attribution required; license, author and homepage never carry white
    space at either end. *)
Theorem package_info_fields (w : World) (package_name : string) :
  pkg_name (get_package_info w package_name) = package_name
  /\ version (get_package_info w package_name)
     = match get_distribution w package_name with
       | Some dist => dist_version dist
       | None => "unknown"
       end
  /\ match get_distribution w package_name with
     | Some _ => True
     | None =>
         get_package_info w package_name
         = mkPackage package_name "unknown" "unknown" "unknown" "unknown"
                     true None None
     end
  /\ PyStr.strip (license (get_package_info w package_name))
     = license (get_package_info w package_name)
  /\ PyStr.strip (author (get_package_info w package_name))
     = author (get_package_info w package_name)
  /\ PyStr.strip (homepage (get_package_info w package_name))
     = homepage (get_package_info w package_name).
Proof.
  split; [apply get_package_info_name|].
  unfold get_package_info. cbn [version license author homepage].
  destruct (get_distribution w package_name) as [dist|];
    [|repeat split; reflexivity].
  destruct (dist_metadata dist) as [metadata|]; [|repeat split; reflexivity].
  match goal with
  | |- context [fold_left read_metadata_line ?ls ?i] =>
      pose proof (read_metadata_fields ls i) as H
  end.
  cbv zeta in H. destruct H as (H1 & _ & _ & H4 & H5 & H6).
  rewrite H1. cbn [version]. repeat split; auto.
Qed.

(** ** Legacy entry points *)

Lemma filter_without_patterns (w : World) (D : list DependencyInfo)
    (include_dev include_optional runtime_only : bool) :
  filter_dependencies w D include_dev include_optional runtime_only []
  = Some (List.filter (passes_rules include_dev include_optional runtime_only) D).
Proof.
  induction D as [|d D IH]; cbn [filter_dependencies List.filter];
    [reflexivity|].
  rewrite IH. cbn.
  destruct (passes_rules include_dev include_optional runtime_only d);
    reflexivity.
Qed.

(** X16.  What [get_runtime_dependencies] returns names, each once, exactly
    the packages of the runtime-only report made without exclude patterns,
    and none of its names is, in lower case, a build tool or a test tool. *)
Theorem runtime_dependencies_are_report_names (w : World) (names : list string) :
  get_runtime_dependencies w = Some names ->
  List.NoDup names
  /\ (forall include_dev include_optional rep,
        snd (generate_report w include_dev include_optional true [])
          = Some rep ->
        forall x, In x names <-> In x (map pkg_name (packages rep)))
  /\ (forall x, In x names ->
        ~ In (PyStr.lower x) build_time_packages
        /\ ~ In (PyStr.lower x) test_packages).
Proof.
  unfold get_runtime_dependencies.
  rewrite filter_without_patterns. cbn [mbind option_bind].
  set (kept := List.filter (passes_rules false false true)
                 (fst (get_all_dependencies w))).
  intros [= <-]. split; [apply List.NoDup_nodup|]. split.
  - intros include_dev include_optional rep H x. rewrite nodup_In.
    destruct (generate_report_shape _ _ _ _ _ _ H)
      as (filtered & counts & Hf & _ & Hpk & _).
    rewrite filter_runtime_only_flags, filter_without_patterns in Hf.
    injection Hf as <-. fold kept. rewrite Hpk, map_map.
    rewrite (map_ext (fun d => pkg_name (merged_package w d)) name)
      by (intros d; apply get_package_info_name).
    split; intros Hx; apply in_map_iff in Hx as (d & <- & Hd);
      apply in_map; [apply (Permutation_in _ (Permutation_sym
                                (sorted_by_name_perm kept)))
                    | apply (Permutation_in _ (sorted_by_name_perm kept))];
      exact Hd.
  - intros x Hx. rewrite nodup_In in Hx.
    apply in_map_iff in Hx as (d & <- & Hd).
    apply filter_In in Hd as [_ Hpass]. unfold passes_rules in Hpass.
    cbn [andb negb] in Hpass.
    destruct (negb (String.eqb (dep_type d) "runtime")); [discriminate|].
    destruct (String.eqb (dep_type d) "dev"); [discriminate|].
    destruct (String.eqb (dep_type d) "optional"); [discriminate|].
    destruct (PyStr.mem (PyStr.lower (name d)) build_time_packages) eqn:Eb;
      [discriminate|].
    destruct (existsb _ type_stub_packages); [discriminate|].
    destruct (PyStr.mem (PyStr.lower (name d)) test_packages) eqn:Et;
      [discriminate|].
    split; intros Hin; apply mem_In in Hin; congruence.
Qed.

Lemma runtime_dependencies_are_report_names_witness :
  get_runtime_dependencies demo_world = Some ["requests"]
  /\ snd (generate_report demo_world true false true [])
     = Some demo_report_runtime_only
  /\ In "requests" (map pkg_name (packages demo_report_runtime_only)).
Proof.
  assert (Hnames : get_runtime_dependencies demo_world = Some ["requests"])
    by (vm_compute; reflexivity).
  destruct (runtime_dependencies_are_report_names demo_world ["requests"]
              Hnames) as (_ & Hrep & _).
  split; [exact Hnames|]. split; [vm_compute; reflexivity|].
  apply (Hrep true false demo_report_runtime_only);
    [vm_compute; reflexivity | left; reflexivity].
Defined.

(** ** Command line *)

Lemma split_on_concat (sep : ascii) (first : string) (others : list string) :
  Forall (fun p => PyStr.has_char sep p = false) (first :: others) ->
  split_on sep (String.concat (String sep EmptyString) (first :: others))
  = first :: others.
Proof.
  revert first. induction others as [|second others IH]; intros first H.
  - cbn [String.concat]. inversion_clear H as [|? ? Hf _].
    induction first as [|c first IHf]; [reflexivity|].
    cbn [PyStr.has_char] in Hf. apply orb_false_iff in Hf as [Hc Hf].
    cbn [split_on]. rewrite Ascii.eqb_sym, Hc, (IHf Hf). reflexivity.
  - inversion_clear H as [|? ? Hf Hrest]. specialize (IH second Hrest).
    change (String.concat (String sep EmptyString) (first :: second :: others))
      with (first ++ String sep
                       (String.concat (String sep EmptyString)
                          (second :: others)))%string.
    induction first as [|c first IHf].
    + cbn [append split_on]. rewrite Ascii.eqb_refl, IH. reflexivity.
    + cbn [PyStr.has_char] in Hf. apply orb_false_iff in Hf as [Hc Hf].
      cbn [append split_on]. rewrite Ascii.eqb_sym, Hc, (IHf Hf). reflexivity.
Qed.

(** X17.  Every exclude pattern read from the command line is trimmed, and
    the option is read back as written: patterns that are trimmed and hold
    no comma, joined by commas into a non-empty text, come out as they went
    in. *)
Theorem parse_exclude_round_trip (exclude : option string)
    (first : string) (others : list string) :
  Forall (fun p => PyStr.strip p = p) (parse_exclude exclude)
  /\ (Forall (fun p => PyStr.has_char "," p = false /\ PyStr.strip p = p)
             (first :: others) ->
      String.concat "," (first :: others) <> EmptyString ->
      parse_exclude (Some (String.concat "," (first :: others)))
      = first :: others).
Proof.
  split.
  - unfold parse_exclude. destruct exclude as [[|c s]|]; try constructor.
    apply List.Forall_forall. intros p Hp.
    apply in_map_iff in Hp as (x & <- & _). apply strip_idem.
  - intros Hall Hne. unfold parse_exclude.
    destruct (String.concat "," (first :: others)) as [|c s] eqn:E;
      [contradiction|].
    rewrite <- E, split_on_concat.
    + rewrite <- (map_id (first :: others)) at 2. apply map_ext_in.
      intros p Hp. rewrite List.Forall_forall in Hall.
      apply (Hall p Hp).
    + eapply Forall_impl; [exact Hall|]. intros p [Hp _]. exact Hp.
Qed.

Lemma parse_exclude_round_trip_witness :
  parse_exclude (Some "test*,dev*") = ["test*"; "dev*"].
Proof.
  apply (proj2 (parse_exclude_round_trip None "test*" ["dev*"])).
  - repeat constructor.
  - discriminate.
Defined.

(** ** The textual scans *)

Lemma all_chars_of_list (p : ascii -> bool) (l : list ascii) :
  all_chars p (string_of_list_ascii l) = forallb p l.
Proof.
  unfold all_chars. rewrite list_ascii_of_string_of_list_ascii. reflexivity.
Qed.

Lemma findall_quoted_from_groups (inside : option (list ascii)) (s : string) :
  match inside with
  | Some acc => forallb (fun c => negb (is_quote c)) acc = true
  | None => True
  end ->
  Forall (fun g => g <> EmptyString
                   /\ all_chars (fun c => negb (is_quote c)) g = true)
         (findall_quoted_from inside s).
Proof.
  revert inside. induction s as [|c s IH]; intros inside Hacc;
    cbn [findall_quoted_from]; [constructor|].
  destruct inside as [acc|].
  - destruct (is_quote c) eqn:Eq.
    + destruct acc as [|a acc]; [apply IH; reflexivity|].
      constructor; [|apply IH; exact I]. split.
      * intros E. apply (f_equal list_ascii_of_string) in E.
        rewrite list_ascii_of_string_of_list_ascii in E. cbn in E.
        destruct (rev acc); discriminate E.
      * rewrite all_chars_of_list. apply forallb_forall. intros x Hx.
        apply List.in_rev in Hx. rewrite forallb_forall in Hacc.
        apply Hacc, Hx.
    + apply IH. cbn [forallb]. rewrite Eq, Hacc. reflexivity.
  - apply IH. destruct (is_quote c); [reflexivity | exact I].
Qed.

(** X18.  Every string the quoted-string scan of setup.py extracts is
    non-empty and holds no quote character. *)
Theorem findall_quoted_groups (s : string) :
  Forall (fun g => g <> EmptyString
                   /\ all_chars (fun c => negb (is_quote c)) g = true)
         (findall_quoted s).
Proof. apply findall_quoted_from_groups. exact I. Qed.

Lemma all_chars_lstrip (p : ascii -> bool) (s : string) :
  all_chars p s = true -> all_chars p (PyStr.lstrip s) = true.
Proof.
  unfold all_chars. induction s as [|c s IH]; [reflexivity|].
  cbn [PyStr.lstrip]. destruct (PyStr.isspace c); [|auto].
  cbn. intros H. apply andb_true_iff in H as [_ H]. apply IH, H.
Qed.

Lemma all_chars_rstrip (p : ascii -> bool) (s : string) :
  all_chars p s = true -> all_chars p (PyStr.rstrip s) = true.
Proof.
  unfold all_chars. induction s as [|c s IH]; [reflexivity|].
  cbn [PyStr.rstrip list_ascii_of_string forallb]. intros H.
  apply andb_true_iff in H as [Hc Hs]. specialize (IH Hs).
  destruct (PyStr.rstrip s).
  - destruct (PyStr.isspace c); cbn; [reflexivity | rewrite Hc; reflexivity].
  - cbn [list_ascii_of_string forallb] in *. rewrite Hc, IH. reflexivity.
Qed.

Lemma all_chars_strip (p : ascii -> bool) (s : string) :
  all_chars p s = true -> all_chars p (PyStr.strip s) = true.
Proof. intros H. apply all_chars_rstrip, all_chars_lstrip, H. Qed.

Lemma add_specs_each (P : DependencyInfo -> Prop) (ty : string)
    (deps : list toml_value) :
  (forall spec, P (split_spec spec ty)) -> Forall P (fst (add_specs ty deps)).
Proof.
  intros HP. induction deps as [|[s| | |] deps IH]; cbn [add_specs];
    try (constructor; fail).
  apply and_then_built; [|exact IH].
  cbn. constructor; [apply HP | constructor].
Qed.

Lemma add_groups_each (P : DependencyInfo -> Prop)
    (groups : list (string * toml_value)) :
  (forall spec ty, P (split_spec spec ty)) -> Forall P (fst (add_groups groups)).
Proof.
  intros HP. induction groups as [|[g deps] groups IH]; cbn [add_groups];
    [constructor|].
  apply and_then_built; [|exact IH].
  apply attempt_built. intros l. apply add_specs_each. intros spec. apply HP.
Qed.

Lemma split_spec_clean (spec dep_type : string) :
  clean_name (split_spec spec dep_type).
Proof.
  unfold clean_name, split_spec, new_DependencyInfo. cbn [name].
  split; [apply strip_idem|].
  do 2 apply all_chars_strip. apply span_all.
Qed.

(** X19.  Every name that comes out of the spec split is trimmed and holds
    none of the characters [<], [>], [=], [!]: that is every entry of
    setup.py, and in pyproject.toml every entry of the list
    [project.dependencies] and of the groups of
    [project.optional-dependencies].  The Poetry tables are not concerned:
    there the key of the table is the name. *)
Theorem split_spec_name_clean (content : string) (dep_type : string)
    (deps : list toml_value) (groups : list (string * toml_value)) :
  Forall clean_name (setup_py_dependencies content)
  /\ Forall clean_name (fst (add_specs dep_type deps))
  /\ Forall clean_name (fst (add_groups groups)).
Proof.
  split; [|split].
  - unfold setup_py_dependencies. apply Forall_app. split.
    + destruct (search_assignment "install_requires" _ _ _); [|constructor].
      apply List.Forall_forall. intros dep Hdep.
      apply in_map_iff in Hdep as (spec & <- & _). apply split_spec_clean.
    + destruct (search_assignment "extras_require" _ _ _); [|constructor].
      apply List.Forall_forall. intros dep Hdep.
      apply in_map_iff in Hdep as (spec & <- & _). apply split_spec_clean.
  - apply add_specs_each. intros spec. apply split_spec_clean.
  - apply add_groups_each. intros spec ty. apply split_spec_clean.
Qed.

Lemma has_char_all_chars (c : ascii) (p : ascii -> bool) (s : string) :
  PyStr.has_char c s = true -> all_chars p s = true -> p c = true.
Proof.
  unfold all_chars. induction s as [|d s IH]; [discriminate|].
  cbn. intros H Hall. apply andb_true_iff in Hall as [Hd Hs].
  apply orb_true_iff in H as [H|H]; [|exact (IH H Hs)].
  apply Ascii.eqb_eq in H. subst. exact Hd.
Qed.

Lemma strip_not_empty (t : string) (c : ascii) (s : string) :
  PyStr.isspace c = false ->
  PyStr.strip (t ++ String c s) <> EmptyString.
Proof.
  intros Hc. unfold PyStr.strip.
  assert (H : exists u, PyStr.lstrip (t ++ String c s) = String u
                        (match PyStr.lstrip (t ++ String c s) with
                         | String _ r => r | EmptyString => EmptyString end)
                        /\ PyStr.isspace u = false).
  { induction t as [|d t IH]; cbn [append PyStr.lstrip].
    - rewrite Hc. exists c. split; [reflexivity | exact Hc].
    - destruct (PyStr.isspace d) eqn:Ed; [exact IH|].
      exists d. split; [reflexivity | exact Ed]. }
  destruct H as (u & -> & Hu). cbn [PyStr.rstrip].
  destruct (PyStr.rstrip _); [rewrite Hu|]; discriminate.
Qed.

Lemma length_rstrip (s : string) :
  String.length (PyStr.rstrip s) <= String.length s.
Proof.
  induction s as [|c s IH]; [reflexivity|]. cbn [PyStr.rstrip].
  destruct (PyStr.rstrip s); [destruct (PyStr.isspace c)|]; cbn in *; lia.
Qed.

Lemma length_lstrip (s : string) :
  String.length (PyStr.lstrip s) <= String.length s.
Proof.
  induction s as [|c s IH]; [reflexivity|]. cbn [PyStr.lstrip].
  destruct (PyStr.isspace c); cbn in *; lia.
Qed.

Lemma drop_app_le (n : nat) (a b : string) :
  n <= String.length a ->
  PyStr.drop n (a ++ b) = (PyStr.drop n a ++ b)%string.
Proof.
  revert a. induction n as [|n IH]; intros a H; [destruct a; reflexivity|].
  destruct a as [|c a]; [cbn in H; lia|]. cbn in *. apply IH. lia.
Qed.

Lemma append_empty (s : string) : (s ++ "")%string = s.
Proof. induction s as [|c s IH]; cbn; congruence. Qed.

Lemma version_operator_kept (spec dep_type : string) :
  has_version_operator spec = true ->
  version_spec (split_spec spec dep_type) <> EmptyString.
Proof.
  intros Hop. unfold split_spec, new_DependencyInfo. cbn [version_spec].
  rewrite strip_idem.
  pose proof (span_app (fun c => negb (is_operator_char c)) spec) as Happ.
  pose proof (span_all (fun c => negb (is_operator_char c)) spec) as Hall.
  pose proof (span_rest (fun c => negb (is_operator_char c)) spec) as Hrest.
  fold (before_operator spec) in *. unfold before_operator in Hrest.
  fold (before_operator spec) (from_operator spec) in Happ, Hrest.
  destruct (from_operator spec) as [|c post] eqn:Epost.
  { exfalso. rewrite Happ in Hop.
    rewrite append_empty in Hop. unfold has_version_operator in Hop.
    assert (Hno : forall x, is_operator_char x = true ->
              PyStr.has_char x (before_operator spec) = false).
    { intros x Hx. destruct (PyStr.has_char x (before_operator spec)) eqn:Eh;
        [|reflexivity].
      pose proof (has_char_all_chars _ _ _ Eh Hall) as Hn.
      cbv beta in Hn. rewrite Hx in Hn. discriminate. }
    rewrite !Hno in Hop by reflexivity. discriminate. }
  rewrite Happ at 2.
  rewrite drop_app_le.
  - apply strip_not_empty.
    apply negb_false_iff in Hrest.
    destruct c as [b0 b1 b2 b3 b4 b5 b6 b7].
    destruct b0, b1, b2, b3, b4, b5, b6, b7; try discriminate Hrest;
      reflexivity.
  - unfold PyStr.strip.
    etransitivity; [apply length_rstrip | apply length_lstrip].
Qed.

Lemma has_char_lstrip (c : ascii) (s : string) :
  PyStr.isspace c = false ->
  PyStr.has_char c (PyStr.lstrip s) = PyStr.has_char c s.
Proof.
  intros Hc. induction s as [|d s IH]; [reflexivity|].
  cbn [PyStr.lstrip]. destruct (PyStr.isspace d) eqn:Ed; [|reflexivity].
  rewrite IH. cbn [PyStr.has_char].
  destruct (Ascii.eqb_spec c d) as [->|]; [congruence | reflexivity].
Qed.

Lemma has_char_rstrip (c : ascii) (s : string) :
  PyStr.isspace c = false ->
  PyStr.has_char c (PyStr.rstrip s) = PyStr.has_char c s.
Proof.
  intros Hc. induction s as [|d s IH]; [reflexivity|].
  cbn [PyStr.rstrip PyStr.has_char]. rewrite <- IH.
  destruct (PyStr.rstrip s) as [|e r]; [|reflexivity].
  destruct (PyStr.isspace d) eqn:Ed; cbn [PyStr.has_char];
    [|reflexivity].
  destruct (Ascii.eqb_spec c d) as [->|]; [congruence | reflexivity].
Qed.

Lemma has_char_strip (c : ascii) (s : string) :
  PyStr.isspace c = false ->
  PyStr.has_char c (PyStr.strip s) = PyStr.has_char c s.
Proof.
  intros Hc. unfold PyStr.strip.
  rewrite has_char_rstrip, has_char_lstrip by exact Hc. reflexivity.
Qed.

Lemma has_char_app (c : ascii) (a b : string) :
  PyStr.has_char c (a ++ b) = PyStr.has_char c a || PyStr.has_char c b.
Proof.
  induction a as [|d a IH]; [reflexivity|].
  cbn [append PyStr.has_char]. rewrite IH, orb_assoc. reflexivity.
Qed.

Lemma has_char_drop (c : ascii) (n : nat) (s : string) :
  PyStr.has_char c (PyStr.drop n s) = true -> PyStr.has_char c s = true.
Proof.
  revert s. induction n as [|n IH]; intros s; [destruct s; auto|].
  destruct s as [|d s]; [auto|]. cbn [PyStr.drop PyStr.has_char].
  intros H. rewrite (IH s H). apply orb_true_r.
Qed.

(** The version spec of a split entry holds an operator character that is
    not white space exactly when the spec does. *)
Lemma version_spec_has_char (c : ascii) (spec dep_type : string) :
  PyStr.isspace c = false ->
  is_operator_char c = true ->
  PyStr.has_char c (version_spec (split_spec spec dep_type))
  = PyStr.has_char c spec.
Proof.
  intros Hspace Hop. unfold split_spec, new_DependencyInfo. cbn [version_spec].
  rewrite !has_char_strip by exact Hspace.
  pose proof (span_app (fun c => negb (is_operator_char c)) spec) as Happ.
  pose proof (span_all (fun c => negb (is_operator_char c)) spec) as Hall.
  fold (before_operator spec) in Hall.
  fold (before_operator spec) (from_operator spec) in Happ.
  set (pre := before_operator spec) in *.
  set (post := from_operator spec) in *.
  clearbody pre post. subst spec.
  assert (Hpre : PyStr.has_char c pre = false).
  { destruct (PyStr.has_char c pre) eqn:E; [|reflexivity].
    pose proof (has_char_all_chars _ _ _ E Hall) as Hn.
    cbv beta in Hn. rewrite Hop in Hn. discriminate. }
  rewrite drop_app_le
    by (unfold PyStr.strip;
        etransitivity; [apply length_rstrip | apply length_lstrip]).
  rewrite !has_char_app, Hpre. cbn [orb].
  destruct (PyStr.has_char c post); [apply orb_true_r|].
  rewrite orb_false_r.
  destruct (PyStr.has_char c (PyStr.drop _ pre)) eqn:E; [|reflexivity].
  apply has_char_drop in E. congruence.
Qed.

Lemma version_spec_operator (spec dep_type : string) :
  has_version_operator (version_spec (split_spec spec dep_type))
  = has_version_operator spec.
Proof.
  unfold has_version_operator.
  rewrite !version_spec_has_char by reflexivity. reflexivity.
Qed.

(** X20.  setup.py gives its runtime entries from the quoted strings of
    [install_requires] and its optional entries from those quoted strings
    of [extras_require] that hold [=], [>] or [<]; the version spec of an
    optional entry holds one of these characters, and a spec that holds
    none of them never appears as an optional entry. *)
Theorem setup_py_optional_versioned (content : string) :
  Forall (fun dep =>
            dep_type dep = "runtime"
            \/ (dep_type dep = "optional"
                /\ has_version_operator (version_spec dep) = true))
         (setup_py_dependencies content)
  /\ (forall dep,
        In dep (setup_py_dependencies content) -> dep_type dep = "runtime" ->
        exists requires_content package_spec,
          search_assignment "install_requires" "[" "]" content
            = Some requires_content
          /\ In package_spec (findall_quoted requires_content)
          /\ dep = split_spec package_spec "runtime")
  /\ (forall dep,
        In dep (setup_py_dependencies content) -> dep_type dep = "optional" ->
        exists extras_content package_spec,
          search_assignment "extras_require" "{" "}" content
            = Some extras_content
          /\ In package_spec (findall_quoted extras_content)
          /\ has_version_operator package_spec = true
          /\ dep = split_spec package_spec "optional")
  /\ (forall package_spec,
        has_version_operator package_spec = false ->
        ~ In (split_spec package_spec "optional")
             (setup_py_dependencies content)).
Proof.
  assert (Hcases : forall dep, In dep (setup_py_dependencies content) ->
            (exists requires_content package_spec,
               search_assignment "install_requires" "[" "]" content
                 = Some requires_content
               /\ In package_spec (findall_quoted requires_content)
               /\ dep = split_spec package_spec "runtime")
            \/ (exists extras_content package_spec,
                  search_assignment "extras_require" "{" "}" content
                    = Some extras_content
                  /\ In package_spec (findall_quoted extras_content)
                  /\ has_version_operator package_spec = true
                  /\ dep = split_spec package_spec "optional")).
  { intros dep Hdep. unfold setup_py_dependencies in Hdep.
    apply in_app_or in Hdep as [Hdep|Hdep].
    - left.
      destruct (search_assignment "install_requires" "[" "]" content)
        as [g|]; [|destruct Hdep].
      apply in_map_iff in Hdep as (spec & <- & Hspec).
      exists g, spec. repeat split; [exact Hspec].
    - right.
      destruct (search_assignment "extras_require" "{" "}" content)
        as [g|]; [|destruct Hdep].
      apply in_map_iff in Hdep as (spec & <- & Hspec).
      apply filter_In in Hspec as [Hspec Hop].
      exists g, spec. repeat split; assumption. }
  assert (Hall : Forall (fun dep =>
            dep_type dep = "runtime"
            \/ (dep_type dep = "optional"
                /\ has_version_operator (version_spec dep) = true))
         (setup_py_dependencies content)).
  { apply List.Forall_forall. intros dep Hdep.
    destruct (Hcases dep Hdep) as [(g & spec & _ & _ & ->)
                                  | (g & spec & _ & _ & Hop & ->)].
    - left. reflexivity.
    - right. split; [reflexivity|]. rewrite version_spec_operator. exact Hop. }
  split; [exact Hall|]. split; [|split].
  - intros dep Hdep Hty.
    destruct (Hcases dep Hdep) as [H | (g & spec & _ & _ & _ & ->)];
      [exact H | discriminate Hty].
  - intros dep Hdep Hty.
    destruct (Hcases dep Hdep) as [(g & spec & _ & _ & ->) | H];
      [discriminate Hty | exact H].
  - intros package_spec Hno Hin.
    rewrite List.Forall_forall in Hall.
    destruct (Hall _ Hin) as [Hty | [_ Hv]]; [discriminate Hty|].
    rewrite version_spec_operator in Hv. congruence.
Qed.

Lemma setup_py_optional_versioned_witness :
  setup_py_dependencies
    "setup(install_requires=['six'], extras_require={'dev': ['pytest>=3', 'mock', 'z!1']})"
  = [mkDep "six" "" "runtime"; mkDep "pytest" ">=3" "optional"]
  /\ ~ In (split_spec "mock" "optional")
          (setup_py_dependencies
             "setup(install_requires=['six'], extras_require={'dev': ['pytest>=3', 'mock', 'z!1']})")
  /\ ~ In (split_spec "z!1" "optional")
          (setup_py_dependencies
             "setup(install_requires=['six'], extras_require={'dev': ['pytest>=3', 'mock', 'z!1']})").
Proof.
  split; [vm_compute; reflexivity|]. split.
  - apply (proj2 (proj2 (proj2 (setup_py_optional_versioned _)))).
    reflexivity.
  - apply (proj2 (proj2 (proj2 (setup_py_optional_versioned _)))).
    reflexivity.
Defined.

(** X21.  Every entry read from a requirements file has a non-empty name
    made of letters, digits, [_], [.] and [-] only, and the group that the
    file name decides; there are no more entries than lines. *)
Theorem requirements_entries_named (w : World) (file_path : Path) :
  Forall (fun dep =>
            name dep <> EmptyString
            /\ all_chars is_name_char (name dep) = true
            /\ dep_type dep
               = _determine_dep_type_from_filename (path_name file_path))
         (fst (parse_requirements_txt w file_path))
  /\ length (fst (parse_requirements_txt w file_path))
     <= length (lines (open_file w file_path)).
Proof.
  unfold parse_requirements_txt. rewrite read_requirements_entries.
  cbn [fst app]. split.
  - apply List.Forall_forall. intros dep Hdep.
    apply list_elem_of_In, list_elem_of_omap in Hdep as (l & _ & Hl).
    destruct (requirement_line_split _ _ _ Hl) as (Hname & _ & Hty).
    split; [|split; [|exact Hty]].
    + rewrite Hname. unfold parse_requirement_line, match_requirement in Hl.
      destruct (PyStr.strip l); [discriminate|].
      destruct (PyStr.startswith _ "#"); [discriminate|].
      destruct (PyStr.startswith _ "-"); [discriminate|].
      destruct (PyStr.span is_name_char _) as [[|r run] rest];
        [discriminate Hl | discriminate].
    + rewrite Hname. apply span_all.
  - induction (lines (open_file w file_path)) as [|l ls IH];
      cbn [omap list_omap length]; [lia|].
    destruct (parse_requirement_line _ l); cbn [length]; lia.
Qed.

Lemma contains_longer (short rest s : string) :
  PyStr.contains (short ++ rest) s = true -> PyStr.contains short s = true.
Proof.
  rewrite !contains_substring. intros (a & b & ->).
  exists a, (rest ++ b)%string. rewrite append_assoc. reflexivity.
Qed.

(** X22.  The group of a requirements file is dev exactly when its
    lowercased name holds dev, test or doc, and runtime otherwise; the
    longer keywords of the code add nothing. *)
Theorem determine_dep_type_keywords (filename : string) :
  _determine_dep_type_from_filename filename
  = if PyStr.contains_any ["dev"; "test"; "doc"] (PyStr.lower filename)
    then "dev" else "runtime".
Proof.
  unfold _determine_dep_type_from_filename, PyStr.contains_any.
  cbn [existsb]. rewrite !orb_false_r.
  set (s := PyStr.lower filename).
  destruct (PyStr.contains "dev" s) eqn:E1; [reflexivity|].
  destruct (PyStr.contains "development" s) eqn:E2.
  { apply (contains_longer "dev" "elopment" s) in E2. congruence. }
  destruct (PyStr.contains "test" s) eqn:E3; [reflexivity|].
  destruct (PyStr.contains "testing" s) eqn:E4.
  { apply (contains_longer "test" "ing" s) in E4. congruence. }
  destruct (PyStr.contains "doc" s) eqn:E5; [reflexivity|].
  destruct (PyStr.contains "docs" s) eqn:E6.
  { apply (contains_longer "doc" "s" s) in E6. congruence. }
  reflexivity.
Qed.

(** ** Attribution of longer texts *)

Lemma lower_app (a b : string) :
  PyStr.lower (a ++ b) = (PyStr.lower a ++ PyStr.lower b)%string.
Proof. induction a as [|c a IH]; cbn; congruence. Qed.

(** X23.  A license text that needs no attribution keeps that answer inside
    any longer text: whatever is written before or after it, also a license
    of the attribution list, the result stays false. *)
Theorem no_attribution_survives_context (license_text before after : string) :
  _requires_attribution license_text = false ->
  _requires_attribution (before ++ license_text ++ after) = false.
Proof.
  unfold _requires_attribution.
  destruct (PyStr.contains_any no_attribution (PyStr.lower license_text))
    eqn:E;
    [intros _
    | destruct (PyStr.contains_any attribution_required
                  (PyStr.lower license_text)); intros H; discriminate H].
  apply contains_any_substring in E.
  assert (E' : PyStr.contains_any no_attribution
                 (PyStr.lower (before ++ license_text ++ after)) = true).
  { apply contains_any_substring. rewrite !lower_app.
    eapply Exists_impl; [exact E|]. intros k (a & b & ->).
    exists (PyStr.lower before ++ a)%string, (b ++ PyStr.lower after)%string.
    rewrite !append_assoc. reflexivity. }
  rewrite E'. reflexivity.
Qed.

Lemma no_attribution_survives_context_witness :
  _requires_attribution "MIT OR Unlicense (dual)" = false.
Proof.
  apply (no_attribution_survives_context "Unlicense" "MIT OR " " (dual)").
  reflexivity.
Defined.

(** ** pyproject.toml entries and the project name *)

Lemma add_specs_strings (dep_type : string) (specs : list string)
    (rest : list toml_value) :
  add_specs dep_type (map TStr specs ++ rest)
  = (map (fun spec => split_spec spec dep_type) specs
       ++ fst (add_specs dep_type rest),
     snd (add_specs dep_type rest)).
Proof.
  induction specs as [|spec specs IH]; cbn [map app add_specs].
  - destruct (add_specs dep_type rest). reflexivity.
  - rewrite IH. reflexivity.
Qed.

(** X24.  An array of dependency strings in pyproject.toml gives one entry
    per string, in order and without a warning; a value in the array that
    is not a string (another scalar, an array, a table) ends the reading
    there: the entries of the strings before it are kept, those after it are
    not read, and the failure is flagged. *)
Theorem add_specs_until_first_non_string (dep_type : string)
    (specs : list string) (other : string) (elems : list toml_value)
    (entries : list (string * toml_value)) (rest : list toml_value) :
  add_specs dep_type (map TStr specs)
  = (map (fun spec => split_spec spec dep_type) specs, false)
  /\ add_specs dep_type (map TStr specs ++ TScalar other :: rest)
     = (map (fun spec => split_spec spec dep_type) specs, true)
  /\ add_specs dep_type (map TStr specs ++ TArray elems :: rest)
     = (map (fun spec => split_spec spec dep_type) specs, true)
  /\ add_specs dep_type (map TStr specs ++ TTable entries :: rest)
     = (map (fun spec => split_spec spec dep_type) specs, true).
Proof.
  split; [|split; [|split]].
  - rewrite <- (app_nil_r (map TStr specs)), add_specs_strings.
    cbn. rewrite app_nil_r. reflexivity.
  - rewrite add_specs_strings. cbn. rewrite app_nil_r. reflexivity.
  - rewrite add_specs_strings. cbn. rewrite app_nil_r. reflexivity.
  - rewrite add_specs_strings. cbn. rewrite app_nil_r. reflexivity.
Qed.

Lemma quoted_here_group (s g : string) :
  quoted_here s = Some g ->
  g <> EmptyString /\ all_chars (fun c => negb (is_quote c)) g = true.
Proof.
  unfold quoted_here. destruct s as [|q t]; [discriminate|].
  destruct (is_quote q); [|discriminate].
  pose proof (span_all (fun c => negb (is_quote c)) t) as Hall.
  destruct (PyStr.span (fun c => negb (is_quote c)) t) as [[|c run] [|r rest]];
    try discriminate.
  intros [= <-]. split; [discriminate | exact Hall].
Qed.

Lemma search_name_assignment_group (s g : string) :
  search_name_assignment s = Some g ->
  g <> EmptyString /\ all_chars (fun c => negb (is_quote c)) g = true.
Proof.
  assert (Hhere : forall t, name_assignment_here t = Some g ->
            g <> EmptyString /\ all_chars (fun c => negb (is_quote c)) g = true).
  { intros t. unfold name_assignment_here.
    destruct (String.prefix "name" t); [|discriminate].
    destruct (PyStr.lstrip (PyStr.drop 4 t)) as [|e u]; [discriminate|].
    destruct (Ascii.eqb e "="); [|discriminate]. apply quoted_here_group. }
  induction s as [|c s IH]; cbn [search_name_assignment].
  - destruct (name_assignment_here EmptyString) eqn:E; [|discriminate].
    intros [= <-]. apply (Hhere _ E).
  - destruct (name_assignment_here (String c s)) eqn:E; [|exact IH].
    intros [= <-]. apply (Hhere _ E).
Qed.

(** X25.  When pyproject.toml gives nothing to read (no file, no [toml]
    module, a read error or a decoding error), the project name is the first
    quoted name assignment of setup.py, which is never empty and holds no
    quote, and without one the name of the root directory; no failure on
    the way stops the detection. *)
Theorem detect_project_name_fallback (w : World) (root_name : string) :
  pyproject_unusable w ->
  match name_from_setup_py w with
  | Some found =>
      _detect_project_name w root_name = TStr found
      /\ found <> EmptyString
      /\ all_chars (fun c => negb (is_quote c)) found = true
  | None => _detect_project_name w root_name = TStr root_name
  end.
Proof.
  intros Hunusable.
  assert (Hpy : name_from_pyproject w = None).
  { unfold pyproject_unusable in Hunusable. unfold name_from_pyproject.
    destruct (fs w "pyproject.toml") as [f|]; [|reflexivity].
    destruct (toml w) as [load|]; [|reflexivity].
    destruct (read f) as [text|]; [|reflexivity].
    rewrite Hunusable. reflexivity. }
  unfold _detect_project_name. rewrite Hpy.
  destruct (name_from_setup_py w) as [found|] eqn:E; [|reflexivity].
  split; [reflexivity|].
  unfold name_from_setup_py in E.
  destruct (fs w "setup.py") as [f|]; [|discriminate].
  destruct (read f) as [content|]; [|discriminate].
  apply (search_name_assignment_group _ _ E).
Qed.

Lemma detect_project_name_fallback_witness :
  _detect_project_name setup_world "project" = TStr "tool"
  /\ _detect_project_name demo_world "project" = TStr "project".
Proof.
  split.
  - apply (detect_project_name_fallback setup_world "project"). exact I.
  - apply (detect_project_name_fallback demo_world "project"). exact I.
Defined.

(** ** Rule 1 of the filter *)

(** On patterns in which only [*] and [?] are special, and names without a
    newline, the filter returns and rule 1 holds of the glob match too. *)
Lemma filter_dependencies_glob_sound (w : World) (D : list DependencyInfo)
    (include_dev include_optional runtime_only : bool)
    (exclude_patterns : list string) :
  forallb glob_plain exclude_patterns = true ->
  forallb (fun dep => no_newline (name dep)) D = true ->
  exists filtered,
    filter_dependencies w D include_dev include_optional runtime_only
      exclude_patterns = Some filtered
    /\ sublist filtered D
    /\ Forall (Retained_glob include_dev include_optional runtime_only
                 exclude_patterns) filtered.
Proof.
  intros Hpat HD.
  destruct (filter_dependencies_returns w D include_dev include_optional
              runtime_only exclude_patterns Hpat HD) as [filtered Hf].
  exists filtered. split; [exact Hf|].
  pose proof (filter_dependencies_sound w D include_dev include_optional
                runtime_only exclude_patterns) as Hs.
  rewrite Hf in Hs. destruct Hs as (Hsub & _ & Hall).
  split; [exact Hsub|].
  rewrite List.Forall_forall in Hall |- *. intros dep Hdep.
  destruct (Hall dep Hdep) as (H1 & H2 & H3 & H4).
  split; [|split; [|split]]; try assumption.
  intros pattern Hp. specialize (H1 pattern Hp).
  rewrite matches_pattern_glob in H1.
  - injection H1 as H1. exact H1.
  - apply (proj1 (forallb_forall _ _) Hpat pattern Hp).
  - apply (proj1 (forallb_forall _ _) HD dep).
    apply (filter_dependencies_kept _ _ _ _ _ _ _ Hf dep Hdep).
Qed.

(** C1.  The filter hands each exclude pattern to [re] unescaped, the defect
    of C6, and so misses rule 1 of section 4.4.  The entry named
    requests[security] is kept against the exclude pattern
    requests[security], which the glob matches, wherever [re.match] answers
    on that expression as CPython does (no match, the brackets being a
    character class); and with the exclude pattern made of one opening
    bracket nothing is returned, wherever [re.match] raises on it as CPython
    does. *)
Theorem filter_keeps_glob_matched_name (w : World) :
  re_other w "^requests[security]$" "requests[security]" = Some false ->
  re_other w "^[$" "requests" = None ->
  filter_dependencies w [mkDep "requests[security]" ">=2.0" "runtime"]
    false false false ["requests[security]"]
  = Some [mkDep "requests[security]" ">=2.0" "runtime"]
  /\ glob_match "requests[security]" "requests[security]" = true
  /\ filter_dependencies w [mkDep "requests" "" "runtime"]
       false false false ["["] = None.
Proof.
  intros Hclass Hraise.
  assert (E1 : _matches_pattern w "requests[security]" "requests[security]"
               = Some false).
  { unfold _matches_pattern, re_match_ignorecase.
    replace (Re.compile _) with (@None (list Re.item))
      by (vm_compute; reflexivity).
    exact Hclass. }
  assert (E2 : _matches_pattern w "requests" "[" = None).
  { unfold _matches_pattern, re_match_ignorecase.
    replace (Re.compile _) with (@None (list Re.item))
      by (vm_compute; reflexivity).
    exact Hraise. }
  split; [|split].
  - cbn [filter_dependencies matches_any name]. rewrite E1. reflexivity.
  - vm_compute. reflexivity.
  - cbn [filter_dependencies matches_any name]. rewrite E2. reflexivity.
Qed.

Lemma filter_keeps_glob_matched_name_witness :
  filter_dependencies bracket_world
    [mkDep "requests[security]" ">=2.0" "runtime"]
    false false false ["requests[security]"]
  = Some [mkDep "requests[security]" ">=2.0" "runtime"]
  /\ glob_match "requests[security]" "requests[security]" = true
  /\ filter_dependencies bracket_world [mkDep "requests" "" "runtime"]
       false false false ["["] = None.
Proof.
  apply (filter_keeps_glob_matched_name bracket_world); reflexivity.
Defined.
